(** * SPIFlashAnalyzer: a shallow embedding of the high-level analyzer

    The analyzer of [SPIFlashAnalyzer.py] turns the samples of a
    "simple parallel" capture (chip select on bit 15, host-out on bit 0,
    device-in on bit 1, four lanes on bits 0..3) into SPI-NOR flash
    transactions.  The class [SPIFlash] is embedded below: its attributes are
    the fields of [State], its settings the fields of [Settings], and
    [decode] is the method of the same name, written with explicit state
    passing and an error monad for the exceptions Python can raise.

    Numbers: Python integers are [Z]; the host's time stamps and the number
    settings (Python floats) are exact rationals [Q], so rounding of
    floating-point arithmetic is not modelled. *)

From Stdlib Require Import ZArith QArith Bool List String Ascii Lia Lqa.
Import ListNotations.

Local Open Scope string_scope.
Local Open Scope list_scope.
Local Open Scope Z_scope.

(** ** Python values, dictionaries and exceptions *)

Inductive exn : Type :=
| ValueError      (* bytearray.extend with an element outside range(256) *)
| AttributeError  (* self._command read before its first assignment *)
| KeyError        (* a missing dictionary key *)
| TypeError.      (* a value of the wrong kind *)

Inductive outcome (A : Type) : Type :=
| Ok (a : A)
| Raise (e : exn).
Arguments Ok {A} a.
Arguments Raise {A} e.

Definition bind {A B : Type} (m : outcome A) (k : A -> outcome B) : outcome B :=
  match m with
  | Ok a => k a
  | Raise e => Raise e
  end.

Notation "x <- m ;; k" := (bind m (fun x => k))
  (at level 61, m at next level, right associativity).
Notation "' p <- m ;; k" := (bind m (fun x => let p := x in k))
  (at level 61, p pattern, m at next level, right associativity).

Inductive value : Type :=
| VInt (n : Z)
| VStr (s : string)
| VList (l : list Z).

(** A dictionary with string keys, in insertion order. *)
Definition dict : Type := list (string * value).

Fixpoint dict_get (k : string) (d : dict) : option value :=
  match d with
  | [] => None
  | (k', v) :: d' => if String.eqb k k' then Some v else dict_get k d'
  end.

Fixpoint dict_set (k : string) (v : value) (d : dict) : dict :=
  match d with
  | [] => [(k, v)]
  | (k', v') :: d' =>
      if String.eqb k k' then (k', v) :: d' else (k', v') :: dict_set k v d'
  end.

(** [d[k]] *)
Definition getitem (k : string) (d : dict) : outcome value :=
  match dict_get k d with
  | Some v => Ok v
  | None => Raise KeyError
  end.

(** The command tables are dictionaries keyed by the opcode. *)
Fixpoint lookup {V : Type} (k : Z) (d : list (Z * V)) : option V :=
  match d with
  | [] => None
  | (k', v) :: d' => if k =? k' then Some v else lookup k d'
  end.

(** [k in d] *)
Definition contains {V : Type} (k : Z) (d : list (Z * V)) : bool :=
  match lookup k d with
  | Some _ => true
  | None => false
  end.

(** ** The command tables *)

(* Value is dummy clocks *)
Definition CONTINUE_COMMANDS : list (Z * Z) :=
  [ (0x6b, 8);
    (0xe7, 2);
    (0xeb, 4) ].

Definition DATA_COMMANDS : list (Z * string) :=
  [ (0x03, "Read");
    (0x0b, "Fast Read");
    (0x5b, "Read SFDP");
    (0x6b, "Quad-Output Fast Read");
    (0x9e, "Read JEDEC ID");
    (0x9f, "Read JEDEC ID");
    (0xe7, "Quad Word Read");
    (0xeb, "Quad Read");
    (0x02, "Page Program");
    (0x32, "Quad Page Program");
    (* IS25LP128F Specific Commands *)
    (0x12, "4-byte PAGE PROGRAM");
    (0x13, "4-byte READ");
    (0x34, "4-byte QUAD INPUT PAGE PROGRAM");
    (0x5C, "4-byte BLOCK ERASE 32KB");
    (0xD8, "4-byte BLOCK ERASE 64KB");
    (0x20, "4-byte SECTOR ERASE 4KB");
    (0xE1, "4-byte WRITE DYB REGISTER");
    (0xE3, "4-byte PROGRAM PPB") ].

Definition EN4B : Z := 0xB7.
Definition EX4B : Z := 0xE9.

Definition CONTROL_COMMANDS : list (Z * string) :=
  [ (0x01, "Write Status Register 1");
    (0x06, "Write Enable");
    (0x04, "Write Disable");
    (0x05, "Read Status Register");
    (0x35, "Read Status Register 2");
    (0x5A, "Read SFDP Mode");
    (0x75, "Program Suspend");
    (0xAB, "Release Power-down / Device ID");
    (EN4B, "Enable 4 Byte Address");
    (EX4B, "Exit 4 Byte Address");
    (* IS25LP128F Specific Commands *)
    (0x85, "Read Extended Read Parameters");
    (0xC0, "Set Read Parameters");
    (0x61, "Read Read Parameters") ].

(** [table[k]] for a key the table is known to hold. *)
Definition table_at (k : Z) (table : list (Z * string)) : string :=
  match lookup k table with
  | Some v => v
  | None => ""
  end.

(** ** Frames

    [FakeFrame] and the host's [AnalyzerFrame] have the same four attributes;
    one record serves for both.  The time stamps are optional because
    [FakeFrame]'s [time] argument defaults to [None]. *)

Record Frame : Type := mkFrame {
  type : string;
  start_time : option Q;
  end_time : option Q;
  data : dict
}.

Definition FakeFrame (t : string) (time : option Q) : Frame :=
  {| type := t; start_time := time; end_time := time; data := [] |}.

(** [AnalyzerFrame(type, start_time, end_time, data)] *)
Definition AnalyzerFrame (t : string) (st en : option Q) (d : dict) : Frame :=
  {| type := t; start_time := st; end_time := en; data := d |}.

(** [f.data[k] = v] *)
Definition set_data (k : string) (v : value) (f : Frame) : Frame :=
  {| type := type f; start_time := start_time f; end_time := end_time f;
     data := dict_set k v (data f) |}.

(** ** Settings and attributes *)

Definition decode_level_choices : list string :=
  [ "Everything"; "Only Data"; "Only Errors"; "Only Control" ].

Record Settings : Type := mkSettings {
  address_bytes : Q;    (* NumberSetting(min_value=1, max_value=4) *)
  min_address : Q;      (* NumberSetting(min_value=0) *)
  max_address : Q;      (* NumberSetting(min_value=0) *)
  decode_level : string (* one of decode_level_choices *)
}.

(** The attributes of [SPIFlash], in the order [__init__] assigns them.
    [_address_format] holds the field width [w] of the format string
    ["{:0w x}"]; [_command] is [None] until its first assignment, since
    [__init__] does not create that attribute. *)
Record State : Type := mkState {
  _start_time : option Q;
  _address_bytes : Z;
  _address_format : Z;
  _min_address : Z;
  _max_address : option Z;
  _miso_data : option (list Z);
  _mosi_data : option (list Z);
  _empty_result_count : Z;
  _last_cs : Z;
  _last_time : option Q;
  _transaction : Z;
  _clock_count : Z;
  _mosi_out : Z;
  _miso_in : Z;
  _quad_data : Z;
  _quad_start : option Z;
  _continuous : bool;
  _dummy : Z;
  _fastest_cs : Q;
  _command : option Z
}.

Definition set_start_time (v : option Q) (s : State) : State :=
  mkState v (_address_bytes s) (_address_format s) (_min_address s)
    (_max_address s) (_miso_data s) (_mosi_data s) (_empty_result_count s)
    (_last_cs s) (_last_time s) (_transaction s) (_clock_count s) (_mosi_out
    s) (_miso_in s) (_quad_data s) (_quad_start s) (_continuous s) (_dummy s)
    (_fastest_cs s) (_command s).

Definition set_address_bytes (v : Z) (s : State) : State :=
  mkState (_start_time s) v (_address_format s) (_min_address s)
    (_max_address s) (_miso_data s) (_mosi_data s) (_empty_result_count s)
    (_last_cs s) (_last_time s) (_transaction s) (_clock_count s) (_mosi_out
    s) (_miso_in s) (_quad_data s) (_quad_start s) (_continuous s) (_dummy s)
    (_fastest_cs s) (_command s).

Definition set_address_format (v : Z) (s : State) : State :=
  mkState (_start_time s) (_address_bytes s) v (_min_address s)
    (_max_address s) (_miso_data s) (_mosi_data s) (_empty_result_count s)
    (_last_cs s) (_last_time s) (_transaction s) (_clock_count s) (_mosi_out
    s) (_miso_in s) (_quad_data s) (_quad_start s) (_continuous s) (_dummy s)
    (_fastest_cs s) (_command s).

Definition set_miso_data (v : option (list Z)) (s : State) : State :=
  mkState (_start_time s) (_address_bytes s) (_address_format s)
    (_min_address s) (_max_address s) v (_mosi_data s) (_empty_result_count s)
    (_last_cs s) (_last_time s) (_transaction s) (_clock_count s) (_mosi_out
    s) (_miso_in s) (_quad_data s) (_quad_start s) (_continuous s) (_dummy s)
    (_fastest_cs s) (_command s).

Definition set_mosi_data (v : option (list Z)) (s : State) : State :=
  mkState (_start_time s) (_address_bytes s) (_address_format s)
    (_min_address s) (_max_address s) (_miso_data s) v (_empty_result_count s)
    (_last_cs s) (_last_time s) (_transaction s) (_clock_count s) (_mosi_out
    s) (_miso_in s) (_quad_data s) (_quad_start s) (_continuous s) (_dummy s)
    (_fastest_cs s) (_command s).

Definition set_empty_result_count (v : Z) (s : State) : State :=
  mkState (_start_time s) (_address_bytes s) (_address_format s)
    (_min_address s) (_max_address s) (_miso_data s) (_mosi_data s) v
    (_last_cs s) (_last_time s) (_transaction s) (_clock_count s) (_mosi_out
    s) (_miso_in s) (_quad_data s) (_quad_start s) (_continuous s) (_dummy s)
    (_fastest_cs s) (_command s).

Definition set_last_time (v : option Q) (s : State) : State :=
  mkState (_start_time s) (_address_bytes s) (_address_format s)
    (_min_address s) (_max_address s) (_miso_data s) (_mosi_data s)
    (_empty_result_count s) (_last_cs s) v (_transaction s) (_clock_count s)
    (_mosi_out s) (_miso_in s) (_quad_data s) (_quad_start s) (_continuous s)
    (_dummy s) (_fastest_cs s) (_command s).

Definition set_transaction (v : Z) (s : State) : State :=
  mkState (_start_time s) (_address_bytes s) (_address_format s)
    (_min_address s) (_max_address s) (_miso_data s) (_mosi_data s)
    (_empty_result_count s) (_last_cs s) (_last_time s) v (_clock_count s)
    (_mosi_out s) (_miso_in s) (_quad_data s) (_quad_start s) (_continuous s)
    (_dummy s) (_fastest_cs s) (_command s).

Definition set_clock_count (v : Z) (s : State) : State :=
  mkState (_start_time s) (_address_bytes s) (_address_format s)
    (_min_address s) (_max_address s) (_miso_data s) (_mosi_data s)
    (_empty_result_count s) (_last_cs s) (_last_time s) (_transaction s) v
    (_mosi_out s) (_miso_in s) (_quad_data s) (_quad_start s) (_continuous s)
    (_dummy s) (_fastest_cs s) (_command s).

Definition set_mosi_out (v : Z) (s : State) : State :=
  mkState (_start_time s) (_address_bytes s) (_address_format s)
    (_min_address s) (_max_address s) (_miso_data s) (_mosi_data s)
    (_empty_result_count s) (_last_cs s) (_last_time s) (_transaction s)
    (_clock_count s) v (_miso_in s) (_quad_data s) (_quad_start s)
    (_continuous s) (_dummy s) (_fastest_cs s) (_command s).

Definition set_miso_in (v : Z) (s : State) : State :=
  mkState (_start_time s) (_address_bytes s) (_address_format s)
    (_min_address s) (_max_address s) (_miso_data s) (_mosi_data s)
    (_empty_result_count s) (_last_cs s) (_last_time s) (_transaction s)
    (_clock_count s) (_mosi_out s) v (_quad_data s) (_quad_start s)
    (_continuous s) (_dummy s) (_fastest_cs s) (_command s).

Definition set_quad_data (v : Z) (s : State) : State :=
  mkState (_start_time s) (_address_bytes s) (_address_format s)
    (_min_address s) (_max_address s) (_miso_data s) (_mosi_data s)
    (_empty_result_count s) (_last_cs s) (_last_time s) (_transaction s)
    (_clock_count s) (_mosi_out s) (_miso_in s) v (_quad_start s) (_continuous
    s) (_dummy s) (_fastest_cs s) (_command s).

Definition set_quad_start (v : option Z) (s : State) : State :=
  mkState (_start_time s) (_address_bytes s) (_address_format s)
    (_min_address s) (_max_address s) (_miso_data s) (_mosi_data s)
    (_empty_result_count s) (_last_cs s) (_last_time s) (_transaction s)
    (_clock_count s) (_mosi_out s) (_miso_in s) (_quad_data s) v (_continuous
    s) (_dummy s) (_fastest_cs s) (_command s).

Definition set_continuous (v : bool) (s : State) : State :=
  mkState (_start_time s) (_address_bytes s) (_address_format s)
    (_min_address s) (_max_address s) (_miso_data s) (_mosi_data s)
    (_empty_result_count s) (_last_cs s) (_last_time s) (_transaction s)
    (_clock_count s) (_mosi_out s) (_miso_in s) (_quad_data s) (_quad_start s)
    v (_dummy s) (_fastest_cs s) (_command s).

Definition set_dummy (v : Z) (s : State) : State :=
  mkState (_start_time s) (_address_bytes s) (_address_format s)
    (_min_address s) (_max_address s) (_miso_data s) (_mosi_data s)
    (_empty_result_count s) (_last_cs s) (_last_time s) (_transaction s)
    (_clock_count s) (_mosi_out s) (_miso_in s) (_quad_data s) (_quad_start s)
    (_continuous s) v (_fastest_cs s) (_command s).

Definition set_fastest_cs (v : Q) (s : State) : State :=
  mkState (_start_time s) (_address_bytes s) (_address_format s)
    (_min_address s) (_max_address s) (_miso_data s) (_mosi_data s)
    (_empty_result_count s) (_last_cs s) (_last_time s) (_transaction s)
    (_clock_count s) (_mosi_out s) (_miso_in s) (_quad_data s) (_quad_start s)
    (_continuous s) (_dummy s) v (_command s).

Definition set_command (v : option Z) (s : State) : State :=
  mkState (_start_time s) (_address_bytes s) (_address_format s)
    (_min_address s) (_max_address s) (_miso_data s) (_mosi_data s)
    (_empty_result_count s) (_last_cs s) (_last_time s) (_transaction s)
    (_clock_count s) (_mosi_out s) (_miso_in s) (_quad_data s) (_quad_start s)
    (_continuous s) (_dummy s) (_fastest_cs s) v.


(** ** Python arithmetic and formatting *)

Definition Qltb (a b : Q) : bool := negb (Qle_bool b a).

(** [min(a, b)] returns its first argument unless the second is smaller. *)
Definition py_min (a b : Q) : Q := if Qltb b a then b else a.

(** [int(x)] of a float truncates toward zero. *)
Definition py_int (x : Q) : Z := Z.quot (Qnum x) (Z.pos (Qden x)).

(** Truth value of a number. *)
Definition truthy (x : Q) : bool := negb (Qeq_bool x 0).

Definition hex_digit (d : Z) : ascii :=
  nth (Z.to_nat d) (list_ascii_of_string "0123456789abcdef") "0"%char.

Fixpoint hex_digits (fuel : nat) (n : Z) (acc : string) : string :=
  match fuel with
  | O => acc
  | S fuel' =>
      let acc' := String (hex_digit (n mod 16)) acc in
      if n / 16 =? 0 then acc' else hex_digits fuel' (n / 16) acc'
  end.

(** The hexadecimal digits of [n >= 0], lower case, no prefix. *)
Definition to_hex (n : Z) : string :=
  hex_digits (S (Z.to_nat (Z.log2 n))) n "".

Fixpoint zeros (k : nat) : string :=
  match k with
  | O => ""
  | S k' => String "0"%char (zeros k')
  end.

Definition zfill (w : Z) (digits : string) : string :=
  (zeros (Z.to_nat w - String.length digits) ++ digits)%string.

(** ["{:0wx}".format(n)]: the sign first, then zeros up to [w] characters. *)
Definition format_hex (w : Z) (n : Z) : string :=
  if n <? 0 then ("-" ++ zfill (w - 1) (to_hex (- n)))%string
  else zfill w (to_hex n).

(** [hex(n)] *)
Definition py_hex (n : Z) : string :=
  if n <? 0 then ("-0x" ++ to_hex (- n))%string else ("0x" ++ to_hex n)%string.

Definition upper_char (c : ascii) : ascii :=
  let n := nat_of_ascii c in
  if (Nat.leb 97 n && Nat.leb n 122)%bool then ascii_of_nat (n - 32) else c.

(** [s.upper()] *)
Fixpoint upper (s : string) : string :=
  match s with
  | EmptyString => EmptyString
  | String c s' => String (upper_char c) (upper s')
  end.

(** [s[2:]] *)
Definition drop2 (s : string) : string :=
  match s with
  | String _ (String _ s') => s'
  | _ => ""
  end.

(** ** [__init__] *)

Definition init (cfg : Settings) : State :=
  {| _start_time := None;
     _address_bytes := 3;
     _address_format := 2 * 3;
     _min_address := py_int (min_address cfg);
     _max_address :=
       if truthy (max_address cfg) then Some (py_int (max_address cfg))
       else None;
     _miso_data := None;
     _mosi_data := None;
     _empty_result_count := 0;
     _last_cs := 1;
     _last_time := None;
     _transaction := 0;
     _clock_count := 0;
     _mosi_out := 0;
     _miso_in := 0;
     _quad_data := 0;
     _quad_start := None;
     _continuous := false;
     _dummy := 0;
     _fastest_cs := 2000000;
     _command := None |}.

(** ** [decode]: burst boundaries and lane assembly (the [data] branch) *)

(** Reading [self._command]. *)
Definition read_command (s : State) : outcome Z :=
  match _command s with
  | Some c => Ok c
  | None => Raise AttributeError
  end.

(** A ["result"] frame carrying one byte for each direction. *)
Definition result_frame (mosi miso : Z) : Frame :=
  let f := FakeFrame "result" None in
  let f := set_data "mosi" (VList [mosi]) f in
  let f := set_data "miso" (VList [miso]) f in
  f.

(** The time since the previous sample, in nanoseconds; the first sample
    takes the threshold [_fastest_cs] in place of the difference, and the
    same scaling is applied to it.  A time stamp of the host is an object
    and counts as true in [if self._last_time:]; only [None] is false. *)
Definition gap (s : State) (frame : Frame) : outcome Q :=
  diff <- match _last_time s with
          | Some last =>
              match start_time frame with
              | Some t => Ok (t - last)%Q
              | None => Raise TypeError
              end
          | None => Ok (_fastest_cs s)
          end ;;
  Ok (diff * 1000000000)%Q.

(** The body of [if diff > self._fastest_cs and cs == 0:]. *)
Definition start_burst (s : State) (frame : Frame)
  : outcome (State * list Frame) :=
  let frames :=
    if 0 <? _transaction s then [FakeFrame "disable" (_last_time s)] else [] in
  let frames := frames ++ [FakeFrame "enable" (start_time frame)] in
  let s := set_transaction (_transaction s + 1) s in
  let s := set_clock_count 0 s in
  if negb (_continuous s) then
    let s := set_command (Some 0) s in
    let s := set_quad_start None s in
    let s := set_dummy 0 s in
    let s := set_mosi_out 0 s in
    let s := set_miso_in 0 s in
    Ok (s, frames)
  else
    let s := set_clock_count 8 s in
    command <- read_command s ;;
    Ok (s, frames ++ [result_frame command 0]).

(** [self._quad_start is None or self._clock_count < self._quad_start] *)
Definition single_lane (s : State) : bool :=
  match _quad_start s with
  | None => true
  | Some q => _clock_count s <? q
  end.

(** The single-lane branch: one bit of each direction per clock. *)
Definition shift_single (s : State) (word : Z) (frames : list Frame)
  : State * list Frame :=
  let s := set_mosi_out (Z.lor (Z.shiftl (_mosi_out s) 1) (Z.land word 0x1)) s in
  let s :=
    set_miso_in
      (Z.lor (Z.shiftl (_miso_in s) 1) (Z.land (Z.shiftr word 1) 0x1)) s in
  if _clock_count s mod 8 =? 7 then
    let s :=
      if _clock_count s =? 7 then
        let s := set_command (Some (_mosi_out s)) s in
        match lookup (_mosi_out s) CONTINUE_COMMANDS with
        | Some dummy => set_dummy dummy (set_quad_start (Some 8) s)
        | None => s
        end
      else s in
    let frames := frames ++ [result_frame (_mosi_out s) (_miso_in s)] in
    let s := set_mosi_out 0 s in
    let s := set_miso_in 0 s in
    (s, frames)
  else (s, frames).

(** [not 15 < self._clock_count <= 15 + self._dummy] *)
Definition outside_dummy_window (s : State) : bool :=
  negb ((15 <? _clock_count s) && (_clock_count s <=? 15 + _dummy s)).

(** The quad-lane branch: one nibble per clock. *)
Definition shift_quad (s : State) (word : Z) (frames : list Frame)
  : outcome (State * list Frame) :=
  let s := set_quad_data (Z.lor (Z.shiftl (_quad_data s) 4) (Z.land word 0xf)) s in
  if _clock_count s mod 2 =? 1 then
    let f :=
      if outside_dummy_window s then result_frame (_quad_data s) 0
      else result_frame 0 (_quad_data s) in
    let frames := frames ++ [f] in
    command <- read_command s ;;
    let s :=
      if contains command CONTINUE_COMMANDS && (_clock_count s =? 15) then
        set_continuous (Z.land (_quad_data s) 0xf0 =? 0xa0) s
      else s in
    let s := set_quad_data 0 s in
    Ok (s, frames)
  else Ok (s, frames).

(** [if diff > self._fastest_cs and cs == 0:] *)
Definition new_burst (s : State) (diff : Q) (cs : Z) : bool :=
  Qltb (_fastest_cs s) diff && (cs =? 0).

(** The burst boundary detector: from the gap computation to the update of
    [_last_time]. *)
Definition detect_burst (s : State) (frame : Frame) (cs : Z)
  : outcome (State * list Frame) :=
  diff <- gap s frame ;;
  let s := set_fastest_cs (py_min (diff * 4)%Q (_fastest_cs s)) s in
  '(s, frames) <- (if new_burst s diff cs then start_burst s frame
                   else Ok (s, [])) ;;
  let s := set_last_time (start_time frame) s in
  Ok (s, frames).

(** The lane assembler: one of the two branches, then the clock count. *)
Definition assemble (s : State) (word : Z) (frames : list Frame)
  : outcome (State * list Frame) :=
  '(s, frames) <- (if single_lane s then Ok (shift_single s word frames)
                   else shift_quad s word frames) ;;
  let s := set_clock_count (_clock_count s + 1) s in
  Ok (s, frames).

(** The [data] branch up to the frames loop.  [inl] is the early
    [return None] of a sample whose chip select is high. *)
Definition decode_sample (s : State) (frame : Frame)
  : outcome (State + State * list Frame) :=
  v <- getitem "data" (data frame) ;;
  word <- match v with VInt n => Ok n | _ => Raise TypeError end ;;
  let cs := Z.shiftr word 15 in
  '(s, frames) <- detect_burst s frame cs ;;
  if cs =? 1 then Ok (inl s)
  else
    r <- assemble s word frames ;;
    Ok (inr r).

(** ** [decode]: the frames loop *)

Definition is_byte (b : Z) : bool := (0 <=? b) && (b <? 256).

(** [buf.extend(v)] on a bytearray: every element must be in [range(256)],
    and nothing is appended when one is not. *)
Definition extend (buf : list Z) (v : value) : outcome (list Z) :=
  match v with
  | VList l => if forallb is_byte l then Ok (buf ++ l) else Raise ValueError
  | _ => Raise TypeError
  end.

(** Truth value of a buffer: [None] and the empty bytearray are false. *)
Definition nonempty (buf : option (list Z)) : bool :=
  match buf with
  | Some (_ :: _) => true
  | _ => false
  end.

(** The big-endian address in [mosi[1 .. n]]. *)
Definition read_address (mosi : list Z) (n : Z) : Z :=
  fold_left (fun frame_address i =>
               Z.shiftl frame_address 8 + nth (1 + i) mosi 0)
            (seq 0 (Z.to_nat n)) 0.

(** The bytes of a data command that are not payload, apart from the
    address: 2, one more for Fast Read, two more for Quad Read.  [name] is
    [frame_data["command"]], the mnemonic of the opcode. *)
Definition non_data_bytes (name : string) : Z :=
  let non_data_bytes := 2 in
  let non_data_bytes :=
    if String.eqb name (table_at 0x0b DATA_COMMANDS)
    then non_data_bytes + 1 else non_data_bytes in
  let non_data_bytes :=
    if String.eqb name (table_at 0xeb DATA_COMMANDS)
    then non_data_bytes + 2 else non_data_bytes in
  non_data_bytes.

(** The classification of a finished burst from its host-to-device bytes:
    the frame type ([None] when the address filter drops the burst), the
    frame data, and the state with the address width updated. *)
Definition classify (cfg : Settings) (s : State) (mosi : list Z)
  : State * option string * dict :=
  let command := nth 0 mosi 0 in
  let frame_data := [("command", VInt command)] in
  if contains command DATA_COMMANDS then
    if Z.of_nat (List.length mosi) <? 1 + _address_bytes s then
      (s, Some "error", frame_data)
    else
      let name := table_at command DATA_COMMANDS in
      let frame_data := dict_set "command" (VStr name) frame_data in
      let frame_address := read_address mosi (_address_bytes s) in
      if Qltb 0 (min_address cfg) && (frame_address <? _min_address s) then
        (s, None, frame_data)
      else if truthy (max_address cfg)
              && Qltb (max_address cfg) (inject_Z frame_address) then
        (s, None, frame_data)
      else
        let frame_data :=
          dict_set "address"
            (VStr (format_hex (_address_format s) frame_address)) frame_data in
        let num_data_bytes :=
          Z.of_nat (List.length mosi) - py_int (address_bytes cfg)
          - non_data_bytes name in
        let frame_data := dict_set "num_bytes" (VInt num_data_bytes) frame_data in
        let frame_data :=
          dict_set "address_end"
            (VStr (format_hex (_address_format s)
                              (frame_address + num_data_bytes))) frame_data in
        (s, Some "data_command", frame_data)
  else
    let frame_data :=
      match lookup command CONTROL_COMMANDS with
      | Some name => dict_set "command" (VStr name) frame_data
      | None =>
          dict_set "command"
            (VStr ("0x" ++ drop2 (upper (py_hex command)))%string) frame_data
      end in
    let s :=
      if command =? EN4B then
        let s := set_address_bytes 4 s in
        set_address_format (2 * _address_bytes s) s
      else if command =? EX4B then
        let s := set_address_bytes 3 s in
        set_address_format (2 * _address_bytes s) s
      else s in
    (s, Some "control_command", frame_data).

(** The three [continue] tests on [decode_level]. *)
Definition suppressed (level : string) (frame_type : option string) : bool :=
  let equals t := match frame_type with
                  | Some t' => String.eqb t' t
                  | None => false
                  end in
  (String.eqb level "Only Data" && equals "control_command")
  || (String.eqb level "Only Errors" && negb (equals "error"))
  || (String.eqb level "Only Control" && negb (equals "control_command")).

(** The ["disable"] branch of the loop. *)
Definition process_disable (cfg : Settings) (s : State) (fake_frame : Frame)
    (output : option Frame) : State * option Frame :=
  if negb (nonempty (_miso_data s)) || negb (nonempty (_mosi_data s)) then
    (s, output)
  else
    let mosi := match _mosi_data s with Some l => l | None => [] end in
    let '(s, frame_type, frame_data) := classify cfg s mosi in
    let our_frame :=
      match frame_type with
      | Some t =>
          Some (AnalyzerFrame t (_start_time s) (end_time fake_frame) frame_data)
      | None => None
      end in
    let s := set_miso_data None s in
    let s := set_mosi_data None s in
    if suppressed (decode_level cfg) frame_type then (s, output)
    else (s, our_frame).

(** One turn of [for fake_frame in frames:]. *)
Definition process_frame (cfg : Settings) (fake_frame : Frame)
    (acc : State * option Frame) : outcome (State * option Frame) :=
  let '(s, output) := acc in
  if String.eqb (type fake_frame) "enable" then
    let s := set_start_time (start_time fake_frame) s in
    let s := set_miso_data (Some []) s in
    let s := set_mosi_data (Some []) s in
    Ok (s, output)
  else if String.eqb (type fake_frame) "result" then
    match _miso_data s, _mosi_data s with
    | Some miso, Some mosi =>
        v <- getitem "miso" (data fake_frame) ;;
        miso' <- extend miso v ;;
        let s := set_miso_data (Some miso') s in
        v <- getitem "mosi" (data fake_frame) ;;
        mosi' <- extend mosi v ;;
        let s := set_mosi_data (Some mosi') s in
        Ok (s, output)
    | _, _ =>
        Ok (set_empty_result_count (_empty_result_count s + 1) s, output)
    end
  else if String.eqb (type fake_frame) "disable" then
    Ok (process_disable cfg s fake_frame output)
  else Ok (s, output).

Fixpoint process_frames (cfg : Settings) (frames : list Frame)
    (acc : State * option Frame) : outcome (State * option Frame) :=
  match frames with
  | [] => Ok acc
  | fake_frame :: frames' =>
      acc' <- process_frame cfg fake_frame acc ;;
      process_frames cfg frames' acc'
  end.

(** ** [decode] *)

Definition decode (cfg : Settings) (s : State) (frame : Frame)
  : outcome (State * option Frame) :=
  if String.eqb (type frame) "data" then
    r <- decode_sample s frame ;;
    match r with
    | inl s => Ok (s, None)
    | inr (s, frames) => process_frames cfg frames (s, None)
    end
  else process_frames cfg [frame] (s, None).

(** The frame the host passes for one captured clock edge. *)
Definition sample (t : Q) (word : Z) : Frame :=
  {| type := "data"; start_time := Some t; end_time := Some t;
     data := [("data", VInt word)] |}.

(** Feeding a list of frames, one [decode] call each; the records returned
    are collected in order.  An exception ends the run. *)
Fixpoint run (cfg : Settings) (s : State) (frames : list Frame)
  : outcome (State * list (option Frame)) :=
  match frames with
  | [] => Ok (s, [])
  | frame :: frames' =>
      '(s', out) <- decode cfg s frame ;;
      '(s'', outs) <- run cfg s' frames' ;;
      Ok (s'', out :: outs)
  end.

(** ** Traces

    The words of a capture: a byte on the host-out lane, most significant
    bit first, and a byte on the four lanes, high nibble first.  Chip select
    (bit 15) is low in all of them. *)

Definition bits_of_byte (b : Z) : list Z :=
  map (fun i => Z.land (Z.shiftr b i) 1) [7; 6; 5; 4; 3; 2; 1; 0].

Definition nibbles_of_byte (b : Z) : list Z :=
  [Z.shiftr b 4; Z.land b 0xf].

(** The samples of a list of words, one every [dt] seconds from [t] on;
    the time stamps are kept in lowest terms. *)
Fixpoint clocked (t dt : Q) (words : list Z) : list Frame :=
  match words with
  | [] => []
  | w :: words' => sample t w :: clocked (Qred (t + dt)) dt words'
  end.

(** The records of a run, without the calls that returned [None]. *)
Fixpoint records (outs : list (option Frame)) : list Frame :=
  match outs with
  | [] => []
  | Some r :: outs' => r :: records outs'
  | None :: outs' => records outs'
  end.

(** ** The steps of [decode], named

    The state and the frames each branch of [decode] produces, for use in
    the statements below. *)

(** The state the boundary detector leaves when no burst starts. *)
Definition idle_update (s : State) (frame : Frame) (diff : Q) : State :=
  set_last_time (start_time frame)
    (set_fastest_cs (py_min (diff * 4)%Q (_fastest_cs s)) s).

(** The state a burst start leaves before the sample itself is assembled:
    with the continuous flag clear ... *)
Definition fresh_burst (s : State) : State :=
  set_miso_in 0
    (set_mosi_out 0
       (set_dummy 0
          (set_quad_start None
             (set_command (Some 0)
                (set_clock_count 0
                   (set_transaction (_transaction s + 1) s)))))).

(** ... and with the flag set. *)
Definition continued_burst (s : State) : State :=
  set_clock_count 8
    (set_clock_count 0 (set_transaction (_transaction s + 1) s)).

(** The frames a burst start puts in front of the loop. *)
Definition boundary_frames (s : State) (frame : Frame) : list Frame :=
  (if 0 <? _transaction s then [FakeFrame "disable" (_last_time s)] else [])
  ++ [FakeFrame "enable" (start_time frame)].

(** The lane assembler's four outcomes on one clock edge: the words shifted
    in on the single lanes, ... *)
Definition mosi_shifted (s : State) (word : Z) : Z :=
  Z.lor (Z.shiftl (_mosi_out s) 1) (Z.land word 0x1).

Definition miso_shifted (s : State) (word : Z) : Z :=
  Z.lor (Z.shiftl (_miso_in s) 1) (Z.land (Z.shiftr word 1) 0x1).

(** ... the nibble shifted in on the four lanes, ... *)
Definition quad_shifted (s : State) (word : Z) : Z :=
  Z.lor (Z.shiftl (_quad_data s) 4) (Z.land word 0xf).

(** ... an edge inside a byte, ... *)
Definition single_edge (word : Z) (s : State) : State :=
  set_clock_count (_clock_count s + 1)
    (set_miso_in (miso_shifted s word) (set_mosi_out (mosi_shifted s word) s)).

Definition quad_edge (word : Z) (s : State) : State :=
  set_clock_count (_clock_count s + 1) (set_quad_data (quad_shifted s word) s).

(** ... and the edge that completes a byte after the opcode. *)
Definition single_flush (s : State) : State :=
  set_clock_count (_clock_count s + 1) (set_miso_in 0 (set_mosi_out 0 s)).

(** The state after the ["enable"] frame of a burst that starts at [t]. *)
Definition open_burst (t : Q) (s : State) : State :=
  set_mosi_data (Some []) (set_miso_data (Some []) (set_start_time (Some t) s)).

(** The ["disable"] frame of a burst start, when there is one. *)
Definition close_burst (cfg : Settings) (s0 s : State) : State * option Frame :=
  if 0 <? _transaction s0
  then process_disable cfg s (FakeFrame "disable" (_last_time s0)) None
  else (s, None).

(** The address filter of [classify]: [true] when the burst is dropped. *)
Definition address_filtered (cfg : Settings) (s : State) (frame_address : Z)
  : bool :=
  (Qltb 0 (min_address cfg) && (frame_address <? _min_address s))
  || (truthy (max_address cfg)
      && Qltb (max_address cfg) (inject_Z frame_address)).

(** ** Invariants and reachable states *)

(** The two buffers of a burst exist together and have the same length. *)
Definition buffers_aligned (s : State) : Prop :=
  match _mosi_data s, _miso_data s with
  | Some mosi, Some miso => List.length mosi = List.length miso
  | None, None => True
  | _, _ => False
  end.

(** What the lane assembler relies on: the continuous flag is only set
    during a burst of a continuation opcode, and the quad-switch threshold,
    when set, is 8, was set by such an opcode, and has been reached. *)
Definition lanes_consistent (s : State) : Prop :=
  (_continuous s = true -> _quad_start s = Some 8)
  /\ (forall q, _quad_start s = Some q ->
        q = 8 /\ 8 <= _clock_count s
        /\ exists c, _command s = Some c
                     /\ contains c CONTINUE_COMMANDS = true).

(** The transaction counter counts the bursts opened so far; the buffers
    exist only once a burst has been opened. *)
Definition counted (s : State) : Prop :=
  0 <= _transaction s /\ (_mosi_data s <> None -> 0 < _transaction s).

(** The attributes the frames loop does not assign. *)
Definition lane_fields (s : State) :=
  (_last_time s, _transaction s, _clock_count s, _mosi_out s, _miso_in s,
   _quad_data s, _quad_start s, _continuous s, _dummy s, _fastest_cs s,
   _command s, _min_address s, _max_address s, _last_cs s).

(** The attributes the code before the frames loop does not assign. *)
Definition loop_fields (s : State) :=
  (_start_time s, _address_bytes s, _address_format s, _miso_data s,
   _mosi_data s, _empty_result_count s, _min_address s, _max_address s,
   _last_cs s).

(** The frames [decode] builds itself. *)
Definition internal (f : Frame) : Prop :=
  type f = "enable" \/ type f = "disable"
  \/ exists mosi miso, f = result_frame mosi miso.

Definition no_disable (frames : list Frame) : Prop :=
  Forall (fun f => internal f /\ type f <> "disable") frames.

(** Frames that only carry bytes. *)
Definition results_only (frames : list Frame) : Prop :=
  Forall (fun f => exists mosi miso, f = result_frame mosi miso) frames.

(** A ["disable"] frame, if there is one, comes first and carries the time
    of the previous sample. *)
Definition disable_first (s : State) (frames : list Frame) : Prop :=
  no_disable frames
  \/ exists frames',
       frames = FakeFrame "disable" (_last_time s) :: frames'
       /\ no_disable frames'.

(** The states of a capture: those [decode] passes through when the host
    feeds it samples, as long as no call raises. *)
Inductive reachable (cfg : Settings) : State -> Prop :=
| reachable_init : reachable cfg (init cfg)
| reachable_decode (s s' : State) (t : Q) (word : Z) (out : option Frame) :
    reachable cfg s ->
    decode cfg s (sample t word) = Ok (s', out) ->
    reachable cfg s'.

(** ** Bits on the host-out lane and the clock of a burst *)

(** One bit shifted into an accumulator, and a list of bits, first bit
    first. *)
Definition shift_bit (acc bit : Z) : Z := Z.lor (Z.shiftl acc 1) bit.

Definition pack (bits : list Z) (acc : Z) : Z := fold_left shift_bit bits acc.

Definition mosi_bit (word : Z) : Z := Z.land word 0x1.
Definition miso_bit (word : Z) : Z := Z.land (Z.shiftr word 1) 0x1.

(** The time stamp [clocked] gives the sample that follows [n] others. *)
Fixpoint advance (t dt : Q) (n : nat) : Q :=
  match n with
  | O => t
  | S n' => advance (Qred (t + dt)) dt n'
  end.

(** The lane assembler in the single-lane phase of an open burst: [n] edges
    seen, [acc_mosi] and [acc_miso] in the bit accumulators, [mosi] and
    [miso] in the buffers. *)
Definition lane (s : State) (n acc_mosi acc_miso : Z) (mosi miso : list Z)
  : Prop :=
  _quad_start s = None
  /\ _clock_count s = n
  /\ _mosi_out s = acc_mosi
  /\ _miso_in s = acc_miso
  /\ _mosi_data s = Some mosi
  /\ _miso_data s = Some miso.

(** The clock of a burst is running: the sample at [t] comes [dt] seconds
    after the previous one, and [dt] in nanoseconds is within the adaptive
    threshold. *)
Definition clock_running (s : State) (t dt : Q) : Prop :=
  (0 < dt)%Q
  /\ exists last,
       _last_time s = Some last
       /\ (t - last == dt)%Q
       /\ (dt * 1000000000 <= _fastest_cs s)%Q.

(** The words of a capture that carry the given bits on the host-out lane
    with chip select low; the other lanes are free. *)
Definition carries (words bits : list Z) : Prop :=
  Forall2 (fun word bit => Z.shiftr word 15 = 0 /\ mosi_bit word = bit)
    words bits.

(** ** The object after a call, also when the call raises

    [decode] assigns to the attributes in place, so a call that raises
    leaves behind every assignment made before the statement that raised.
    The definitions below follow the same source lines as [start_burst],
    [shift_quad], [detect_burst], [assemble], [process_frame],
    [process_frames], [decode] and [run], and return, beside the outcome of
    the call, the attributes as the call leaves them. *)

(** An outcome without the attributes: what the caller sees. *)
Definition returned {A : Type} (r : State * outcome A) : outcome (State * A) :=
  match r with
  | (s, Ok a) => Ok (s, a)
  | (_, Raise e) => Raise e
  end.

Definition start_burst_obj (s : State) (frame : Frame)
  : State * outcome (list Frame) :=
  let frames :=
    if 0 <? _transaction s then [FakeFrame "disable" (_last_time s)] else [] in
  let frames := frames ++ [FakeFrame "enable" (start_time frame)] in
  let s := set_transaction (_transaction s + 1) s in
  let s := set_clock_count 0 s in
  if negb (_continuous s) then
    let s := set_command (Some 0) s in
    let s := set_quad_start None s in
    let s := set_dummy 0 s in
    let s := set_mosi_out 0 s in
    let s := set_miso_in 0 s in
    (s, Ok frames)
  else
    let s := set_clock_count 8 s in
    match read_command s with
    | Ok command => (s, Ok (frames ++ [result_frame command 0]))
    | Raise e => (s, Raise e)
    end.

Definition shift_quad_obj (s : State) (word : Z) (frames : list Frame)
  : State * outcome (list Frame) :=
  let s := set_quad_data (Z.lor (Z.shiftl (_quad_data s) 4) (Z.land word 0xf)) s in
  if _clock_count s mod 2 =? 1 then
    let f :=
      if outside_dummy_window s then result_frame (_quad_data s) 0
      else result_frame 0 (_quad_data s) in
    let frames := frames ++ [f] in
    match read_command s with
    | Ok command =>
        let s :=
          if contains command CONTINUE_COMMANDS && (_clock_count s =? 15) then
            set_continuous (Z.land (_quad_data s) 0xf0 =? 0xa0) s
          else s in
        let s := set_quad_data 0 s in
        (s, Ok frames)
    | Raise e => (s, Raise e)
    end
  else (s, Ok frames).

Definition detect_burst_obj (s : State) (frame : Frame) (cs : Z)
  : State * outcome (list Frame) :=
  match gap s frame with
  | Ok diff =>
      let s := set_fastest_cs (py_min (diff * 4)%Q (_fastest_cs s)) s in
      let '(s, r) :=
        if new_burst s diff cs then start_burst_obj s frame else (s, Ok []) in
      match r with
      | Ok frames => (set_last_time (start_time frame) s, Ok frames)
      | Raise e => (s, Raise e)
      end
  | Raise e => (s, Raise e)
  end.

Definition assemble_obj (s : State) (word : Z) (frames : list Frame)
  : State * outcome (list Frame) :=
  let '(s, r) :=
    if single_lane s then
      let '(s, frames) := shift_single s word frames in (s, Ok frames)
    else shift_quad_obj s word frames in
  match r with
  | Ok frames => (set_clock_count (_clock_count s + 1) s, Ok frames)
  | Raise e => (s, Raise e)
  end.

(** One turn of the loop.  In the ["result"] branch [_miso_data] is
    extended first: when the second [extend] raises, the first has already
    taken effect. *)
Definition process_frame_obj (cfg : Settings) (fake_frame : Frame)
    (s : State) (output : option Frame) : State * outcome (option Frame) :=
  if String.eqb (type fake_frame) "enable" then
    let s := set_start_time (start_time fake_frame) s in
    let s := set_miso_data (Some []) s in
    let s := set_mosi_data (Some []) s in
    (s, Ok output)
  else if String.eqb (type fake_frame) "result" then
    match _miso_data s, _mosi_data s with
    | Some miso, Some mosi =>
        match (v <- getitem "miso" (data fake_frame) ;; extend miso v) with
        | Ok miso' =>
            let s := set_miso_data (Some miso') s in
            match (v <- getitem "mosi" (data fake_frame) ;; extend mosi v) with
            | Ok mosi' => (set_mosi_data (Some mosi') s, Ok output)
            | Raise e => (s, Raise e)
            end
        | Raise e => (s, Raise e)
        end
    | _, _ =>
        (set_empty_result_count (_empty_result_count s + 1) s, Ok output)
    end
  else if String.eqb (type fake_frame) "disable" then
    let '(s, output) := process_disable cfg s fake_frame output in
    (s, Ok output)
  else (s, Ok output).

Fixpoint process_frames_obj (cfg : Settings) (frames : list Frame)
    (s : State) (output : option Frame) : State * outcome (option Frame) :=
  match frames with
  | [] => (s, Ok output)
  | fake_frame :: frames' =>
      match process_frame_obj cfg fake_frame s output with
      | (s, Ok output) => process_frames_obj cfg frames' s output
      | (s, Raise e) => (s, Raise e)
      end
  end.

Definition decode_obj (cfg : Settings) (s : State) (frame : Frame)
  : State * outcome (option Frame) :=
  if String.eqb (type frame) "data" then
    match getitem "data" (data frame) with
    | Ok (VInt word) =>
        let cs := Z.shiftr word 15 in
        match detect_burst_obj s frame cs with
        | (s, Ok frames) =>
            if cs =? 1 then (s, Ok None)
            else
              match assemble_obj s word frames with
              | (s, Ok frames) => process_frames_obj cfg frames s None
              | (s, Raise e) => (s, Raise e)
              end
        | (s, Raise e) => (s, Raise e)
        end
    | Ok _ => (s, Raise TypeError)
    | Raise e => (s, Raise e)
    end
  else process_frames_obj cfg [frame] s None.

(** Feeding a list of frames to the object; the run stops at the first
    call that raises, and the object stays as that call left it. *)
Fixpoint run_obj (cfg : Settings) (s : State) (frames : list Frame)
  : State * outcome (list (option Frame)) :=
  match frames with
  | [] => (s, Ok [])
  | frame :: frames' =>
      match decode_obj cfg s frame with
      | (s, Ok out) =>
          match run_obj cfg s frames' with
          | (s, Ok outs) => (s, Ok (out :: outs))
          | (s, Raise e) => (s, Raise e)
          end
      | (s, Raise e) => (s, Raise e)
      end
  end.

(** ** Settings, captures and states used as examples *)

Definition default_settings : Settings :=
  {| address_bytes := 3; min_address := 0; max_address := 0;
     decode_level := "Everything" |}.

Definition with_level (level : string) : Settings :=
  {| address_bytes := 3; min_address := 0; max_address := 0;
     decode_level := level |}.

(** A state with an open burst holding the given bytes. *)
Definition with_buffers (mosi miso : list Z) (s : State) : State :=
  set_mosi_data (Some mosi) (set_miso_data (Some miso) s).

(** Ten nanoseconds between the clock edges of a burst. *)
Definition clock_period : Q := 1 # 100000000.

(** The state a run ends in, or the initial state when it raises. *)
Definition final_state (cfg : Settings) (frames : list Frame) : State :=
  match run cfg (init cfg) frames with
  | Ok (s, _) => s
  | Raise _ => init cfg
  end.

(** A Read (0x03) cut after one address byte, then the first edge of the
    next burst one millisecond later. *)
Definition truncated_read_trace : list Frame :=
  clocked 1 clock_period (flat_map bits_of_byte [0x03; 0x00])
  ++ clocked (1001 # 1000) clock_period [0].

(** The state after a Read cut short: opcode 0x03 and one address byte. *)
Definition after_truncated_read : State :=
  Eval vm_compute in
    final_state default_settings
      (clocked 1 clock_period (flat_map bits_of_byte [0x03; 0x00])).

(** A Quad Word Read (0xe7, two dummy clocks) followed by six bytes on the
    four lanes, flushed at the edges 9, 11, 13, 15, 17 and 19. *)
Definition quad_word_read_trace : list Frame :=
  clocked 1 clock_period
    (bits_of_byte 0xe7
     ++ flat_map nibbles_of_byte [0x11; 0x22; 0x33; 0x44; 0x55; 0x66]).

(** The state before the last edge of [quad_word_read_trace]. *)
Definition before_edge_19 : State :=
  Eval vm_compute in
    final_state default_settings (removelast quad_word_read_trace).

(** A Quad Read (0xeb) with three address bytes and the mode byte 0xA5,
    whose upper nibble asks for continuous mode. *)
Definition quad_read_trace : list Frame :=
  clocked 1 clock_period
    (bits_of_byte 0xeb
     ++ flat_map nibbles_of_byte [0x00; 0x10; 0x00; 0xA5]).

(** The state before the second nibble of the mode byte, at edge 15. *)
Definition before_mode_byte : State :=
  Eval vm_compute in
    final_state default_settings (removelast quad_read_trace).

(** The state after the whole of [quad_read_trace]. *)
Definition after_mode_byte : State :=
  Eval vm_compute in final_state default_settings quad_read_trace.

(** An "Enable 4 Byte Address" burst, a 4-byte READ at 00 10 00 00 with
    three more bytes, and the first edge of a third burst. *)
Definition four_byte_read_trace : list Frame :=
  clocked 1 clock_period (bits_of_byte EN4B)
  ++ clocked (1001 # 1000) clock_period
       (flat_map bits_of_byte [0x13; 0x00; 0x10; 0x00; 0x00; 0x01; 0x02; 0x03])
  ++ clocked (1002 # 1000) clock_period [0].

(** A Quad-Output Fast Read (0x6b) cut after a single nibble 0xF, then a
    second 0x6b burst with the nibbles 0x1 and 0x2. *)
Definition stale_nibble_trace : list Frame :=
  clocked 1 clock_period (bits_of_byte 0x6b ++ [0xF])
  ++ clocked (1001 # 1000) clock_period (bits_of_byte 0x6b ++ [0x1; 0x2]).

(** ** Definitions for the further properties *)

(** The samples of a capture given as pairs of a time stamp and a word. *)
Definition samples (capture : list (Q * Z)) : list Frame :=
  map (fun p => sample (fst p) (snd p)) capture.

(** The state with the threshold updated from the gap [diff]. *)
Definition tightened (s : State) (diff : Q) : State :=
  set_fastest_cs (py_min (diff * 4)%Q (_fastest_cs s)) s.

(** Settings with the lower address bound at 0x1000. *)
Definition min_settings : Settings :=
  {| address_bytes := 3; min_address := 4096; max_address := 0;
     decode_level := "Everything" |}.

(** The state after a Read (0x03) at address 0x000500 under
    [min_settings]. *)
Definition after_low_read : State :=
  Eval vm_compute in
    final_state min_settings
      (clocked 1 clock_period (flat_map bits_of_byte [0x03; 0x00; 0x05; 0x00])).

(** In the single-lane phase the bit accumulators hold as many bits as
    edges were seen since the last byte. *)
Definition accumulators_bounded (s : State) : Prop :=
  single_lane s = true ->
  0 <= _mosi_out s < 2 ^ (_clock_count s mod 8)
  /\ 0 <= _miso_in s < 2 ^ (_clock_count s mod 8).

(** Every element of the two buffers is a byte. *)
Definition buffers_hold_bytes (s : State) : Prop :=
  forall buf,
    _mosi_data s = Some buf \/ _miso_data s = Some buf ->
    Forall (fun b => is_byte b = true) buf.

(** The states after one sample, and after a second sample with the same
    time stamp. *)
Definition first_edge_state : State :=
  Eval vm_compute in final_state default_settings [sample 1 0].

Definition same_time_state : State :=
  Eval vm_compute in final_state default_settings [sample 1 0; sample 1 0].

(** The state before the last sample of [stale_nibble_trace]. *)
Definition before_stale_flush : State :=
  Eval vm_compute in
    final_state default_settings (removelast stale_nibble_trace).

(** The quad phase of an open burst: [n] edges seen, [acc] in the nibble
    accumulator, opcode [c] with [d] dummy clocks, [mosi] and [miso] in the
    buffers. *)
Definition quad_lane (s : State) (n acc c d : Z) (mosi miso : list Z)
  : Prop :=
  _quad_start s = Some 8
  /\ 8 <= n
  /\ _clock_count s = n
  /\ _quad_data s = acc
  /\ _command s = Some c
  /\ _dummy s = d
  /\ _mosi_data s = Some mosi
  /\ _miso_data s = Some miso.

(** The words of a capture that carry the given nibbles on the four lanes
    with chip select low. *)
Definition carries_nibbles (words nibbles : list Z) : Prop :=
  Forall2 (fun word nibble => Z.shiftr word 15 = 0 /\ Z.land word 0xf = nibble)
    words nibbles.

(** The test [15 < clock <= 15 + dummy] on the edge that completes a
    byte. *)
Definition in_dummy_window (d n : Z) : bool := (15 <? n) && (n <=? 15 + d).

(** What the quad phase appends to the host-to-device and to the
    device-to-host buffer for bytes sent as nibble pairs from edge [n] on:
    each byte goes to one buffer and 0 to the other. *)
Fixpoint quad_mosi (d n : Z) (bytes : list Z) : list Z :=
  match bytes with
  | [] => []
  | b :: rest =>
      (if in_dummy_window d (n + 1) then 0 else b) :: quad_mosi d (n + 2) rest
  end.

Fixpoint quad_miso (d n : Z) (bytes : list Z) : list Z :=
  match bytes with
  | [] => []
  | b :: rest =>
      (if in_dummy_window d (n + 1) then b else 0) :: quad_miso d (n + 2) rest
  end.

(** The state after the opcode of a Quad Read (0xeb). *)
Definition after_quad_opcode : State :=
  Eval vm_compute in
    final_state default_settings (clocked 1 clock_period (bits_of_byte 0xeb)).

(** The state after a Read (0x03) at address 0x000500 and one byte of
    payload clocks. *)
Definition after_read_address : State :=
  Eval vm_compute in
    final_state default_settings
      (clocked 1 clock_period
         (flat_map bits_of_byte [0x03; 0x00; 0x05; 0x00; 0x00])).

(** The state after a third sample, one second later, with chip select
    low. *)
Definition later_sample_state : State :=
  Eval vm_compute in
    final_state default_settings [sample 1 0; sample 1 0; sample 2 0].

(** * Properties *)

#[local] Arguments Z.shiftl : simpl never.
#[local] Arguments Z.shiftr : simpl never.
#[local] Arguments Z.land : simpl never.
#[local] Arguments Z.lor : simpl never.
#[local] Arguments Z.modulo : simpl never.
#[local] Arguments Z.div : simpl never.

(** ** Comparisons and the monad *)

Lemma Qltb_lt (a b : Q) : Qltb a b = true <-> (a < b)%Q.
Proof.
  unfold Qltb. rewrite negb_true_iff.
  split; intro H.
  - apply Qnot_le_lt. intro Hle. apply Qle_bool_iff in Hle. congruence.
  - destruct (Qle_bool b a) eqn:E; [ | reflexivity ].
    apply Qle_bool_iff in E. exfalso. apply (Qlt_not_le _ _ H E).
Qed.

Lemma Qltb_ge (a b : Q) : Qltb a b = false <-> (b <= a)%Q.
Proof.
  unfold Qltb. rewrite negb_false_iff. apply Qle_bool_iff.
Qed.

Lemma bind_Ok {A B : Type} (m : outcome A) (k : A -> outcome B) (b : B) :
  bind m k = Ok b -> exists a, m = Ok a /\ k a = Ok b.
Proof.
  destruct m as [a | e]; simpl; intro H; [ eauto | discriminate ].
Qed.

(** ** [decode] on a sample *)

Lemma decode_sample_unfold (s : State) (t : Q) (word : Z) :
  decode_sample s (sample t word) =
  ('(s1, frames) <- detect_burst s (sample t word) (Z.shiftr word 15) ;;
   if Z.shiftr word 15 =? 1 then Ok (inl s1)
   else r <- assemble s1 word frames ;; Ok (inr r)).
Proof. reflexivity. Qed.

Lemma decode_unfold (cfg : Settings) (s : State) (t : Q) (word : Z) :
  decode cfg s (sample t word) =
  (r <- decode_sample s (sample t word) ;;
   match r with
   | inl s1 => Ok (s1, None)
   | inr (s1, frames) => process_frames cfg frames (s1, None)
   end).
Proof. reflexivity. Qed.

(** ** A sample whose chip select is high *)

Lemma detect_burst_idle (s : State) (frame : Frame) (cs : Z) (diff : Q) :
  gap s frame = Ok diff ->
  new_burst (set_fastest_cs (py_min (diff * 4)%Q (_fastest_cs s)) s) diff cs
    = false ->
  detect_burst s frame cs = Ok (idle_update s frame diff, []).
Proof.
  intros Hgap Hnew. unfold detect_burst. rewrite Hgap. cbn [bind].
  rewrite Hnew. reflexivity.
Qed.

Lemma gap_sample (s : State) (t : Q) (word : Z) :
  exists diff, gap s (sample t word) = Ok diff.
Proof.
  unfold gap. destruct (_last_time s); cbn; eauto.
Qed.

(** C10. For a sample whose chip-select bit (the data word shifted right by
    15) is 1, [decode] returns [None] without raising, the boundary
    detector queues no frame (no ["enable"], no ["disable"]), and the only
    attributes changed are [_last_time] and [_fastest_cs]: the buffers,
    the bit and nibble accumulators, the clock count, the opcode, the
    quad-switch threshold, the dummy count, the address width and format,
    the continuous flag and the transaction counter are those of the state
    before the call. *)
Theorem decode_chip_select_high (cfg : Settings) (s : State) (t : Q) (word : Z) :
  Z.shiftr word 15 = 1 ->
  exists s' diff,
    decode cfg s (sample t word) = Ok (s', None)
    /\ detect_burst s (sample t word) (Z.shiftr word 15) = Ok (s', [])
    /\ gap s (sample t word) = Ok diff
    /\ _last_time s' = Some t
    /\ _fastest_cs s' = py_min (diff * 4)%Q (_fastest_cs s)
    /\ _mosi_data s' = _mosi_data s
    /\ _miso_data s' = _miso_data s
    /\ _mosi_out s' = _mosi_out s
    /\ _miso_in s' = _miso_in s
    /\ _quad_data s' = _quad_data s
    /\ _clock_count s' = _clock_count s
    /\ _command s' = _command s
    /\ _quad_start s' = _quad_start s
    /\ _dummy s' = _dummy s
    /\ _address_bytes s' = _address_bytes s
    /\ _address_format s' = _address_format s
    /\ _continuous s' = _continuous s
    /\ _transaction s' = _transaction s
    /\ _start_time s' = _start_time s
    /\ _empty_result_count s' = _empty_result_count s
    /\ _min_address s' = _min_address s
    /\ _max_address s' = _max_address s
    /\ _last_cs s' = _last_cs s.
Proof.
  intro Hcs.
  destruct (gap_sample s t word) as [diff Hgap].
  exists (idle_update s (sample t word) diff), diff.
  assert (Hidle : detect_burst s (sample t word) 1
                  = Ok (idle_update s (sample t word) diff, [])).
  { apply (detect_burst_idle s (sample t word) 1 diff Hgap).
    unfold new_burst. apply andb_false_r. }
  split; [ | split ].
  - rewrite decode_unfold, decode_sample_unfold, Hcs, Hidle. reflexivity.
  - rewrite Hcs. exact Hidle.
  - repeat split; trivial.
Qed.

Lemma decode_chip_select_high_witness :
  exists s', decode default_settings (init default_settings)
               (sample 1 0x8000) = Ok (s', None)
             /\ _clock_count s' = 0.
Proof.
  destruct (decode_chip_select_high default_settings (init default_settings)
              1 0x8000 eq_refl) as (s' & diff & H & _ & _ & _ & _ & _ & _ & _
                                    & _ & _ & Hc & _).
  exists s'. split; [ exact H | exact Hc ].
Defined.

(** ** The first sample *)

(** C6, as the code has it.  When no sample has been seen yet
    ([_last_time] is [None]) and the threshold is positive, the gap is the
    threshold scaled by 10^9 like a real time difference; it is strictly
    greater than the threshold, the threshold keeps its value, and the
    burst-start test holds exactly when the chip-select bits of the word
    are 0. *)
Theorem first_sample_gap (s : State) (t : Q) (word : Z) :
  _last_time s = None ->
  (0 < _fastest_cs s)%Q ->
  let diff := (_fastest_cs s * 1000000000)%Q in
  gap s (sample t word) = Ok diff
  /\ (_fastest_cs s < diff)%Q
  /\ py_min (diff * 4)%Q (_fastest_cs s) = _fastest_cs s
  /\ new_burst (set_fastest_cs (py_min (diff * 4)%Q (_fastest_cs s)) s)
       diff (Z.shiftr word 15)
     = (Z.shiftr word 15 =? 0).
Proof.
  intros Hlast Hpos diff.
  assert (Hlt : (_fastest_cs s < diff)%Q) by (unfold diff; lra).
  assert (Hmin : py_min (diff * 4)%Q (_fastest_cs s) = _fastest_cs s).
  { unfold py_min.
    assert (H : Qltb (_fastest_cs s) (diff * 4)%Q = true)
      by (apply Qltb_lt; lra).
    rewrite H. reflexivity. }
  repeat split.
  - unfold gap. rewrite Hlast. reflexivity.
  - exact Hlt.
  - exact Hmin.
  - unfold new_burst. rewrite Hmin. cbn [_fastest_cs set_fastest_cs].
    apply Qltb_lt in Hlt. rewrite Hlt. reflexivity.
Qed.

Lemma first_sample_gap_witness :
  gap (init default_settings) (sample 1 0) = Ok (2000000 * 1000000000)%Q.
Proof.
  apply (first_sample_gap (init default_settings) 1 0 eq_refl).
  reflexivity.
Defined.

(** C6, as stated, fails on the first sample of a capture whose chip select
    is low: the gap is 2000000 * 10^9, not the threshold 2000000, and the
    call opens a burst (the transaction counter becomes 1 and the buffers
    are created). *)
Lemma first_sample_starts_burst :
  gap (init default_settings) (sample 1 0) = Ok (2000000 * 1000000000)%Q
  /\ ~ (2000000 * 1000000000 == _fastest_cs (init default_settings))%Q
  /\ new_burst (init default_settings) (2000000 * 1000000000)%Q
       (Z.shiftr 0 15) = true
  /\ exists s',
       decode default_settings (init default_settings) (sample 1 0)
         = Ok (s', None)
       /\ _transaction s' = 1
       /\ _mosi_data s' = Some []
       /\ _miso_data s' = Some [].
Proof.
  split; [ reflexivity | ].
  split; [ intro H; vm_compute in H; discriminate | ].
  split; [ reflexivity | ].
  eexists. split; [ vm_compute; reflexivity | ].
  repeat split.
Qed.

(** ** The classifier touches the address width only *)

Lemma set_address_same (s : State) :
  set_address_format (_address_format s)
    (set_address_bytes (_address_bytes s) s) = s.
Proof. destruct s; reflexivity. Qed.

Lemma classify_state (cfg : Settings) (s : State) (mosi : list Z) :
  exists ab af,
    fst (fst (classify cfg s mosi))
    = set_address_format af (set_address_bytes ab s).
Proof.
  unfold classify.
  destruct (contains (nth 0 mosi 0) DATA_COMMANDS).
  - exists (_address_bytes s), (_address_format s).
    rewrite set_address_same.
    destruct (Z.of_nat (List.length mosi) <? 1 + _address_bytes s);
      [ reflexivity | ].
    destruct (Qltb 0 (min_address cfg) && _); [ reflexivity | ].
    destruct (truthy (max_address cfg) && _); reflexivity.
  - cbn [fst].
    destruct (nth 0 mosi 0 =? EN4B); [ eexists _, _; reflexivity | ].
    destruct (nth 0 mosi 0 =? EX4B); [ eexists _, _; reflexivity | ].
    exists (_address_bytes s), (_address_format s).
    symmetry. apply set_address_same.
Qed.

Lemma classify_start_time (cfg : Settings) (s s1 : State) (mosi : list Z)
    (ft : option string) (d : dict) :
  classify cfg s mosi = (s1, ft, d) -> _start_time s1 = _start_time s.
Proof.
  intro H. destruct (classify_state cfg s mosi) as (ab & af & E).
  rewrite H in E. cbn [fst] in E. subst s1. reflexivity.
Qed.

(** ** The output level *)

Lemma process_disable_classified (cfg : Settings) (s s1 : State)
    (fake_frame : Frame) (output : option Frame) (mosi : list Z)
    (ft : option string) (d : dict) :
  nonempty (_miso_data s) = true ->
  _mosi_data s = Some mosi ->
  mosi <> [] ->
  classify cfg s mosi = (s1, ft, d) ->
  process_disable cfg s fake_frame output
  = (set_mosi_data None (set_miso_data None s1),
     if suppressed (decode_level cfg) ft then output
     else match ft with
          | Some t =>
              Some (AnalyzerFrame t (_start_time s) (end_time fake_frame) d)
          | None => None
          end).
Proof.
  intros Hmiso Hmosi Hne Hcl. unfold process_disable.
  rewrite Hmiso, Hmosi. destruct mosi as [ | b mosi ]; [ congruence | ].
  cbn [nonempty negb orb]. rewrite Hcl.
  rewrite (classify_start_time _ _ _ _ _ _ Hcl).
  destruct (suppressed (decode_level cfg) ft); reflexivity.
Qed.

(** C7, as the code has it.  When a finished burst is classified with
    frame type [t], the record is returned under 'Everything'; under
    'Only Data' it is returned unless [t] is "control_command" (so Data and
    Error records both pass); under 'Only Errors' it is returned only when
    [t] is "error"; under 'Only Control' only when [t] is
    "control_command".  A suppressed record leaves the output as it was. *)
Theorem output_level_filter (cfg : Settings) (s s1 : State)
    (fake_frame : Frame) (output : option Frame) (mosi : list Z)
    (t : string) (d : dict) :
  nonempty (_miso_data s) = true ->
  _mosi_data s = Some mosi ->
  mosi <> [] ->
  classify cfg s mosi = (s1, Some t, d) ->
  let record :=
    Some (AnalyzerFrame t (_start_time s) (end_time fake_frame) d) in
  let returned := snd (process_disable cfg s fake_frame output) in
  (decode_level cfg = "Everything" -> returned = record)
  /\ (decode_level cfg = "Only Data" ->
      returned = if String.eqb t "control_command" then output else record)
  /\ (decode_level cfg = "Only Errors" ->
      returned = if String.eqb t "error" then record else output)
  /\ (decode_level cfg = "Only Control" ->
      returned = if String.eqb t "control_command" then record else output).
Proof.
  intros Hmiso Hmosi Hne Hcl record returned. subst record returned.
  rewrite (process_disable_classified _ _ _ _ _ _ _ _ Hmiso Hmosi Hne Hcl).
  cbn [snd]. unfold suppressed.
  repeat split; intro Hl; rewrite Hl; cbn.
  - reflexivity.
  - destruct (String.eqb t "control_command"); reflexivity.
  - destruct (String.eqb t "error"); reflexivity.
  - destruct (String.eqb t "control_command"); reflexivity.
Qed.

Lemma output_level_filter_witness :
  snd (process_disable (with_level "Only Data")
         (with_buffers [0x03; 0x00] [0; 0] (init (with_level "Only Data")))
         (FakeFrame "disable" (Some 1%Q)) None)
  = Some (AnalyzerFrame "error" None (Some 1%Q) [("command", VInt 0x03)]).
Proof.
  refine (proj1 (proj2
    (output_level_filter (with_level "Only Data")
       (with_buffers [0x03; 0x00] [0; 0] (init (with_level "Only Data")))
       _ (FakeFrame "disable" (Some 1%Q)) None [0x03; 0x00] "error"
       [("command", VInt 0x03)] eq_refl eq_refl _ eq_refl)) eq_refl).
  discriminate.
Defined.

(** C7, as stated, fails for 'Only Data': the Error record of a truncated
    Read is returned although its category is not Data. *)
Lemma only_data_returns_error :
  suppressed "Only Data" (Some "error") = false
  /\ exists s outs,
       run (with_level "Only Data") (init (with_level "Only Data"))
         truncated_read_trace = Ok (s, outs)
       /\ records outs
          = [AnalyzerFrame "error" (Some 1%Q)
               (Some (20000003 # 20000000)%Q) [("command", VInt 0x03)]].
Proof.
  split; [ reflexivity | ].
  eexists _, _. split; [ vm_compute; reflexivity | ].
  vm_compute. reflexivity.
Qed.

(** ** What the frames loop leaves alone *)

Ltac inv_ok H := injection H as <- <-.

Lemma process_disable_lane_fields (cfg : Settings) (s : State) (f : Frame)
    (o : option Frame) :
  lane_fields (fst (process_disable cfg s f o)) = lane_fields s.
Proof.
  unfold process_disable.
  destruct (negb (nonempty (_miso_data s)) || negb (nonempty (_mosi_data s)));
    [ reflexivity | ].
  set (mosi := match _mosi_data s with Some l => l | None => [] end).
  destruct (classify_state cfg s mosi) as (ab & af & E).
  destruct (classify cfg s mosi) as [[s1 ft] d]. cbn [fst] in E. subst s1.
  destruct (suppressed (decode_level cfg) ft); reflexivity.
Qed.

Lemma process_frame_lane_fields (cfg : Settings) (f : Frame) (s s' : State)
    (o o' : option Frame) :
  process_frame cfg f (s, o) = Ok (s', o') ->
  lane_fields s' = lane_fields s.
Proof.
  unfold process_frame.
  destruct (String.eqb (type f) "enable"); [ intro H; inv_ok H; reflexivity | ].
  destruct (String.eqb (type f) "result").
  - destruct (_miso_data s) as [ miso | ], (_mosi_data s) as [ mosi | ];
      try (intro H; inv_ok H; reflexivity).
    intro H.
    apply bind_Ok in H as (v1 & _ & H).
    apply bind_Ok in H as (miso' & _ & H).
    apply bind_Ok in H as (v2 & _ & H).
    apply bind_Ok in H as (mosi' & _ & H).
    inv_ok H. reflexivity.
  - destruct (String.eqb (type f) "disable"); intro H.
    + injection H as H.
      rewrite <- (process_disable_lane_fields cfg s f o), H. reflexivity.
    + inv_ok H. reflexivity.
Qed.

Lemma process_frames_lane_fields (cfg : Settings) (frames : list Frame) :
  forall s s' o o',
    process_frames cfg frames (s, o) = Ok (s', o') ->
    lane_fields s' = lane_fields s.
Proof.
  induction frames as [ | f frames IH ]; intros s s' o o' H; cbn in H.
  - inv_ok H. reflexivity.
  - apply bind_Ok in H as ([s1 o1] & H1 & H2).
    rewrite (IH _ _ _ _ H2). exact (process_frame_lane_fields _ _ _ _ _ _ H1).
Qed.

Lemma lanes_consistent_ext (s s' : State) :
  _continuous s' = _continuous s ->
  _quad_start s' = _quad_start s ->
  _clock_count s' = _clock_count s ->
  _command s' = _command s ->
  lanes_consistent s -> lanes_consistent s'.
Proof.
  unfold lanes_consistent. intros Ec Eqs Ecc Ecmd H.
  rewrite Ecc, Eqs, Ec, Ecmd. exact H.
Qed.

Lemma lanes_consistent_fields (s s' : State) :
  lane_fields s' = lane_fields s ->
  lanes_consistent s -> lanes_consistent s'.
Proof.
  unfold lane_fields. intros E.
  injection E as _ _ Ecc _ _ _ Eqs Ec _ _ Ecmd _ _ _.
  apply lanes_consistent_ext; assumption.
Qed.

(** ** The buffers grow together *)

Lemma process_disable_aligned (cfg : Settings) (s : State) (f : Frame)
    (o : option Frame) :
  buffers_aligned s -> buffers_aligned (fst (process_disable cfg s f o)).
Proof.
  intro Hs. unfold process_disable.
  destruct (negb (nonempty (_miso_data s)) || negb (nonempty (_mosi_data s)));
    [ exact Hs | ].
  destruct (classify cfg s _) as [[s1 ft] d].
  destruct (suppressed (decode_level cfg) ft); exact I.
Qed.

Lemma extend_one (buf : list Z) (b : Z) (buf' : list Z) :
  extend buf (VList [b]) = Ok buf' -> buf' = buf ++ [b] /\ is_byte b = true.
Proof.
  cbn. rewrite andb_true_r. destruct (is_byte b); [ | discriminate ].
  intro H. injection H as <-. split; reflexivity.
Qed.

Lemma result_frame_miso (x y : Z) :
  getitem "miso" (data (result_frame x y)) = Ok (VList [y]).
Proof. reflexivity. Qed.

Lemma result_frame_mosi (x y : Z) :
  getitem "mosi" (data (result_frame x y)) = Ok (VList [x]).
Proof. reflexivity. Qed.

Lemma process_result_frame_unfold (cfg : Settings) (s : State) (x y : Z)
    (o : option Frame) :
  process_frame cfg (result_frame x y) (s, o)
  = match _miso_data s, _mosi_data s with
    | Some miso, Some mosi =>
        miso' <- extend miso (VList [y]) ;;
        mosi' <- extend mosi (VList [x]) ;;
        Ok (set_mosi_data (Some mosi') (set_miso_data (Some miso') s), o)
    | _, _ =>
        Ok (set_empty_result_count (_empty_result_count s + 1) s, o)
    end.
Proof. reflexivity. Qed.

Lemma process_result_frame (cfg : Settings) (s s' : State)
    (mosi miso : list Z) (x y : Z) (o o' : option Frame) :
  _mosi_data s = Some mosi ->
  _miso_data s = Some miso ->
  process_frame cfg (result_frame x y) (s, o) = Ok (s', o') ->
  s' = set_mosi_data (Some (mosi ++ [x])) (set_miso_data (Some (miso ++ [y])) s)
  /\ o' = o /\ is_byte x = true /\ is_byte y = true.
Proof.
  intros Hmosi Hmiso. rewrite process_result_frame_unfold, Hmosi, Hmiso.
  intro H.
  apply bind_Ok in H as (miso' & Hy & H). apply extend_one in Hy as [-> Hy].
  apply bind_Ok in H as (mosi' & Hx & H). apply extend_one in Hx as [-> Hx].
  inv_ok H. auto.
Qed.

Lemma process_frame_aligned (cfg : Settings) (f : Frame) (s s' : State)
    (o o' : option Frame) :
  internal f ->
  buffers_aligned s ->
  process_frame cfg f (s, o) = Ok (s', o') ->
  buffers_aligned s'.
Proof.
  intros [Hf | [Hf | (x & y & ->)]] Hs.
  - unfold process_frame. rewrite Hf. cbn. intro H. inv_ok H. reflexivity.
  - unfold process_frame. rewrite Hf. cbn. intro H. injection H as H.
    pose proof (process_disable_aligned cfg s f o Hs) as Ha.
    rewrite H in Ha. exact Ha.
  - unfold buffers_aligned in Hs.
    destruct (_mosi_data s) as [ mosi | ] eqn:Hmosi,
             (_miso_data s) as [ miso | ] eqn:Hmiso; try contradiction.
    + intro H.
      destruct (process_result_frame _ _ _ _ _ _ _ _ _ Hmosi Hmiso H)
        as (-> & _).
      unfold buffers_aligned. cbn. rewrite !length_app. cbn. lia.
    + rewrite process_result_frame_unfold, Hmosi, Hmiso.
      intro H. inv_ok H. unfold buffers_aligned. cbn. rewrite Hmosi, Hmiso.
      exact I.
Qed.

Lemma process_frames_aligned (cfg : Settings) (frames : list Frame) :
  forall s s' o o',
    Forall internal frames ->
    buffers_aligned s ->
    process_frames cfg frames (s, o) = Ok (s', o') ->
    buffers_aligned s'.
Proof.
  induction frames as [ | f frames IH ]; intros s s' o o' Hf Hs H; cbn in H.
  - inv_ok H. exact Hs.
  - apply bind_Ok in H as ([s1 o1] & H1 & H2).
    inversion Hf as [ | ? ? Hi Hrest ]; subst.
    apply (IH _ _ _ _ Hrest (process_frame_aligned _ _ _ _ _ _ Hi Hs H1) H2).
Qed.

(** Only a ["disable"] frame assigns [output]. *)
Lemma process_frames_no_disable (cfg : Settings) (frames : list Frame) :
  forall s s' o o',
    no_disable frames ->
    process_frames cfg frames (s, o) = Ok (s', o') ->
    o' = o.
Proof.
  induction frames as [ | f frames IH ]; intros s s' o o' Hf H; cbn in H.
  - inv_ok H. reflexivity.
  - apply bind_Ok in H as ([s1 o1] & H1 & H2).
    inversion Hf as [ | ? ? [_ Hty] Hrest ]; subst.
    rewrite (IH _ _ _ _ Hrest H2).
    revert H1. unfold process_frame.
    destruct (String.eqb (type f) "enable"); [ intro H; inv_ok H; reflexivity | ].
    destruct (String.eqb (type f) "result").
    + destruct (_miso_data s), (_mosi_data s);
        try (intro H; inv_ok H; reflexivity).
      intro H.
      apply bind_Ok in H as (v1 & _ & H).
      apply bind_Ok in H as (miso' & _ & H).
      apply bind_Ok in H as (v2 & _ & H).
      apply bind_Ok in H as (mosi' & _ & H).
      inv_ok H. reflexivity.
    + destruct (String.eqb (type f) "disable") eqn:E.
      * apply String.eqb_eq in E. contradiction.
      * intro H. inv_ok H. reflexivity.
Qed.

(** ** Burst boundaries *)

Lemma start_burst_fresh (s : State) (frame : Frame) :
  _continuous s = false ->
  start_burst s frame = Ok (fresh_burst s, boundary_frames s frame).
Proof.
  intro Hc. unfold start_burst. cbn. rewrite Hc. reflexivity.
Qed.

Lemma start_burst_continued (s : State) (frame : Frame) (c : Z) :
  _continuous s = true ->
  _command s = Some c ->
  start_burst s frame
  = Ok (continued_burst s, boundary_frames s frame ++ [result_frame c 0]).
Proof.
  intros Hc Hcmd. unfold start_burst, read_command. cbn.
  rewrite Hc, Hcmd. reflexivity.
Qed.

Lemma start_burst_cases (s s1 : State) (frame : Frame) (frames : list Frame) :
  start_burst s frame = Ok (s1, frames) ->
  (_continuous s = false /\ s1 = fresh_burst s
   /\ frames = boundary_frames s frame)
  \/ (exists c, _continuous s = true /\ _command s = Some c
                /\ s1 = continued_burst s
                /\ frames = boundary_frames s frame ++ [result_frame c 0]).
Proof.
  destruct (_continuous s) eqn:Hc.
  - destruct (_command s) as [ c | ] eqn:Hcmd.
    + rewrite (start_burst_continued s frame c Hc Hcmd).
      intro H. inv_ok H. right. exists c. auto.
    + unfold start_burst, read_command. cbn. rewrite Hc, Hcmd. discriminate.
  - rewrite (start_burst_fresh s frame Hc). intro H. inv_ok H. left. auto.
Qed.

Lemma internal_result (x y : Z) :
  internal (result_frame x y) /\ type (result_frame x y) <> "disable".
Proof.
  split; [ right; right; eauto | discriminate ].
Qed.

Lemma boundary_frames_disable_first (s : State) (frame : Frame)
    (extra : list Frame) :
  no_disable extra ->
  disable_first s (boundary_frames s frame ++ extra).
Proof.
  intro Hex. unfold boundary_frames.
  assert (Hen : no_disable (FakeFrame "enable" (start_time frame) :: extra)).
  { constructor; [ | exact Hex ]. split; [ left; reflexivity | discriminate ]. }
  destruct (0 <? _transaction s).
  - right. eexists. split; [ reflexivity | exact Hen ].
  - left. exact Hen.
Qed.

Lemma no_disable_app (l1 l2 : list Frame) :
  no_disable l1 -> no_disable l2 -> no_disable (l1 ++ l2).
Proof. intros H1 H2. apply Forall_app. split; assumption. Qed.

Lemma disable_first_app (s : State) (frames extra : list Frame) :
  disable_first s frames -> no_disable extra ->
  disable_first s (frames ++ extra).
Proof.
  intros [H | (frames' & -> & H)] Hex.
  - left. apply no_disable_app; assumption.
  - right. exists (frames' ++ extra). split; [ reflexivity | ].
    apply no_disable_app; assumption.
Qed.

Lemma disable_first_internal (s : State) (frames : list Frame) :
  disable_first s frames -> Forall internal frames.
Proof.
  intros [H | (frames' & -> & H)].
  - eapply Forall_impl; [ | exact H ]. intros f [Hf _]. exact Hf.
  - constructor; [ right; left; reflexivity | ].
    eapply Forall_impl; [ | exact H ]. intros f [Hf _]. exact Hf.
Qed.

Lemma start_burst_lanes (s s1 : State) (frame : Frame) (frames : list Frame) :
  start_burst s frame = Ok (s1, frames) ->
  lanes_consistent s -> lanes_consistent s1.
Proof.
  intros H [J1 J2].
  apply start_burst_cases in H
    as [(Hc & -> & _) | (c & Hc & Hcmd & -> & _)];
    unfold lanes_consistent; cbn.
  - rewrite Hc. split; [ discriminate | intros q Hq; discriminate ].
  - split; [ exact J1 | ]. intros q Hq.
    destruct (J2 q Hq) as (-> & _ & Hex). repeat split; [ lia | exact Hex ].
Qed.

Lemma detect_burst_spec (s s1 : State) (t : Q) (word : Z) (cs : Z)
    (frames : list Frame) :
  detect_burst s (sample t word) cs = Ok (s1, frames) ->
  loop_fields s1 = loop_fields s
  /\ disable_first s frames
  /\ _last_time s1 = Some t
  /\ (lanes_consistent s -> lanes_consistent s1).
Proof.
  unfold detect_burst. intro H.
  apply bind_Ok in H as (diff & _ & H).
  set (s0 := set_fastest_cs (py_min (diff * 4)%Q (_fastest_cs s)) s) in *.
  apply bind_Ok in H as ([s2 frames2] & H2 & H). inv_ok H.
  assert (Hs0 : lanes_consistent s -> lanes_consistent s0)
    by (apply lanes_consistent_ext; reflexivity).
  assert (Hlast : forall s3, lanes_consistent s3 ->
                             lanes_consistent (set_last_time (Some t) s3))
    by (intro s3; apply lanes_consistent_ext; reflexivity).
  destruct (new_burst s0 diff cs).
  - pose proof (start_burst_lanes _ _ _ _ H2) as Hl.
    apply start_burst_cases in H2
      as [(Hc & -> & ->) | (c & Hc & Hcmd & -> & ->)].
    + split; [ reflexivity | ]. split; [ | split; [ reflexivity | ] ].
      * rewrite <- (app_nil_r (boundary_frames s0 _)).
        apply (boundary_frames_disable_first s). constructor.
      * intro J. apply Hlast, Hl, Hs0, J.
    + split; [ reflexivity | ]. split; [ | split; [ reflexivity | ] ].
      * apply (boundary_frames_disable_first s).
        constructor; [ apply internal_result | constructor ].
      * intro J. apply Hlast, Hl, Hs0, J.
  - inv_ok H2. split; [ reflexivity | ]. split; [ | split; [ reflexivity | ] ].
    + left. constructor.
    + intro J. apply Hlast, Hs0, J.
Qed.

(** ** The lane assembler *)

Lemma results_no_disable (frames : list Frame) :
  results_only frames -> no_disable frames.
Proof.
  intro H. eapply Forall_impl; [ | exact H ].
  intros f (x & y & ->). apply internal_result.
Qed.

Lemma lookup_contains {V : Type} (k : Z) (d : list (Z * V)) (v : V) :
  lookup k d = Some v -> contains k d = true.
Proof. unfold contains. intros ->. reflexivity. Qed.

Lemma single_lane_no_threshold (s : State) :
  lanes_consistent s -> single_lane s = true ->
  _quad_start s = None /\ _continuous s = false.
Proof.
  intros [J1 J2] Hsl. unfold single_lane in Hsl.
  destruct (_quad_start s) as [ q | ] eqn:Hq.
  - destruct (J2 q eq_refl) as (-> & Hcc & _). apply Z.ltb_lt in Hsl. lia.
  - split; [ reflexivity | ].
    destruct (_continuous s); [ | reflexivity ].
    specialize (J1 eq_refl). discriminate.
Qed.

Lemma shift_single_spec (s s1 : State) (word : Z) (frames frames1 : list Frame) :
  shift_single s word frames = (s1, frames1) ->
  loop_fields s1 = loop_fields s
  /\ (exists extra, frames1 = frames ++ extra /\ results_only extra)
  /\ _clock_count s1 = _clock_count s
  /\ _continuous s1 = _continuous s
  /\ (_quad_start s1 = _quad_start s
      \/ _clock_count s = 7 /\ _quad_start s1 = Some 8
         /\ exists c, _command s1 = Some c
                      /\ contains c CONTINUE_COMMANDS = true).
Proof.
  unfold shift_single. cbn [_clock_count set_miso_in set_mosi_out].
  destruct (_clock_count s mod 8 =? 7).
  - destruct (_clock_count s =? 7) eqn:E7.
    + cbn [_mosi_out set_mosi_out set_miso_in set_command].
      destruct (lookup _ CONTINUE_COMMANDS) as [ dummy | ] eqn:Hl;
        intro H; inv_ok H.
      * split; [ reflexivity | ].
        split; [ eexists; split;
                 [ reflexivity | constructor; [ eexists _, _; reflexivity | constructor ] ] | ].
        split; [ reflexivity | ]. split; [ reflexivity | ].
        right. apply Z.eqb_eq in E7. split; [ exact E7 | ].
        split; [ reflexivity | ].
        eexists. split; [ reflexivity | exact (lookup_contains _ _ _ Hl) ].
      * split; [ reflexivity | ].
        split; [ eexists; split;
                 [ reflexivity | constructor; [ eexists _, _; reflexivity | constructor ] ] | ].
        split; [ reflexivity | ]. split; [ reflexivity | ].
        left. reflexivity.
    + intro H; inv_ok H.
      split; [ reflexivity | ].
      split; [ eexists; split;
               [ reflexivity | constructor; [ eexists _, _; reflexivity | constructor ] ] | ].
      split; [ reflexivity | ]. split; [ reflexivity | ].
      left. reflexivity.
  - intro H; inv_ok H.
    split; [ reflexivity | ].
    split; [ exists []; split; [ symmetry; apply app_nil_r | constructor ] | ].
    split; [ reflexivity | ]. split; [ reflexivity | ].
    left. reflexivity.
Qed.

Lemma shift_quad_spec (s s1 : State) (word : Z) (frames frames1 : list Frame) :
  shift_quad s word frames = Ok (s1, frames1) ->
  loop_fields s1 = loop_fields s
  /\ (exists extra, frames1 = frames ++ extra /\ results_only extra)
  /\ _clock_count s1 = _clock_count s
  /\ _quad_start s1 = _quad_start s
  /\ _command s1 = _command s.
Proof.
  unfold shift_quad. cbn [_clock_count set_quad_data].
  destruct (_clock_count s mod 2 =? 1).
  - intro H. apply bind_Ok in H as (c & _ & H). inv_ok H.
    split; [ destruct (contains c CONTINUE_COMMANDS && _); reflexivity | ].
    split.
    { eexists; split; [ reflexivity | ].
      constructor; [ | constructor ].
      destruct (outside_dummy_window _); eexists _, _; reflexivity. }
    destruct (contains c CONTINUE_COMMANDS && _); repeat split.
  - intro H. inv_ok H.
    split; [ reflexivity | ].
    split; [ exists []; split; [ symmetry; apply app_nil_r | constructor ] | ].
    repeat split.
Qed.

Lemma assemble_spec (s s1 : State) (word : Z) (frames frames1 : list Frame) :
  assemble s word frames = Ok (s1, frames1) ->
  loop_fields s1 = loop_fields s
  /\ (exists extra, frames1 = frames ++ extra /\ results_only extra)
  /\ (lanes_consistent s -> lanes_consistent s1).
Proof.
  unfold assemble. intro H.
  apply bind_Ok in H as ([s2 frames2] & H2 & H). inv_ok H.
  destruct (single_lane s) eqn:Hsl.
  - injection H2 as H2. apply shift_single_spec in H2
      as (Hloop & Hex & Hcc & Hcont & Hq).
    split; [ rewrite <- Hloop; reflexivity | ]. split; [ exact Hex | ].
    intro J. destruct (single_lane_no_threshold s J Hsl) as [Hnone Hoff].
    unfold lanes_consistent. cbn. rewrite Hcont, Hoff, Hcc.
    split; [ discriminate | ].
    destruct Hq as [Hq | (H7 & Hq & Hc)]; rewrite Hq.
    + rewrite Hnone. discriminate.
    + intros q Hq'. injection Hq' as <-. repeat split; [ lia | exact Hc ].
  - apply shift_quad_spec in H2 as (Hloop & Hex & Hcc & Hq & Hc).
    split; [ rewrite <- Hloop; reflexivity | ]. split; [ exact Hex | ].
    intros [J1 J2]. unfold lanes_consistent. cbn. rewrite Hq, Hc, Hcc.
    unfold single_lane in Hsl.
    destruct (_quad_start s) as [ q | ] eqn:Hqs; [ | discriminate ].
    destruct (J2 q eq_refl) as (-> & Hge & Hcmd).
    split; [ reflexivity | ].
    intros q Hq'. injection Hq' as <-. repeat split; [ lia | exact Hcmd ].
Qed.

(** ** One call of [decode] on a sample *)

Lemma decode_sample_spec (s : State) (t : Q) (word : Z)
    (r : State + State * list Frame) :
  decode_sample s (sample t word) = Ok r ->
  match r with
  | inl s1 =>
      loop_fields s1 = loop_fields s
      /\ (lanes_consistent s -> lanes_consistent s1)
  | inr (s1, frames) =>
      loop_fields s1 = loop_fields s
      /\ disable_first s frames
      /\ (lanes_consistent s -> lanes_consistent s1)
  end.
Proof.
  rewrite decode_sample_unfold. intro H.
  apply bind_Ok in H as ([s1 frames] & H1 & H).
  apply detect_burst_spec in H1 as (Hloop & Hfirst & _ & Hl).
  destruct (Z.shiftr word 15 =? 1).
  - injection H as <-. split; assumption.
  - apply bind_Ok in H as ([s2 frames2] & H2 & H). injection H as <-.
    apply assemble_spec in H2 as (Hloop2 & (extra & -> & Hex) & Hl2).
    split; [ congruence | ].
    split; [ apply disable_first_app;
             [ assumption | apply results_no_disable; assumption ] | auto ].
Qed.

Lemma buffers_aligned_fields (s s' : State) :
  loop_fields s' = loop_fields s -> buffers_aligned s -> buffers_aligned s'.
Proof.
  unfold loop_fields, buffers_aligned. intro E.
  injection E as _ _ _ Emiso Emosi _ _ _ _. rewrite Emiso, Emosi. trivial.
Qed.

Lemma decode_preserves (cfg : Settings) (s s' : State) (t : Q) (word : Z)
    (out : option Frame) :
  decode cfg s (sample t word) = Ok (s', out) ->
  buffers_aligned s /\ lanes_consistent s ->
  buffers_aligned s' /\ lanes_consistent s'.
Proof.
  rewrite decode_unfold. intros H [Ha Hl].
  apply bind_Ok in H as (r & Hr & H).
  apply decode_sample_spec in Hr. destruct r as [ s1 | [s1 frames] ].
  - inv_ok H. destruct Hr as [Hloop Hl1].
    split; [ exact (buffers_aligned_fields _ _ Hloop Ha) | auto ].
  - destruct Hr as (Hloop & Hfirst & Hl1). split.
    + apply (process_frames_aligned _ _ _ _ _ _
               (disable_first_internal _ _ Hfirst)
               (buffers_aligned_fields _ _ Hloop Ha) H).
    + apply (lanes_consistent_fields s1);
        [ exact (process_frames_lane_fields _ _ _ _ _ _ H) | auto ].
Qed.

Lemma init_well_formed (cfg : Settings) :
  buffers_aligned (init cfg) /\ lanes_consistent (init cfg).
Proof.
  split; [ exact I | ].
  split; [ discriminate | intros q Hq; discriminate ].
Qed.

Lemma reachable_well_formed (cfg : Settings) (s : State) :
  reachable cfg s -> buffers_aligned s /\ lanes_consistent s.
Proof.
  induction 1 as [ | s s' t word out _ IH Hdec ].
  - apply init_well_formed.
  - exact (decode_preserves _ _ _ _ _ _ Hdec IH).
Qed.

(** A record comes from a ["disable"] frame that found both buffers
    non-empty. *)
Lemma decode_record_nonempty (cfg : Settings) (s s' : State) (t : Q)
    (word : Z) (r : Frame) :
  decode cfg s (sample t word) = Ok (s', Some r) ->
  nonempty (_mosi_data s) = true /\ nonempty (_miso_data s) = true.
Proof.
  rewrite decode_unfold. intro H.
  apply bind_Ok in H as (res & Hres & H).
  apply decode_sample_spec in Hres. destruct res as [ s1 | [s1 frames] ];
    [ discriminate | ].
  destruct Hres as (Hloop & [Hno | (frames' & -> & Hno)] & _).
  - apply (process_frames_no_disable _ _ _ _ _ _ Hno) in H. discriminate.
  - cbn [process_frames] in H.
    apply bind_Ok in H as ([s2 o2] & H1 & H2).
    apply (process_frames_no_disable _ _ _ _ _ _ Hno) in H2. subst o2.
    unfold process_frame in H1. cbn in H1. injection H1 as H1.
    unfold process_disable in H1.
    unfold loop_fields in Hloop. injection Hloop as _ _ _ Emiso Emosi _ _ _ _.
    rewrite <- Emiso, <- Emosi.
    destruct (nonempty (_miso_data s1)), (nonempty (_mosi_data s1));
      cbn in H1; try discriminate.
    split; reflexivity.
Qed.

(** As long as every call returns, the two buffers exist together and,
    while a burst is open, hold the same number of bytes; and a call of
    [decode] returns a record only when the burst it closes had both
    buffers non-empty.  The state a raising call leaves behind is outside
    [reachable]; see [unequal_buffers_after_raise]. *)
Theorem buffers_equal_length (cfg : Settings) (s : State) :
  reachable cfg s ->
  (_mosi_data s = None <-> _miso_data s = None)
  /\ (forall mosi miso,
        _mosi_data s = Some mosi -> _miso_data s = Some miso ->
        List.length mosi = List.length miso)
  /\ (forall t word s' r,
        decode cfg s (sample t word) = Ok (s', Some r) ->
        exists b mosi b' miso,
          _mosi_data s = Some (b :: mosi) /\ _miso_data s = Some (b' :: miso)).
Proof.
  intro Hr. apply reachable_well_formed in Hr as [Ha _].
  unfold buffers_aligned in Ha.
  split; [ | split ].
  - destruct (_mosi_data s), (_miso_data s); try contradiction;
      split; intro; congruence.
  - intros mosi miso Hmosi Hmiso. rewrite Hmosi, Hmiso in Ha. exact Ha.
  - intros t word s' r Hdec.
    destruct (decode_record_nonempty _ _ _ _ _ _ Hdec) as [Hmosi Hmiso].
    destruct (_mosi_data s) as [ [ | b mosi ] | ]; try discriminate.
    destruct (_miso_data s) as [ [ | b' miso ] | ]; try discriminate.
    eauto 6.
Qed.

Lemma buffers_equal_length_witness :
  exists mosi miso,
    _mosi_data (open_burst 1 (init default_settings)) = Some mosi
    /\ _miso_data (open_burst 1 (init default_settings)) = Some miso
    /\ List.length mosi = List.length miso.
Proof.
  assert (Hr : reachable default_settings
                 (single_edge 0 (open_burst 1
                    (set_last_time (Some 1%Q)
                       (fresh_burst (init default_settings)))))).
  { apply (reachable_decode _ (init default_settings) _ 1%Q 0 None).
    - apply reachable_init.
    - vm_compute. reflexivity. }
  exists [], []. split; [ reflexivity | ]. split; [ reflexivity | ].
  exact (proj1 (proj2 (buffers_equal_length default_settings _ Hr))
           [] [] eq_refl eq_refl).
Defined.

(** ** The lane assembler, edge by edge *)

Lemma assemble_single_edge (s : State) (word : Z) (frames : list Frame) :
  single_lane s = true ->
  (_clock_count s mod 8 =? 7) = false ->
  assemble s word frames = Ok (single_edge word s, frames).
Proof.
  intros Hsl Hm. unfold assemble, shift_single. rewrite Hsl.
  cbn [_clock_count set_miso_in set_mosi_out]. rewrite Hm. reflexivity.
Qed.

Lemma assemble_single_flush (s : State) (word : Z) (frames : list Frame) :
  single_lane s = true ->
  (_clock_count s mod 8 =? 7) = true ->
  (_clock_count s =? 7) = false ->
  assemble s word frames
  = Ok (single_flush s,
        frames ++ [result_frame (mosi_shifted s word) (miso_shifted s word)]).
Proof.
  intros Hsl Hm H7. unfold assemble, shift_single. rewrite Hsl.
  cbn [_clock_count set_miso_in set_mosi_out]. rewrite Hm, H7. reflexivity.
Qed.

Lemma assemble_opcode (s : State) (word : Z) (frames : list Frame) :
  single_lane s = true ->
  _clock_count s = 7 ->
  assemble s word frames
  = Ok (match lookup (mosi_shifted s word) CONTINUE_COMMANDS with
        | Some dummy =>
            set_dummy dummy
              (set_quad_start (Some 8)
                 (set_command (Some (mosi_shifted s word)) (single_flush s)))
        | None => set_command (Some (mosi_shifted s word)) (single_flush s)
        end,
        frames ++ [result_frame (mosi_shifted s word) (miso_shifted s word)]).
Proof.
  intros Hsl H7. unfold assemble, shift_single. rewrite Hsl.
  cbn [_clock_count set_miso_in set_mosi_out]. rewrite H7.
  change (7 mod 8 =? 7) with true. change (7 =? 7) with true. cbv iota.
  cbn [_mosi_out set_mosi_out set_miso_in set_command].
  fold (mosi_shifted s word).
  destruct (lookup (mosi_shifted s word) CONTINUE_COMMANDS);
    unfold single_flush; cbn; rewrite H7; reflexivity.
Qed.

Lemma assemble_quad_edge (s : State) (word : Z) (frames : list Frame) :
  single_lane s = false ->
  (_clock_count s mod 2 =? 1) = false ->
  assemble s word frames = Ok (quad_edge word s, frames).
Proof.
  intros Hsl Hm. unfold assemble, shift_quad. rewrite Hsl.
  cbn [_clock_count set_quad_data]. rewrite Hm. reflexivity.
Qed.

Lemma assemble_quad_flush (s : State) (word : Z) (frames : list Frame) (c : Z) :
  single_lane s = false ->
  (_clock_count s mod 2 =? 1) = true ->
  _command s = Some c ->
  assemble s word frames
  = Ok (set_clock_count (_clock_count s + 1)
          (set_quad_data 0
             (if contains c CONTINUE_COMMANDS && (_clock_count s =? 15)
              then set_continuous (Z.land (quad_shifted s word) 0xf0 =? 0xa0)
                     (set_quad_data (quad_shifted s word) s)
              else set_quad_data (quad_shifted s word) s)),
        frames ++ [if outside_dummy_window s
                   then result_frame (quad_shifted s word) 0
                   else result_frame 0 (quad_shifted s word)]).
Proof.
  intros Hsl Hm Hc. unfold assemble, shift_quad, read_command. rewrite Hsl.
  cbn [_clock_count set_quad_data _command]. rewrite Hm, Hc. cbn [bind].
  unfold outside_dummy_window. cbn [_clock_count _dummy set_quad_data _quad_data].
  fold (quad_shifted s word).
  destruct (contains c CONTINUE_COMMANDS && (_clock_count s =? 15));
    reflexivity.
Qed.

(** ** [decode] inside a burst and at its start *)

Lemma decode_in_burst (cfg : Settings) (s : State) (t : Q) (word : Z)
    (diff : Q) :
  gap s (sample t word) = Ok diff ->
  new_burst (set_fastest_cs (py_min (diff * 4)%Q (_fastest_cs s)) s) diff
    (Z.shiftr word 15) = false ->
  Z.shiftr word 15 <> 1 ->
  decode cfg s (sample t word)
  = ('(s2, frames) <- assemble (idle_update s (sample t word) diff) word [] ;;
     process_frames cfg frames (s2, None)).
Proof.
  intros Hgap Hnew Hcs. rewrite decode_unfold, decode_sample_unfold.
  rewrite (detect_burst_idle _ _ _ _ Hgap Hnew). cbn [bind].
  apply Z.eqb_neq in Hcs. rewrite Hcs.
  destruct (assemble _ word []) as [ [s2 frames] | e ]; reflexivity.
Qed.

Lemma detect_burst_start (s : State) (t : Q) (word : Z) (diff : Q)
    (s1 : State) (frames : list Frame) :
  gap s (sample t word) = Ok diff ->
  new_burst (set_fastest_cs (py_min (diff * 4)%Q (_fastest_cs s)) s) diff
    (Z.shiftr word 15) = true ->
  start_burst (set_fastest_cs (py_min (diff * 4)%Q (_fastest_cs s)) s)
    (sample t word) = Ok (s1, frames) ->
  detect_burst s (sample t word) (Z.shiftr word 15)
  = Ok (set_last_time (Some t) s1, frames).
Proof.
  intros Hgap Hnew Hstart. unfold detect_burst. rewrite Hgap. cbn [bind].
  rewrite Hnew, Hstart. reflexivity.
Qed.

Lemma new_burst_cs (s : State) (diff : Q) (cs : Z) :
  new_burst s diff cs = true -> cs = 0.
Proof.
  unfold new_burst. intro H. apply andb_true_iff in H as [_ H].
  apply Z.eqb_eq. exact H.
Qed.

Lemma process_boundary_frames (cfg : Settings) (s0 s : State) (t : Q)
    (word : Z) (extra : list Frame) :
  process_frames cfg (boundary_frames s0 (sample t word) ++ extra) (s, None)
  = process_frames cfg extra
      (open_burst t (fst (close_burst cfg s0 s)), snd (close_burst cfg s0 s)).
Proof.
  unfold boundary_frames, close_burst.
  destruct (0 <? _transaction s0).
  - cbn. destruct (process_disable cfg s _ None) as [s4 out]. reflexivity.
  - reflexivity.
Qed.

(** ** Direction of the bytes of the quad phase *)

Lemma extend_byte (buf : list Z) (b : Z) :
  is_byte b = true -> extend buf (VList [b]) = Ok (buf ++ [b]).
Proof. intro H. cbn. rewrite H. reflexivity. Qed.

Lemma process_one_result (cfg : Settings) (s : State) (mosi miso : list Z)
    (x y : Z) (o : option Frame) :
  _mosi_data s = Some mosi ->
  _miso_data s = Some miso ->
  is_byte x = true ->
  is_byte y = true ->
  process_frames cfg [result_frame x y] (s, o)
  = Ok (set_mosi_data (Some (mosi ++ [x]))
          (set_miso_data (Some (miso ++ [y])) s), o).
Proof.
  intros Hmosi Hmiso Hx Hy. cbn [process_frames app].
  rewrite process_result_frame_unfold, Hmosi, Hmiso.
  rewrite (extend_byte miso y Hy), (extend_byte mosi x Hx). reflexivity.
Qed.

Lemma quad_shifted_idle (s : State) (frame : Frame) (diff : Q) (word : Z) :
  quad_shifted (idle_update s frame diff) word = quad_shifted s word.
Proof. reflexivity. Qed.

(** C1, as the code has it.  On a sample inside an open burst, in the quad
    phase, whose clock-edge index is odd, the byte assembled from the last
    two nibbles is appended to the device-to-host buffer (and 0 to the
    host-to-device buffer) when the index lies in the dummy window, that is
    strictly above 15 and at most 15 + dummy count; at every other index
    (at most 15, or strictly above 15 + dummy count) the byte is appended to
    the host-to-device buffer and 0 to the device-to-host buffer. *)
Theorem quad_flush_direction (cfg : Settings) (s : State) (t : Q) (word : Z)
    (diff : Q) (c : Z) (mosi miso : list Z) :
  gap s (sample t word) = Ok diff ->
  new_burst (set_fastest_cs (py_min (diff * 4)%Q (_fastest_cs s)) s) diff
    (Z.shiftr word 15) = false ->
  Z.shiftr word 15 = 0 ->
  single_lane s = false ->
  _clock_count s mod 2 = 1 ->
  _command s = Some c ->
  _mosi_data s = Some mosi ->
  _miso_data s = Some miso ->
  is_byte (quad_shifted s word) = true ->
  exists s',
    decode cfg s (sample t word) = Ok (s', None)
    /\ (15 < _clock_count s <= 15 + _dummy s ->
        _mosi_data s' = Some (mosi ++ [0])
        /\ _miso_data s' = Some (miso ++ [quad_shifted s word]))
    /\ (_clock_count s <= 15 \/ 15 + _dummy s < _clock_count s ->
        _mosi_data s' = Some (mosi ++ [quad_shifted s word])
        /\ _miso_data s' = Some (miso ++ [0])).
Proof.
  intros Hgap Hnew Hcs Hquad Hodd Hcmd Hmosi Hmiso Hbyte.
  rewrite (decode_in_burst cfg s t word diff Hgap Hnew)
    by (rewrite Hcs; discriminate).
  rewrite (assemble_quad_flush _ word [] c); trivial;
    [ | cbn; rewrite Hodd; reflexivity ].
  cbn [bind app]. rewrite !quad_shifted_idle.
  set (s2 := set_clock_count _ _).
  assert (Hmosi2 : _mosi_data s2 = Some mosi).
  { subst s2. cbn. destruct (contains c CONTINUE_COMMANDS && _); exact Hmosi. }
  assert (Hmiso2 : _miso_data s2 = Some miso).
  { subst s2. cbn. destruct (contains c CONTINUE_COMMANDS && _); exact Hmiso. }
  unfold outside_dummy_window. cbn [idle_update _clock_count _dummy
    set_last_time set_fastest_cs].
  destruct ((15 <? _clock_count s) && (_clock_count s <=? 15 + _dummy s))
    eqn:Hwin; cbn [negb].
  - rewrite (process_one_result cfg s2 mosi miso 0 _ None Hmosi2 Hmiso2 eq_refl Hbyte).
    eexists. split; [ reflexivity | ].
    apply andb_true_iff in Hwin as [H1 H2].
    apply Z.ltb_lt in H1. apply Z.leb_le in H2.
    split; [ intros _; split; reflexivity | intros [H | H]; lia ].
  - rewrite (process_one_result cfg s2 mosi miso _ 0 None Hmosi2 Hmiso2 Hbyte eq_refl).
    eexists. split; [ reflexivity | ].
    apply andb_false_iff in Hwin.
    split; [ | intros _; split; reflexivity ].
    intros [H1 H2]. destruct Hwin as [H | H];
      [ apply Z.ltb_ge in H | apply Z.leb_gt in H ]; lia.
Qed.

Lemma quad_flush_direction_witness :
  exists s',
    decode default_settings before_edge_19 (sample (100000019 # 100000000) 0x6)
      = Ok (s', None)
    /\ _mosi_data s' = Some [0xe7; 0x11; 0x22; 0x33; 0x44; 0; 0x66]
    /\ _miso_data s' = Some [0; 0; 0; 0; 0; 0x55; 0].
Proof.
  destruct (quad_flush_direction default_settings before_edge_19
              (100000019 # 100000000) 0x6 _ 0xe7
              [0xe7; 0x11; 0x22; 0x33; 0x44; 0] [0; 0; 0; 0; 0; 0x55] eq_refl)
    as (s' & Hdec & _ & Hout); try (vm_compute; reflexivity).
  exists s'. split; [ exact Hdec | ].
  apply Hout. right. vm_compute. reflexivity.
Defined.

(** C1, as stated, fails on a Quad Word Read: with two dummy clocks, the
    byte 0x66 flushed at edge 19, strictly after 15 + 2, ends up in the
    host-to-device buffer, and the byte 0x55 flushed at edge 17, not
    after 15 + 2, in the device-to-host buffer. *)
Lemma quad_byte_after_dummy_window :
  exists s outs,
    run default_settings (init default_settings) quad_word_read_trace
      = Ok (s, outs)
    /\ _dummy s = 2
    /\ _clock_count s = 20
    /\ _mosi_data s = Some [0xe7; 0x11; 0x22; 0x33; 0x44; 0; 0x66]
    /\ _miso_data s = Some [0; 0; 0; 0; 0; 0x55; 0].
Proof.
  eexists _, _. split; [ vm_compute; reflexivity | ].
  repeat split.
Qed.

(** ** Continuous mode *)

Lemma upper_nibble (b : Z) :
  is_byte b = true ->
  (Z.land b 0xf0 =? 0xa0) = (Z.shiftr b 4 =? 0xA).
Proof.
  intro Hb. unfold is_byte in Hb. apply andb_true_iff in Hb as [H0 H1].
  apply Z.leb_le in H0. apply Z.ltb_lt in H1.
  assert (Hall : forallb (fun n => Bool.eqb (Z.land (Z.of_nat n) 0xf0 =? 0xa0)
                                     (Z.shiftr (Z.of_nat n) 4 =? 0xA))
                         (seq 0 256) = true) by (vm_compute; reflexivity).
  rewrite forallb_forall in Hall.
  specialize (Hall (Z.to_nat b)).
  rewrite Z2Nat.id in Hall by exact H0.
  apply Bool.eqb_prop, Hall, in_seq. lia.
Qed.

(** The mode byte decides the flag. *)
Lemma mode_byte_sets_flag (cfg : Settings) (s : State) (t : Q) (word : Z)
    (diff : Q) (c : Z) (mosi miso : list Z) :
  gap s (sample t word) = Ok diff ->
  new_burst (set_fastest_cs (py_min (diff * 4)%Q (_fastest_cs s)) s) diff
    (Z.shiftr word 15) = false ->
  Z.shiftr word 15 = 0 ->
  single_lane s = false ->
  _clock_count s = 15 ->
  _command s = Some c ->
  contains c CONTINUE_COMMANDS = true ->
  _mosi_data s = Some mosi ->
  _miso_data s = Some miso ->
  is_byte (quad_shifted s word) = true ->
  exists s',
    decode cfg s (sample t word) = Ok (s', None)
    /\ (_continuous s' = true <-> Z.shiftr (quad_shifted s word) 4 = 0xA).
Proof.
  intros Hgap Hnew Hcs Hquad H15 Hcmd Hcont Hmosi Hmiso Hbyte.
  rewrite (decode_in_burst cfg s t word diff Hgap Hnew)
    by (rewrite Hcs; discriminate).
  rewrite (assemble_quad_flush _ word [] c); trivial;
    [ | cbn; rewrite H15; reflexivity ].
  cbn [bind app]. rewrite !quad_shifted_idle.
  cbn [idle_update _clock_count set_last_time set_fastest_cs].
  rewrite Hcont, H15. change (15 =? 15) with true. cbn [andb].
  set (s2 := set_clock_count _ _).
  assert (Hflag : _continuous s2 = (Z.shiftr (quad_shifted s word) 4 =? 0xA))
    by (subst s2; cbn; apply upper_nibble, Hbyte).
  assert (Hdone : exists s',
             process_frames cfg
               [if outside_dummy_window
                     (set_quad_data (quad_shifted s word)
                        (idle_update s (sample t word) diff))
                then result_frame (quad_shifted s word) 0
                else result_frame 0 (quad_shifted s word)] (s2, None)
             = Ok (s', None) /\ _continuous s' = _continuous s2).
  { destruct (outside_dummy_window _).
    - rewrite (process_one_result cfg s2 mosi miso _ 0 None Hmosi Hmiso
                 Hbyte eq_refl).
      eexists. split; reflexivity.
    - rewrite (process_one_result cfg s2 mosi miso 0 _ None Hmosi Hmiso
                 eq_refl Hbyte).
      eexists. split; reflexivity. }
  destruct Hdone as (s' & Hrun & Hsame).
  exists s'. split; [ exact Hrun | ].
  rewrite Hsame, Hflag. apply Z.eqb_eq.
Qed.

(** ** [decode] at a burst start *)

Lemma close_burst_lane_fields (cfg : Settings) (s0 s : State) :
  lane_fields (fst (close_burst cfg s0 s)) = lane_fields s.
Proof.
  unfold close_burst. destruct (0 <? _transaction s0); [ | reflexivity ].
  apply process_disable_lane_fields.
Qed.

Lemma decode_fresh_start (cfg : Settings) (s : State) (t : Q) (word : Z)
    (diff : Q) :
  gap s (sample t word) = Ok diff ->
  new_burst (set_fastest_cs (py_min (diff * 4)%Q (_fastest_cs s)) s) diff
    (Z.shiftr word 15) = true ->
  _continuous s = false ->
  let s0 := set_fastest_cs (py_min (diff * 4)%Q (_fastest_cs s)) s in
  let s3 := single_edge word (set_last_time (Some t) (fresh_burst s0)) in
  decode cfg s (sample t word)
  = Ok (open_burst t (fst (close_burst cfg s0 s3)),
        snd (close_burst cfg s0 s3)).
Proof.
  intros Hgap Hnew Hc s0 s3.
  rewrite decode_unfold, decode_sample_unfold.
  rewrite (detect_burst_start s t word diff _ _ Hgap Hnew
             (start_burst_fresh s0 (sample t word) Hc)).
  cbn [bind]. rewrite (new_burst_cs _ _ _ Hnew). change (0 =? 1) with false.
  cbv iota.
  rewrite (assemble_single_edge (set_last_time (Some t) (fresh_burst s0))
             word _ eq_refl eq_refl).
  cbn [bind]. fold s3.
  rewrite <- (app_nil_r (boundary_frames s0 _)), process_boundary_frames.
  reflexivity.
Qed.

Lemma decode_continued_start (cfg : Settings) (s : State) (t : Q) (word : Z)
    (diff : Q) (c : Z) :
  gap s (sample t word) = Ok diff ->
  new_burst (set_fastest_cs (py_min (diff * 4)%Q (_fastest_cs s)) s) diff
    (Z.shiftr word 15) = true ->
  _continuous s = true ->
  _command s = Some c ->
  is_byte c = true ->
  _quad_start s = Some 8 ->
  let s0 := set_fastest_cs (py_min (diff * 4)%Q (_fastest_cs s)) s in
  let s3 := quad_edge word (set_last_time (Some t) (continued_burst s0)) in
  decode cfg s (sample t word)
  = Ok (with_buffers [c] [0] (open_burst t (fst (close_burst cfg s0 s3))),
        snd (close_burst cfg s0 s3)).
Proof.
  intros Hgap Hnew Hc Hcmd Hbyte Hq s0 s3.
  rewrite decode_unfold, decode_sample_unfold.
  rewrite (detect_burst_start s t word diff _ _ Hgap Hnew
             (start_burst_continued s0 (sample t word) c Hc Hcmd)).
  cbn [bind]. rewrite (new_burst_cs _ _ _ Hnew). change (0 =? 1) with false.
  cbv iota.
  rewrite assemble_quad_edge;
    [ | unfold single_lane; cbn; rewrite Hq; reflexivity | reflexivity ].
  cbn [bind]. fold s3.
  rewrite process_boundary_frames.
  apply (process_one_result cfg _ [] [] c 0); trivial.
Qed.

Lemma contains_continue_byte (c : Z) :
  contains c CONTINUE_COMMANDS = true -> is_byte c = true.
Proof.
  unfold contains, CONTINUE_COMMANDS, lookup.
  destruct (c =? 0x6b) eqn:E1; [ apply Z.eqb_eq in E1; subst; reflexivity | ].
  destruct (c =? 0xe7) eqn:E2; [ apply Z.eqb_eq in E2; subst; reflexivity | ].
  destruct (c =? 0xeb) eqn:E3; [ apply Z.eqb_eq in E3; subst; reflexivity | ].
  discriminate.
Qed.

(** A burst that starts while the flag is set. *)
Lemma continued_burst_start (cfg : Settings) (s : State) (t : Q) (word : Z)
    (diff : Q) :
  reachable cfg s ->
  gap s (sample t word) = Ok diff ->
  new_burst (set_fastest_cs (py_min (diff * 4)%Q (_fastest_cs s)) s) diff
    (Z.shiftr word 15) = true ->
  _continuous s = true ->
  exists c s1 frames s' out,
    _command s = Some c
    /\ detect_burst s (sample t word) (Z.shiftr word 15)
       = Ok (s1, frames ++ [result_frame c 0])
    /\ _clock_count s1 = 8
    /\ decode cfg s (sample t word) = Ok (s', out)
    /\ _clock_count s' = 9
    /\ _mosi_data s' = Some [c]
    /\ _miso_data s' = Some [0]
    /\ _command s' = _command s
    /\ _quad_start s' = _quad_start s
    /\ _dummy s' = _dummy s
    /\ _mosi_out s' = _mosi_out s
    /\ _miso_in s' = _miso_in s.
Proof.
  intros Hr Hgap Hnew Hc.
  apply reachable_well_formed in Hr as [_ [J1 J2]].
  pose proof (J1 Hc) as Hq.
  destruct (J2 8 Hq) as (_ & _ & c & Hcmd & Hcont).
  pose proof (contains_continue_byte c Hcont) as Hbyte.
  set (s0 := set_fastest_cs (py_min (diff * 4)%Q (_fastest_cs s)) s).
  exists c, (set_last_time (Some t) (continued_burst s0)),
    (boundary_frames s0 (sample t word)).
  eexists _, _.
  split; [ exact Hcmd | ].
  split; [ exact (detect_burst_start s t word diff _ _ Hgap Hnew
                    (start_burst_continued s0 (sample t word) c Hc Hcmd)) | ].
  split; [ reflexivity | ].
  split; [ exact (decode_continued_start cfg s t word diff c Hgap Hnew Hc Hcmd
                    Hbyte Hq) | ].
  fold s0.
  set (s3 := quad_edge word (set_last_time (Some t) (continued_burst s0))).
  pose proof (close_burst_lane_fields cfg s0 s3) as E.
  unfold lane_fields in E.
  injection E as _ _ Ecc Emo Emi _ Eqs _ Ed _ Ecmd _ _ _.
  cbn [with_buffers open_burst _clock_count _mosi_data _miso_data _command
       _quad_start _dummy _mosi_out _miso_in set_mosi_data set_miso_data
       set_start_time].
  rewrite Ecc, Emo, Emi, Eqs, Ed, Ecmd.
  repeat split.
Qed.

Lemma reachable_run (cfg : Settings) (dt : Q) (words : list Z) :
  forall t s s' outs,
    reachable cfg s ->
    run cfg s (clocked t dt words) = Ok (s', outs) ->
    reachable cfg s'.
Proof.
  induction words as [ | w words IH ]; intros t s s' outs Hr H;
    cbn [run clocked] in H.
  - injection H as <- _. exact Hr.
  - apply bind_Ok in H as ([s1 out] & Hdec & H).
    apply bind_Ok in H as ([s2 outs2] & Hrun & H). injection H as <- _.
    apply (IH (Qred (t + dt)) s1 _ outs2); [ | exact Hrun ].
    exact (reachable_decode cfg s s1 t w out Hr Hdec).
Qed.

(** C4. (1) On the sample at clock edge 15 of the quad phase of a burst
    whose opcode is in [CONTINUE_COMMANDS], the continuous flag becomes
    true exactly when the upper nibble of the byte flushed there is 0xA.
    (2) When a burst starts while the flag is set, the boundary detector
    sets the clock count to 8 and queues one result frame with the stored
    opcode for the host-to-device side and 0 for the other; after the call
    the buffers hold exactly that pair, the clock count is 9 (the sample
    itself is one edge of the quad phase), and the opcode, the quad-switch
    threshold, the dummy count and the two bit accumulators are not
    reset. *)
Theorem continuous_mode (cfg : Settings) :
  (forall s t word diff c mosi miso,
      gap s (sample t word) = Ok diff ->
      new_burst (set_fastest_cs (py_min (diff * 4)%Q (_fastest_cs s)) s) diff
        (Z.shiftr word 15) = false ->
      Z.shiftr word 15 = 0 ->
      single_lane s = false ->
      _clock_count s = 15 ->
      _command s = Some c ->
      contains c CONTINUE_COMMANDS = true ->
      _mosi_data s = Some mosi ->
      _miso_data s = Some miso ->
      is_byte (quad_shifted s word) = true ->
      exists s',
        decode cfg s (sample t word) = Ok (s', None)
        /\ (_continuous s' = true
            <-> Z.shiftr (quad_shifted s word) 4 = 0xA))
  /\ (forall s t word diff,
        reachable cfg s ->
        gap s (sample t word) = Ok diff ->
        new_burst (set_fastest_cs (py_min (diff * 4)%Q (_fastest_cs s)) s)
          diff (Z.shiftr word 15) = true ->
        _continuous s = true ->
        exists c s1 frames s' out,
          _command s = Some c
          /\ detect_burst s (sample t word) (Z.shiftr word 15)
             = Ok (s1, frames ++ [result_frame c 0])
          /\ _clock_count s1 = 8
          /\ decode cfg s (sample t word) = Ok (s', out)
          /\ _clock_count s' = 9
          /\ _mosi_data s' = Some [c]
          /\ _miso_data s' = Some [0]
          /\ _command s' = _command s
          /\ _quad_start s' = _quad_start s
          /\ _dummy s' = _dummy s
          /\ _mosi_out s' = _mosi_out s
          /\ _miso_in s' = _miso_in s).
Proof.
  split.
  - intros s t word diff c mosi miso. apply mode_byte_sets_flag.
  - intros s t word diff. apply continued_burst_start.
Qed.

Lemma after_mode_byte_reachable : reachable default_settings after_mode_byte.
Proof.
  apply (reachable_run default_settings clock_period
           (bits_of_byte 0xeb
            ++ flat_map nibbles_of_byte [0x00; 0x10; 0x00; 0xA5])
           1%Q (init default_settings) after_mode_byte
           (repeat None 16)).
  - apply reachable_init.
  - vm_compute. reflexivity.
Qed.

Lemma continuous_mode_witness :
  (exists s',
      decode default_settings before_mode_byte (sample (100000015 # 100000000) 0x5)
        = Ok (s', None)
      /\ _continuous s' = true)
  /\ (exists s' out,
        decode default_settings after_mode_byte (sample (1001 # 1000) 0)
          = Ok (s', out)
        /\ _clock_count s' = 9
        /\ _mosi_data s' = Some [0xeb]).
Proof.
  split.
  - destruct (proj1 (continuous_mode default_settings) before_mode_byte
                (100000015 # 100000000)%Q 0x5 _ 0xeb
                [0xeb; 0x00; 0x10; 0x00] [0; 0; 0; 0] eq_refl)
      as (s' & Hdec & Hflag); try (vm_compute; reflexivity).
    exists s'. split; [ exact Hdec | ]. apply Hflag. vm_compute. reflexivity.
  - destruct (proj2 (continuous_mode default_settings) after_mode_byte
                (1001 # 1000)%Q 0 _ after_mode_byte_reachable eq_refl)
      as (c & s1 & frames & s' & out & Hcmd & _ & _ & Hdec & Hcc & Hmosi & _);
      try (vm_compute; reflexivity).
    exists s', out. split; [ exact Hdec | ]. split; [ exact Hcc | ].
    rewrite Hmosi. injection Hcmd as <-. reflexivity.
Defined.

(** ** The transaction counter *)

Lemma detect_burst_transaction (s s1 : State) (t : Q) (word cs : Z)
    (frames : list Frame) :
  detect_burst s (sample t word) cs = Ok (s1, frames) ->
  (_transaction s1 = _transaction s /\ frames = [])
  \/ _transaction s1 = _transaction s + 1.
Proof.
  unfold detect_burst. intro H.
  apply bind_Ok in H as (diff & _ & H).
  apply bind_Ok in H as ([s2 frames2] & H2 & H). inv_ok H.
  destruct (new_burst _ diff cs).
  - right.
    apply start_burst_cases in H2
      as [(_ & -> & _) | (c & _ & _ & -> & _)]; reflexivity.
  - inv_ok H2. left. split; reflexivity.
Qed.

Lemma assemble_transaction (s s1 : State) (word : Z)
    (frames frames1 : list Frame) :
  assemble s word frames = Ok (s1, frames1) ->
  _transaction s1 = _transaction s.
Proof.
  unfold assemble. intro H.
  apply bind_Ok in H as ([s2 frames2] & H2 & H). inv_ok H.
  cbn [_transaction set_clock_count].
  destruct (single_lane s).
  - injection H2 as H2. revert H2. unfold shift_single.
    cbn [_clock_count set_miso_in set_mosi_out].
    destruct (_clock_count s mod 8 =? 7); [ | intro H; inv_ok H; reflexivity ].
    destruct (_clock_count s =? 7); [ | intro H; inv_ok H; reflexivity ].
    cbn [_mosi_out set_mosi_out set_miso_in set_command].
    destruct (lookup _ CONTINUE_COMMANDS); intro H; inv_ok H; reflexivity.
  - revert H2. unfold shift_quad. cbn [_clock_count set_quad_data].
    destruct (_clock_count s mod 2 =? 1); [ | intro H; inv_ok H; reflexivity ].
    intro H. apply bind_Ok in H as (c & _ & H). inv_ok H.
    destruct (contains c CONTINUE_COMMANDS && _); reflexivity.
Qed.

Lemma process_results_buffers (cfg : Settings) (frames : list Frame) :
  forall s s' o o',
    results_only frames ->
    process_frames cfg frames (s, o) = Ok (s', o') ->
    _mosi_data s' <> None -> _mosi_data s <> None.
Proof.
  induction frames as [ | f frames IH ]; intros s s' o o' Hf H;
    cbn [process_frames] in H.
  - inv_ok H. trivial.
  - apply bind_Ok in H as ([s1 o1] & H1 & H2).
    inversion Hf as [ | ? ? (x & y & ->) Hrest ]; subst.
    intro Hs'. pose proof (IH _ _ _ _ Hrest H2 Hs') as Hs1.
    rewrite process_result_frame_unfold in H1.
    destruct (_mosi_data s) as [ mosi | ] eqn:Hm; [ discriminate | ].
    exfalso. apply Hs1.
    destruct (_miso_data s); inv_ok H1; exact Hm.
Qed.

Lemma decode_counted (cfg : Settings) (s s' : State) (t : Q) (word : Z)
    (out : option Frame) :
  decode cfg s (sample t word) = Ok (s', out) ->
  counted s -> counted s'.
Proof.
  rewrite decode_unfold. intros H [K0 K1].
  apply bind_Ok in H as (r & Hr & H).
  rewrite decode_sample_unfold in Hr.
  apply bind_Ok in Hr as ([s1 frames] & Hd & Hr).
  pose proof (detect_burst_transaction _ _ _ _ _ _ Hd) as Htr.
  apply detect_burst_spec in Hd as (Hloop & _).
  assert (Hmosi1 : _mosi_data s1 = _mosi_data s)
    by (unfold loop_fields in Hloop; congruence).
  destruct (Z.shiftr word 15 =? 1).
  - injection Hr as <-. inv_ok H. unfold counted. rewrite Hmosi1.
    destruct Htr as [[-> _] | ->]; split; try assumption; intros; lia.
  - apply bind_Ok in Hr as ([s2 frames2] & Ha & Hr). injection Hr as <-.
    pose proof (assemble_transaction _ _ _ _ _ Ha) as Htr2.
    apply assemble_spec in Ha as (Hloop2 & (extra & -> & Hex) & _).
    assert (Hmosi2 : _mosi_data s2 = _mosi_data s1)
      by (unfold loop_fields in Hloop2; congruence).
    pose proof (process_frames_lane_fields _ _ _ _ _ _ H) as E.
    assert (Htr' : _transaction s' = _transaction s2)
      by (unfold lane_fields in E; congruence).
    unfold counted. rewrite Htr', Htr2.
    destruct Htr as [[-> ->] | ->]; [ | split; intros; lia ].
    split; [ exact K0 | ]. intro Hs'. apply K1.
    rewrite <- Hmosi1, <- Hmosi2.
    exact (process_results_buffers _ _ _ _ _ _ Hex H Hs').
Qed.

Lemma reachable_counted (cfg : Settings) (s : State) :
  reachable cfg s -> counted s.
Proof.
  induction 1 as [ | s s' t word out _ IH Hdec ].
  - split; [ cbn; lia | intro H; contradiction H; reflexivity ].
  - exact (decode_counted _ _ _ _ _ _ Hdec IH).
Qed.

(** ** Truncated data commands *)

Lemma classify_truncated (cfg : Settings) (s : State) (op : Z) (rest : list Z) :
  contains op DATA_COMMANDS = true ->
  Z.of_nat (List.length (op :: rest)) < 1 + _address_bytes s ->
  classify cfg s (op :: rest) = (s, Some "error", [("command", VInt op)]).
Proof.
  intros Hop Hlen. unfold classify. cbn [nth]. rewrite Hop.
  apply Z.ltb_lt in Hlen. rewrite Hlen. reflexivity.
Qed.

Lemma suppressed_error (level : string) :
  suppressed level (Some "error") = String.eqb level "Only Control".
Proof.
  unfold suppressed.
  change (String.eqb "error" "control_command") with false.
  change (String.eqb "error" "error") with true.
  cbn [negb]. rewrite !andb_false_r, andb_true_r. reflexivity.
Qed.

Lemma close_burst_truncated (cfg : Settings) (s0 s : State) (op : Z)
    (rest : list Z) :
  0 < _transaction s0 ->
  _mosi_data s = Some (op :: rest) ->
  nonempty (_miso_data s) = true ->
  contains op DATA_COMMANDS = true ->
  Z.of_nat (List.length (op :: rest)) < 1 + _address_bytes s ->
  close_burst cfg s0 s
  = (set_mosi_data None (set_miso_data None s),
     if String.eqb (decode_level cfg) "Only Control" then None
     else Some (AnalyzerFrame "error" (_start_time s) (_last_time s0)
                  [("command", VInt op)])).
Proof.
  intros Htr Hmosi Hmiso Hop Hlen. unfold close_burst.
  apply Z.ltb_lt in Htr. rewrite Htr.
  rewrite (process_disable_classified cfg s s _ None (op :: rest)
             (Some "error") [("command", VInt op)] Hmiso Hmosi);
    [ | discriminate | apply classify_truncated; assumption ].
  rewrite suppressed_error. reflexivity.
Qed.

(** C5, as the code has it.  In a capture whose calls have returned so
    far, when a burst ends (the sample that starts the next one arrives)
    with a known data opcode first in the host-to-device buffer and fewer
    than 1 + address-width bytes in it, [decode] does not raise; the frame
    it builds has type "error" and carries the opcode, and it is returned
    under every output level except 'Only Control', which returns nothing;
    no "data_command" frame is produced; the address width is unchanged;
    and the buffers are replaced by fresh ones that hold nothing of the
    finished burst: they are empty, or hold the synthetic pair of a
    continued burst. *)
Theorem truncated_data_command (cfg : Settings) (s : State) (t : Q)
    (word : Z) (diff : Q) (op : Z) (rest : list Z) :
  reachable cfg s ->
  gap s (sample t word) = Ok diff ->
  new_burst (set_fastest_cs (py_min (diff * 4)%Q (_fastest_cs s)) s) diff
    (Z.shiftr word 15) = true ->
  _mosi_data s = Some (op :: rest) ->
  contains op DATA_COMMANDS = true ->
  Z.of_nat (List.length (op :: rest)) < 1 + _address_bytes s ->
  exists s',
    decode cfg s (sample t word)
    = Ok (s',
          if String.eqb (decode_level cfg) "Only Control" then None
          else Some (AnalyzerFrame "error" (_start_time s) (_last_time s)
                       [("command", VInt op)]))
    /\ _address_bytes s' = _address_bytes s
    /\ (_continuous s = false ->
        _mosi_data s' = Some [] /\ _miso_data s' = Some [])
    /\ (_continuous s = true ->
        exists c, _command s = Some c
                  /\ _mosi_data s' = Some [c] /\ _miso_data s' = Some [0]).
Proof.
  intros Hr Hgap Hnew Hmosi Hop Hlen.
  pose proof (reachable_counted cfg s Hr) as [_ Htr].
  specialize (Htr ltac:(rewrite Hmosi; discriminate)).
  apply reachable_well_formed in Hr as [Ha [J1 J2]].
  assert (Hmiso : nonempty (_miso_data s) = true).
  { unfold buffers_aligned in Ha. rewrite Hmosi in Ha.
    destruct (_miso_data s) as [ [ | b miso ] | ];
      [ discriminate | reflexivity | contradiction ]. }
  set (s0 := set_fastest_cs (py_min (diff * 4)%Q (_fastest_cs s)) s) in *.
  destruct (_continuous s) eqn:Hc.
  - pose proof (J1 eq_refl) as Hq.
    destruct (J2 8 Hq) as (_ & _ & c & Hcmd & Hcont).
    rewrite (decode_continued_start cfg s t word diff c Hgap Hnew Hc Hcmd
               (contains_continue_byte c Hcont) Hq).
    fold s0.
    rewrite (close_burst_truncated cfg s0
               (quad_edge word (set_last_time (Some t) (continued_burst s0)))
               op rest Htr Hmosi Hmiso Hop Hlen).
    eexists. split; [ reflexivity | ]. split; [ reflexivity | ].
    split; [ discriminate | ]. intros _. exists c. repeat split. exact Hcmd.
  - rewrite (decode_fresh_start cfg s t word diff Hgap Hnew Hc).
    fold s0.
    rewrite (close_burst_truncated cfg s0
               (single_edge word (set_last_time (Some t) (fresh_burst s0)))
               op rest Htr Hmosi Hmiso Hop Hlen).
    eexists. split; [ reflexivity | ]. split; [ reflexivity | ].
    split; [ intros _; split; reflexivity | discriminate ].
Qed.

Lemma after_truncated_read_reachable :
  reachable default_settings after_truncated_read.
Proof.
  apply (reachable_run default_settings clock_period
           (flat_map bits_of_byte [0x03; 0x00]) 1%Q (init default_settings)
           after_truncated_read (repeat None 16)).
  - apply reachable_init.
  - vm_compute. reflexivity.
Qed.

Lemma truncated_data_command_witness :
  exists s',
    decode default_settings after_truncated_read (sample (1001 # 1000) 0)
    = Ok (s', Some (AnalyzerFrame "error" (Some 1%Q) (Some (20000003 # 20000000)%Q)
                      [("command", VInt 0x03)]))
    /\ _mosi_data s' = Some [].
Proof.
  destruct (truncated_data_command default_settings after_truncated_read
              (1001 # 1000)%Q 0 _ 0x03 [0x00] after_truncated_read_reachable
              eq_refl)
    as (s' & Hdec & _ & Hfresh & _); try (vm_compute; reflexivity).
  exists s'. split; [ exact Hdec | ]. apply Hfresh. reflexivity.
Defined.

(** C5 as stated fails in two ways.  Under 'Only Control' the Error record
    of a truncated Read is built but not returned: no call of the capture
    returns a record.  And the next burst is not decoded independently of
    a truncated one: a Quad-Output Fast Read (0x6b) cut after one nibble is
    closed with an Error record and fresh buffers, but leaves the nibble in
    [_quad_data]; the 0x6b burst with the nibbles 1 and 2 that follows
    raises [ValueError], while the same burst on its own is decoded to the
    bytes 6b 12. *)
Lemma truncated_burst_not_independent :
  (exists s,
     run (with_level "Only Control") (init (with_level "Only Control"))
       truncated_read_trace
     = Ok (s, repeat None 17))
  /\ (exists s r,
        run default_settings (init default_settings)
          (clocked 1 clock_period (bits_of_byte 0x6b ++ [0xF])
           ++ clocked (1001 # 1000) clock_period [0])
        = Ok (s, repeat None 9 ++ [Some r])
        /\ type r = "error"
        /\ _mosi_data s = Some [] /\ _miso_data s = Some []
        /\ _quad_data s = 15)
  /\ run default_settings (init default_settings) stale_nibble_trace
     = Raise ValueError
  /\ (exists s,
        run default_settings (init default_settings)
          (clocked (1001 # 1000) clock_period (bits_of_byte 0x6b ++ [0x1; 0x2]))
        = Ok (s, repeat None 10)
        /\ _mosi_data s = Some [0x6b; 0x12]).
Proof.
  split; [ eexists; vm_compute; reflexivity | ].
  split; [ eexists _, _; split; [ vm_compute; reflexivity | ];
           repeat split | ].
  split; [ vm_compute; reflexivity | ].
  eexists. split; [ vm_compute; reflexivity | reflexivity ].
Qed.

(** ** Formatting of addresses *)

Lemma string_length_append (s1 s2 : string) :
  String.length (s1 ++ s2)%string = (String.length s1 + String.length s2)%nat.
Proof.
  induction s1 as [ | c s1 IH ]; cbn; [ reflexivity | rewrite IH; reflexivity ].
Qed.

Lemma zeros_length (k : nat) : String.length (zeros k) = k.
Proof. induction k as [ | k IH ]; cbn; [ reflexivity | rewrite IH; reflexivity ]. Qed.

Lemma hex_digits_length (fuel : nat) :
  forall (k : nat) (n : Z) (acc : string),
    (0 < k)%nat -> 0 <= n < 16 ^ Z.of_nat k ->
    (String.length (hex_digits fuel n acc) <= k + String.length acc)%nat.
Proof.
  induction fuel as [ | fuel IH ]; intros k n acc Hk Hn; cbn [hex_digits].
  - lia.
  - destruct (n / 16 =? 0) eqn:E.
    + cbn. lia.
    + apply Z.eqb_neq in E.
      assert (Hq : 0 < n / 16) by (pose proof (Z.div_pos n 16); lia).
      destruct k as [ | [ | k ] ]; [ lia | | ].
      * exfalso. change (16 ^ Z.of_nat 1) with 16 in Hn.
        rewrite Z.div_small in Hq by lia. lia.
      * specialize (IH (S k) (n / 16) (String (hex_digit (n mod 16)) acc)).
        cbn [String.length] in IH.
        assert (Hb : 0 <= n / 16 < 16 ^ Z.of_nat (S k)).
        { split; [ lia | ]. apply Z.div_lt_upper_bound; [ lia | ].
          rewrite <- Z.pow_succ_r by lia. rewrite <- Nat2Z.inj_succ.
          apply Hn. }
        specialize (IH ltac:(lia) Hb). lia.
Qed.

Lemma format_hex_length (n : Z) :
  0 <= n < 2 ^ 32 -> String.length (format_hex 8 n) = 8%nat.
Proof.
  intro Hn. unfold format_hex.
  destruct (n <? 0) eqn:E; [ apply Z.ltb_lt in E; lia | ].
  unfold zfill. rewrite string_length_append, zeros_length.
  pose proof (hex_digits_length (S (Z.to_nat (Z.log2 n))) 8 n "" ltac:(lia))
    as H.
  change (16 ^ Z.of_nat 8) with (2 ^ 32) in H. specialize (H Hn).
  cbn [String.length] in H. unfold to_hex.
  change (Z.to_nat 8) with 8%nat. lia.
Qed.

(** ** Data commands *)

Lemma classify_data (cfg : Settings) (s : State) (mosi : list Z) :
  let op := nth 0 mosi 0 in
  let name := table_at op DATA_COMMANDS in
  let frame_address := read_address mosi (_address_bytes s) in
  let num_data_bytes :=
    Z.of_nat (List.length mosi) - py_int (address_bytes cfg)
    - non_data_bytes name in
  contains op DATA_COMMANDS = true ->
  1 + _address_bytes s <= Z.of_nat (List.length mosi) ->
  address_filtered cfg s frame_address = false ->
  classify cfg s mosi
  = (s, Some "data_command",
     [ ("command", VStr name);
       ("address", VStr (format_hex (_address_format s) frame_address));
       ("num_bytes", VInt num_data_bytes);
       ("address_end",
        VStr (format_hex (_address_format s)
                (frame_address + num_data_bytes))) ]).
Proof.
  intros op name frame_address num_data_bytes Hop Hlen Hfilter.
  unfold classify. fold op. rewrite Hop.
  apply Z.ltb_ge in Hlen. rewrite Hlen.
  fold name. fold frame_address.
  unfold address_filtered in Hfilter. apply orb_false_iff in Hfilter as [H1 H2].
  rewrite H1, H2. reflexivity.
Qed.

Lemma read_address_4 (op a b c d : Z) (rest : list Z) :
  read_address (op :: a :: b :: c :: d :: rest) 4
  = ((a * 256 + b) * 256 + c) * 256 + d.
Proof.
  unfold read_address.
  change (seq 0 (Z.to_nat 4)) with [0; 1; 2; 3]%nat.
  cbn [fold_left nth Nat.add].
  rewrite !Z.shiftl_mul_pow2 by lia. change (2 ^ 8) with 256. lia.
Qed.

Lemma read_address_3 (op a b c : Z) (rest : list Z) :
  read_address (op :: a :: b :: c :: rest) 3 = (a * 256 + b) * 256 + c.
Proof.
  unfold read_address.
  change (seq 0 (Z.to_nat 3)) with [0; 1; 2]%nat.
  cbn [fold_left nth Nat.add].
  rewrite !Z.shiftl_mul_pow2 by lia. change (2 ^ 8) with 256. lia.
Qed.

Lemma classify_EN4B (cfg : Settings) (s : State) (rest : list Z) :
  classify cfg s (EN4B :: rest)
  = (set_address_format 8 (set_address_bytes 4 s), Some "control_command",
     [("command", VStr "Enable 4 Byte Address")]).
Proof. reflexivity. Qed.

Lemma classify_EX4B (cfg : Settings) (s : State) (rest : list Z) :
  classify cfg s (EX4B :: rest)
  = (set_address_format 6 (set_address_bytes 3 s), Some "control_command",
     [("command", VStr "Exit 4 Byte Address")]).
Proof. reflexivity. Qed.

(** ** The address width *)

Lemma process_disable_control (cfg : Settings) (s s1 : State) (f : Frame)
    (o : option Frame) (mosi : list Z) (ft : option string) (d : dict) :
  _mosi_data s = Some mosi ->
  mosi <> [] ->
  nonempty (_miso_data s) = true ->
  classify cfg s mosi = (s1, ft, d) ->
  _address_bytes (fst (process_disable cfg s f o)) = _address_bytes s1
  /\ _address_format (fst (process_disable cfg s f o)) = _address_format s1.
Proof.
  intros Hmosi Hne Hmiso Hcl.
  rewrite (process_disable_classified cfg s s1 f o mosi ft d Hmiso Hmosi Hne Hcl).
  split; reflexivity.
Qed.

(** C3. (1) Closing a burst whose first byte is 0xB7 leaves the address
    width at 4 and the format width at 8.  (2) In that mode, a burst of a
    data opcode followed by four bytes a b c d that passes the address
    filter is classified "data_command" with the address
    ((a*256+b)*256+c)*256+d formatted as exactly 8 hexadecimal digits.
    (3) The bytes 00 10 00 00 give "00100000".  (4) Closing a burst whose
    first byte is 0xE9 leaves the address width at 3 and the format width
    at 6.  (5) The whole sequence on a capture: an 0xB7 burst and then
    opcode 0x13 with 00 10 00 00 and three more bytes are reported as
    "Enable 4 Byte Address" and "4-byte READ" at 00100000. *)
Theorem address_width_toggling (cfg : Settings) :
  (forall s f o rest,
      _mosi_data s = Some (EN4B :: rest) ->
      nonempty (_miso_data s) = true ->
      _address_bytes (fst (process_disable cfg s f o)) = 4
      /\ _address_format (fst (process_disable cfg s f o)) = 8)
  /\ (forall s op a b c d rest,
        _address_bytes s = 4 ->
        _address_format s = 8 ->
        contains op DATA_COMMANDS = true ->
        is_byte a = true -> is_byte b = true ->
        is_byte c = true -> is_byte d = true ->
        address_filtered cfg s (((a * 256 + b) * 256 + c) * 256 + d) = false ->
        exists frame_data,
          classify cfg s (op :: a :: b :: c :: d :: rest)
          = (s, Some "data_command", frame_data)
          /\ dict_get "address" frame_data
             = Some (VStr (format_hex 8
                             (((a * 256 + b) * 256 + c) * 256 + d)))
          /\ String.length
               (format_hex 8 (((a * 256 + b) * 256 + c) * 256 + d)) = 8%nat)
  /\ format_hex 8 (((0x00 * 256 + 0x10) * 256 + 0x00) * 256 + 0x00)
     = "00100000"
  /\ (forall s f o rest,
        _mosi_data s = Some (EX4B :: rest) ->
        nonempty (_miso_data s) = true ->
        _address_bytes (fst (process_disable cfg s f o)) = 3
        /\ _address_format (fst (process_disable cfg s f o)) = 6)
  /\ (exists s outs,
        run default_settings (init default_settings) four_byte_read_trace
        = Ok (s, outs)
        /\ records outs
           = [ AnalyzerFrame "control_command" (Some 1%Q)
                 (Some (100000007 # 100000000)%Q)
                 [("command", VStr "Enable 4 Byte Address")];
               AnalyzerFrame "data_command" (Some (1001 # 1000)%Q)
                 (Some (100100063 # 100000000)%Q)
                 [ ("command", VStr "4-byte READ");
                   ("address", VStr "00100000");
                   ("num_bytes", VInt 3);
                   ("address_end", VStr "00100003") ] ]).
Proof.
  split; [ | split; [ | split; [ | split ] ] ].
  - intros s f o rest Hmosi Hmiso.
    apply (process_disable_control cfg s _ f o _ _ _ Hmosi
             ltac:(discriminate) Hmiso (classify_EN4B cfg s rest)).
  - intros s op a b c d rest Hab Hfmt Hop Ha Hb Hc Hd Hfilter.
    pose proof (classify_data cfg s (op :: a :: b :: c :: d :: rest)) as H.
    cbn [nth] in H. rewrite Hab, Hfmt, read_address_4 in H.
    specialize (H Hop ltac:(cbn [List.length]; lia) Hfilter).
    eexists. split; [ exact H | ]. split; [ reflexivity | ].
    apply format_hex_length.
    unfold is_byte in Ha, Hb, Hc, Hd.
    apply andb_true_iff in Ha as [Ha0 Ha1], Hb as [Hb0 Hb1],
      Hc as [Hc0 Hc1], Hd as [Hd0 Hd1].
    apply Z.leb_le in Ha0, Hb0, Hc0, Hd0.
    apply Z.ltb_lt in Ha1, Hb1, Hc1, Hd1.
    change (2 ^ 32) with 4294967296. nia.
  - reflexivity.
  - intros s f o rest Hmosi Hmiso.
    apply (process_disable_control cfg s _ f o _ _ _ Hmosi
             ltac:(discriminate) Hmiso (classify_EX4B cfg s rest)).
  - eexists _, _. split; [ vm_compute; reflexivity | ].
    vm_compute. reflexivity.
Qed.

Lemma address_width_toggling_witness :
  _address_bytes
    (fst (process_disable default_settings
            (with_buffers [EN4B] [0] (init default_settings))
            (FakeFrame "disable" None) None)) = 4
  /\ exists frame_data,
       classify default_settings
         (set_address_format 8 (set_address_bytes 4 (init default_settings)))
         [0x13; 0x00; 0x10; 0x00; 0x00]
       = (set_address_format 8 (set_address_bytes 4 (init default_settings)),
          Some "data_command", frame_data)
       /\ dict_get "address" frame_data = Some (VStr "00100000").
Proof.
  pose proof (address_width_toggling default_settings) as (H1 & H2 & _).
  split.
  - apply (H1 (with_buffers [EN4B] [0] (init default_settings))
              (FakeFrame "disable" None) None []); reflexivity.
  - destruct (H2 (set_address_format 8
                    (set_address_bytes 4 (init default_settings)))
                0x13 0x00 0x10 0x00 0x00 [])
      as (frame_data & Hcl & Haddr & _); try reflexivity.
    exists frame_data. split; [ exact Hcl | exact Haddr ].
Defined.

(** ** The payload count *)

Lemma contains_In {V : Type} (k : Z) (d : list (Z * V)) :
  contains k d = true -> In k (map fst d).
Proof.
  unfold contains. induction d as [ | [k' v] d IH ]; cbn; [ discriminate | ].
  destruct (k =? k') eqn:E.
  - intros _. left. symmetry. apply Z.eqb_eq. exact E.
  - intro H. right. apply IH. exact H.
Qed.

(** The two string tests on the mnemonic single out the opcodes 0x0b and
    0xeb. *)
Lemma non_data_bytes_opcode (op : Z) :
  contains op DATA_COMMANDS = true ->
  non_data_bytes (table_at op DATA_COMMANDS)
  = 2 + (if op =? 0x0b then 1 else 0) + (if op =? 0xeb then 2 else 0).
Proof.
  intro H. apply contains_In in H. cbn in H.
  repeat (destruct H as [ <- | H ]; [ reflexivity | ]).
  contradiction.
Qed.

(** What [classify] reports for a data command that passes the filter: the
    count subtracts the [address_bytes] setting, not the address width in
    force, which is used for the length test and for the address. *)
Lemma payload_count (cfg : Settings) (s : State) (mosi : list Z) :
  let op := nth 0 mosi 0 in
  let frame_address := read_address mosi (_address_bytes s) in
  let num_data_bytes :=
    Z.of_nat (List.length mosi) - py_int (address_bytes cfg) - 2
    - (if op =? 0x0b then 1 else 0) - (if op =? 0xeb then 2 else 0) in
  contains op DATA_COMMANDS = true ->
  1 + _address_bytes s <= Z.of_nat (List.length mosi) ->
  address_filtered cfg s frame_address = false ->
  exists frame_data,
    classify cfg s mosi = (s, Some "data_command", frame_data)
    /\ dict_get "num_bytes" frame_data = Some (VInt num_data_bytes)
    /\ dict_get "address_end" frame_data
       = Some (VStr (format_hex (_address_format s)
                       (frame_address + num_data_bytes))).
Proof.
  intros op frame_address num_data_bytes Hop Hlen Hfilter.
  pose proof (classify_data cfg s mosi Hop Hlen Hfilter) as H.
  fold op in H. rewrite (non_data_bytes_opcode op Hop) in H.
  replace (Z.of_nat (List.length mosi) - py_int (address_bytes cfg)
           - (2 + (if op =? 0x0b then 1 else 0)
              + (if op =? 0xeb then 2 else 0)))
    with num_data_bytes in H by (unfold num_data_bytes; lia).
  eexists. split; [ exact H | ]. split; reflexivity.
Qed.

(** C2 fails on the code when the address width in force differs from the
    [address_bytes] setting.  With the setting at 3, after an
    "Enable 4 Byte Address" burst the width is 4; the 4-byte READ burst of
    8 host-to-device bytes is then reported with 8 - 3 - 2 = 3 payload
    bytes and the end address 00100003, where the claim has
    8 - (4 + 2) = 2. *)
Theorem payload_count_uses_setting :
  exists s outs r,
    run default_settings (init default_settings) four_byte_read_trace
    = Ok (s, outs)
    /\ nth_error (records outs) 1 = Some r
    /\ type r = "data_command"
    /\ _address_bytes s = 4
    /\ py_int (address_bytes default_settings) = 3
    /\ dict_get "num_bytes" (data r) = Some (VInt 3)
    /\ dict_get "address_end" (data r) = Some (VStr "00100003")
    /\ 3 <> 8 - (4 + 2).
Proof.
  eexists _, _, _. split; [ vm_compute; reflexivity | ].
  split; [ vm_compute; reflexivity | ].
  repeat split. discriminate.
Qed.

(** ** The single-lane round trip *)

Lemma run_app (cfg : Settings) (frames1 frames2 : list Frame) :
  forall s s1 s2 outs1 outs2,
    run cfg s frames1 = Ok (s1, outs1) ->
    run cfg s1 frames2 = Ok (s2, outs2) ->
    run cfg s (frames1 ++ frames2) = Ok (s2, outs1 ++ outs2).
Proof.
  induction frames1 as [ | f frames1 IH ]; intros s s1 s2 outs1 outs2 H1 H2.
  - cbn in H1. injection H1 as <- <-. exact H2.
  - cbn [run app] in *.
    apply bind_Ok in H1 as ([s' out] & Hdec & H1).
    apply bind_Ok in H1 as ([s'' outs] & Hrun & H1). injection H1 as <- <-.
    rewrite Hdec. cbn [bind]. rewrite (IH _ _ _ _ _ Hrun H2). reflexivity.
Qed.

Lemma clocked_app (dt : Q) (words1 words2 : list Z) :
  forall t,
    clocked t dt (words1 ++ words2)
    = clocked t dt words1
      ++ clocked (advance t dt (List.length words1)) dt words2.
Proof.
  induction words1 as [ | w words1 IH ]; intro t; cbn [clocked app advance List.length].
  - reflexivity.
  - rewrite IH. reflexivity.
Qed.

Lemma clock_running_step (s : State) (t dt : Q) (word : Z) :
  clock_running s t dt ->
  exists diff,
    gap s (sample t word) = Ok diff
    /\ (forall cs,
          new_burst (set_fastest_cs (py_min (diff * 4)%Q (_fastest_cs s)) s)
            diff cs = false)
    /\ clock_running (idle_update s (sample t word) diff) (Qred (t + dt)) dt.
Proof.
  intros (Hdt & last & Hlast & Hgap & Hthr).
  exists ((t - last) * 1000000000)%Q.
  split; [ unfold gap; rewrite Hlast; reflexivity | ].
  assert (Hmin : (dt * 1000000000
                  <= py_min ((t - last) * 1000000000 * 4) (_fastest_cs s))%Q).
  { unfold py_min. destruct (Qltb _ _); lra. }
  split.
  - intro cs. unfold new_burst. cbn [_fastest_cs set_fastest_cs].
    apply andb_false_iff. left. apply Qltb_ge. lra.
  - split; [ exact Hdt | ]. exists t.
    split; [ reflexivity | ].
    split; [ pose proof (Qred_correct (t + dt)); lra | exact Hmin ].
Qed.

Lemma clock_running_fields (s s' : State) (t dt : Q) :
  _last_time s' = _last_time s ->
  _fastest_cs s' = _fastest_cs s ->
  clock_running s t dt -> clock_running s' t dt.
Proof.
  unfold clock_running. intros -> ->. trivial.
Qed.

Lemma single_lane_idle (s : State) (frame : Frame) (diff : Q) :
  _quad_start s = None -> single_lane (idle_update s frame diff) = true.
Proof. intro H. unfold single_lane. cbn. rewrite H. reflexivity. Qed.

Lemma decode_single_edge (cfg : Settings) (s : State) (t dt : Q) (word : Z)
    (n acc_mosi acc_miso : Z) (mosi miso : list Z) :
  lane s n acc_mosi acc_miso mosi miso ->
  clock_running s t dt ->
  Z.shiftr word 15 = 0 ->
  n mod 8 <> 7 ->
  exists s',
    decode cfg s (sample t word) = Ok (s', None)
    /\ lane s' (n + 1) (shift_bit acc_mosi (mosi_bit word))
         (shift_bit acc_miso (miso_bit word)) mosi miso
    /\ clock_running s' (Qred (t + dt)) dt.
Proof.
  intros (Hq & Hn & Hmo & Hmi & Hmosi & Hmiso) Hclk Hcs Hmod.
  destruct (clock_running_step s t dt word Hclk) as (diff & Hgap & Hnew & Hclk').
  rewrite (decode_in_burst cfg s t word diff Hgap (Hnew _))
    by (rewrite Hcs; discriminate).
  rewrite (assemble_single_edge _ word [] (single_lane_idle s _ diff Hq))
    by (cbn; rewrite Hn; apply Z.eqb_neq; exact Hmod).
  eexists. split; [ reflexivity | ]. split.
  - unfold lane, single_edge, mosi_shifted, miso_shifted. cbn.
    rewrite Hq, Hn, Hmo, Hmi, Hmosi, Hmiso. repeat split.
  - revert Hclk'. apply clock_running_fields; reflexivity.
Qed.

Lemma decode_single_flush (cfg : Settings) (s : State) (t dt : Q) (word : Z)
    (n acc_mosi acc_miso : Z) (mosi miso : list Z) :
  lane s n acc_mosi acc_miso mosi miso ->
  clock_running s t dt ->
  Z.shiftr word 15 = 0 ->
  n mod 8 = 7 ->
  n <> 7 ->
  is_byte (shift_bit acc_mosi (mosi_bit word)) = true ->
  is_byte (shift_bit acc_miso (miso_bit word)) = true ->
  exists s',
    decode cfg s (sample t word) = Ok (s', None)
    /\ lane s' (n + 1) 0 0
         (mosi ++ [shift_bit acc_mosi (mosi_bit word)])
         (miso ++ [shift_bit acc_miso (miso_bit word)])
    /\ clock_running s' (Qred (t + dt)) dt.
Proof.
  intros (Hq & Hn & Hmo & Hmi & Hmosi & Hmiso) Hclk Hcs Hmod H7 Hbo Hbi.
  destruct (clock_running_step s t dt word Hclk) as (diff & Hgap & Hnew & Hclk').
  rewrite (decode_in_burst cfg s t word diff Hgap (Hnew _))
    by (rewrite Hcs; discriminate).
  rewrite (assemble_single_flush _ word [] (single_lane_idle s _ diff Hq))
    by (cbn; rewrite Hn;
        first [ rewrite Hmod; reflexivity | apply Z.eqb_neq, H7 ]).
  cbn [bind app]. unfold mosi_shifted, miso_shifted.
  cbn [idle_update _mosi_out _miso_in set_last_time set_fastest_cs].
  rewrite Hmo, Hmi. fold (mosi_bit word). fold (miso_bit word).
  fold (shift_bit acc_mosi (mosi_bit word)).
  fold (shift_bit acc_miso (miso_bit word)).
  rewrite (process_one_result cfg
             (single_flush (idle_update s (sample t word) diff))
             mosi miso _ _ None Hmosi Hmiso Hbo Hbi).
  eexists. split; [ reflexivity | ]. split.
  - unfold lane, single_flush. cbn. rewrite Hq, Hn. repeat split.
  - revert Hclk'. apply clock_running_fields; reflexivity.
Qed.

Lemma decode_opcode (cfg : Settings) (s : State) (t dt : Q) (word : Z)
    (acc_mosi acc_miso : Z) (mosi miso : list Z) :
  lane s 7 acc_mosi acc_miso mosi miso ->
  clock_running s t dt ->
  Z.shiftr word 15 = 0 ->
  contains (shift_bit acc_mosi (mosi_bit word)) CONTINUE_COMMANDS = false ->
  is_byte (shift_bit acc_mosi (mosi_bit word)) = true ->
  is_byte (shift_bit acc_miso (miso_bit word)) = true ->
  exists s',
    decode cfg s (sample t word) = Ok (s', None)
    /\ lane s' 8 0 0
         (mosi ++ [shift_bit acc_mosi (mosi_bit word)])
         (miso ++ [shift_bit acc_miso (miso_bit word)])
    /\ clock_running s' (Qred (t + dt)) dt.
Proof.
  intros (Hq & Hn & Hmo & Hmi & Hmosi & Hmiso) Hclk Hcs Hop Hbo Hbi.
  destruct (clock_running_step s t dt word Hclk) as (diff & Hgap & Hnew & Hclk').
  rewrite (decode_in_burst cfg s t word diff Hgap (Hnew _))
    by (rewrite Hcs; discriminate).
  rewrite (assemble_opcode _ word [] (single_lane_idle s _ diff Hq) Hn).
  cbn [bind app]. unfold mosi_shifted, miso_shifted.
  cbn [idle_update _mosi_out _miso_in set_last_time set_fastest_cs].
  rewrite Hmo, Hmi. fold (mosi_bit word). fold (miso_bit word).
  fold (shift_bit acc_mosi (mosi_bit word)).
  fold (shift_bit acc_miso (miso_bit word)).
  unfold contains in Hop.
  destruct (lookup (shift_bit acc_mosi (mosi_bit word)) CONTINUE_COMMANDS);
    [ discriminate | ].
  rewrite (process_one_result cfg
             (set_command (Some (shift_bit acc_mosi (mosi_bit word)))
                (single_flush (idle_update s (sample t word) diff)))
             mosi miso _ _ None Hmosi Hmiso Hbo Hbi).
  eexists. split; [ reflexivity | ]. split.
  - unfold lane, single_flush. cbn. rewrite Hq, Hn. repeat split.
  - revert Hclk'. apply clock_running_fields; reflexivity.
Qed.

(** *** Bits *)

Lemma shift_bit_add (acc bit : Z) :
  0 <= acc -> bit = 0 \/ bit = 1 -> shift_bit acc bit = 2 * acc + bit.
Proof.
  intros Hacc [-> | ->]; unfold shift_bit.
  - rewrite Z.lor_0_r, Z.shiftl_mul_pow2 by lia. change (2 ^ 1) with 2. lia.
  - destruct acc as [ | p | p ]; [ reflexivity | reflexivity | lia ].
Qed.

Lemma land_1_bit (x : Z) : Z.land x 1 = 0 \/ Z.land x 1 = 1.
Proof.
  pose proof (Z.land_ones x 1 ltac:(lia)) as E.
  change (Z.ones 1) with 1 in E. change (2 ^ 1) with 2 in E. rewrite E.
  pose proof (Z.mod_pos_bound x 2 ltac:(lia)). lia.
Qed.

Lemma pack_bound (bits : list Z) :
  forall acc k,
    Forall (fun bit => bit = 0 \/ bit = 1) bits ->
    0 <= k -> 0 <= acc < 2 ^ k ->
    0 <= pack bits acc < 2 ^ (k + Z.of_nat (List.length bits)).
Proof.
  induction bits as [ | bit bits IH ]; intros acc k Hbits Hk Hacc.
  - cbn. rewrite Z.add_0_r. exact Hacc.
  - inversion Hbits as [ | ? ? Hbit Hrest ]; subst.
    unfold pack. cbn [fold_left]. fold (pack bits (shift_bit acc bit)).
    replace (k + Z.of_nat (List.length (bit :: bits)))
      with ((k + 1) + Z.of_nat (List.length bits))
      by (cbn [List.length]; lia).
    apply IH; [ exact Hrest | lia | ].
    rewrite shift_bit_add by (lia || assumption).
    rewrite Z.pow_add_r by lia. change (2 ^ 1) with 2.
    destruct Hbit as [-> | ->]; lia.
Qed.

Lemma pack_is_byte (words : list Z) (extract : Z -> Z) :
  (forall w, extract w = 0 \/ extract w = 1) ->
  List.length words = 8%nat ->
  is_byte (pack (map extract words) 0) = true.
Proof.
  intros Hbit Hlen.
  pose proof (pack_bound (map extract words) 0 0) as H.
  rewrite length_map, Hlen in H. change (2 ^ (0 + Z.of_nat 8)) with 256 in H.
  specialize (H ltac:(apply Forall_forall; intros x Hx;
                      apply in_map_iff in Hx as (w & <- & _); apply Hbit)
                ltac:(lia) ltac:(change (2 ^ 0) with 1; lia)).
  unfold is_byte. apply andb_true_iff. split;
    [ apply Z.leb_le | apply Z.ltb_lt ]; lia.
Qed.

Lemma pack_bits_of_byte (b : Z) :
  is_byte b = true -> pack (bits_of_byte b) 0 = b.
Proof.
  intro Hb. unfold is_byte in Hb. apply andb_true_iff in Hb as [H0 H1].
  apply Z.leb_le in H0. apply Z.ltb_lt in H1.
  assert (Hall : forallb (fun n => pack (bits_of_byte (Z.of_nat n)) 0
                                   =? Z.of_nat n)
                         (seq 0 256) = true) by (vm_compute; reflexivity).
  rewrite forallb_forall in Hall.
  specialize (Hall (Z.to_nat b)).
  rewrite Z2Nat.id in Hall by exact H0.
  apply Z.eqb_eq, Hall, in_seq. lia.
Qed.

Lemma carries_bits (words bits : list Z) :
  carries words bits ->
  map mosi_bit words = bits
  /\ Forall (fun w => Z.shiftr w 15 = 0) words
  /\ List.length words = List.length bits.
Proof.
  induction 1 as [ | w bit words bits [Hcs Hbit] _ (IH1 & IH2 & IH3) ]; cbn.
  - repeat split. constructor.
  - rewrite Hbit, IH1, IH3. repeat split. constructor; assumption.
Qed.

(** *** The rest of a byte, and whole bytes *)

Lemma run_rest_of_byte (cfg : Settings) (dt : Q) (mosi miso : list Z)
    (words : list Z) :
  forall s t n acc_mosi acc_miso,
    lane s n acc_mosi acc_miso mosi miso ->
    clock_running s t dt ->
    Forall (fun w => Z.shiftr w 15 = 0) words ->
    0 <= n ->
    words <> [] ->
    n mod 8 + Z.of_nat (List.length words) = 8 ->
    is_byte (pack (map mosi_bit words) acc_mosi) = true ->
    is_byte (pack (map miso_bit words) acc_miso) = true ->
    (n < 8 ->
     contains (pack (map mosi_bit words) acc_mosi) CONTINUE_COMMANDS = false) ->
    exists s',
      run cfg s (clocked t dt words)
      = Ok (s', repeat None (List.length words))
      /\ lane s' (n + Z.of_nat (List.length words)) 0 0
           (mosi ++ [pack (map mosi_bit words) acc_mosi])
           (miso ++ [pack (map miso_bit words) acc_miso])
      /\ clock_running s' (advance t dt (List.length words)) dt.
Proof.
  induction words as [ | w words IH ];
    intros s t n acc_mosi acc_miso Hlane Hclk Hcs Hn Hne Hlen Hbo Hbi Hop;
    [ congruence | ].
  inversion Hcs as [ | ? ? Hw Hrest ]; subst.
  destruct words as [ | w' words ].
  - cbn [List.length] in Hlen. cbn [map pack fold_left] in Hbo, Hbi, Hop |- *.
    assert (Hexists : exists s',
               decode cfg s (sample t w) = Ok (s', None)
               /\ lane s' (n + 1) 0 0
                    (mosi ++ [shift_bit acc_mosi (mosi_bit w)])
                    (miso ++ [shift_bit acc_miso (miso_bit w)])
               /\ clock_running s' (Qred (t + dt)) dt).
    { destruct (Z.eq_dec n 7) as [-> | H7].
      - apply (decode_opcode cfg s t dt w acc_mosi acc_miso mosi miso);
          trivial. apply Hop. lia.
      - apply (decode_single_flush cfg s t dt w n acc_mosi acc_miso mosi miso);
          trivial. lia. }
    destruct Hexists as (s' & Hdec & Hlane' & Hclk').
    exists s'. cbn [run clocked]. rewrite Hdec. cbn [bind].
    split; [ reflexivity | ]. split; assumption.
  - destruct (decode_single_edge cfg s t dt w n acc_mosi acc_miso mosi miso
                Hlane Hclk Hw) as (s1 & Hdec & Hlane1 & Hclk1).
    { cbn [List.length] in Hlen. lia. }
    destruct (IH s1 (Qred (t + dt)) (n + 1)
                (shift_bit acc_mosi (mosi_bit w))
                (shift_bit acc_miso (miso_bit w)) Hlane1 Hclk1 Hrest)
      as (s' & Hrun & Hlane' & Hclk'); trivial.
    + lia.
    + discriminate.
    + cbn [List.length] in Hlen |- *. Z.div_mod_to_equations. lia.
    + intro H. apply Hop. lia.
    + exists s'.
      change (clocked t dt (w :: w' :: words))
        with (sample t w :: clocked (Qred (t + dt)) dt (w' :: words)).
      cbn [run]. rewrite Hdec. cbn [bind]. rewrite Hrun. cbn [bind].
      split; [ reflexivity | ]. split.
      * replace (n + Z.of_nat (List.length (w :: w' :: words)))
          with (n + 1 + Z.of_nat (List.length (w' :: words)))
          by (cbn [List.length]; lia).
        exact Hlane'.
      * exact Hclk'.
Qed.

Lemma run_bytes (cfg : Settings) (dt : Q) (bytes : list Z) :
  forall words s t n mosi miso,
    lane s n 0 0 mosi miso ->
    clock_running s t dt ->
    8 <= n -> n mod 8 = 0 ->
    carries words (flat_map bits_of_byte bytes) ->
    Forall (fun b => is_byte b = true) bytes ->
    exists s' outs,
      run cfg s (clocked t dt words) = Ok (s', outs)
      /\ _mosi_data s' = Some (mosi ++ bytes).
Proof.
  induction bytes as [ | b bytes IH ];
    intros words s t n mosi miso Hlane Hclk Hn Hmod Hcar Hbytes.
  - inversion Hcar; subst. exists s, []. split; [ reflexivity | ].
    rewrite app_nil_r. apply Hlane.
  - cbn [flat_map] in Hcar.
    apply Forall2_app_inv_r in Hcar as (words1 & words2 & Hc1 & Hc2 & ->).
    inversion Hbytes as [ | ? ? Hb Hrest ]; subst.
    apply carries_bits in Hc1 as (Hbits & Hcs & Hlen).
    change (List.length (bits_of_byte b)) with 8%nat in Hlen.
    destruct (run_rest_of_byte cfg dt mosi miso words1 s t n 0 0 Hlane Hclk Hcs)
      as (s1 & Hrun1 & Hlane1 & Hclk1).
    + lia.
    + intros ->. discriminate.
    + rewrite Hlen. lia.
    + rewrite Hbits, pack_bits_of_byte; assumption.
    + apply pack_is_byte; [ intro w; apply land_1_bit | exact Hlen ].
    + intro H. lia.
    + rewrite Hbits, (pack_bits_of_byte b Hb), Hlen in Hlane1.
      rewrite Hlen in Hclk1.
      destruct (IH words2 s1 (advance t dt 8) (n + Z.of_nat 8)
                  (mosi ++ [b]) _ Hlane1 Hclk1)
        as (s2 & outs2 & Hrun2 & Hmosi2); trivial.
      * lia.
      * change (Z.of_nat 8) with 8. Z.div_mod_to_equations. lia.
      * exists s2. eexists. split.
        -- rewrite clocked_app, Hlen. exact (run_app _ _ _ _ _ _ _ _ Hrun1 Hrun2).
        -- rewrite Hmosi2, <- app_assoc. reflexivity.
Qed.

Lemma first_edge_lane (cfg : Settings) (s : State) (t dt : Q) (word : Z)
    (diff : Q) :
  gap s (sample t word) = Ok diff ->
  new_burst (set_fastest_cs (py_min (diff * 4)%Q (_fastest_cs s)) s) diff
    (Z.shiftr word 15) = true ->
  _continuous s = false ->
  (0 < dt)%Q ->
  (dt * 1000000000 <= py_min (diff * 4) (_fastest_cs s))%Q ->
  exists s' out,
    decode cfg s (sample t word) = Ok (s', out)
    /\ lane s' 1 (shift_bit 0 (mosi_bit word)) (shift_bit 0 (miso_bit word))
         [] []
    /\ clock_running s' (Qred (t + dt)) dt.
Proof.
  intros Hgap Hnew Hc Hdt Hthr.
  rewrite (decode_fresh_start cfg s t word diff Hgap Hnew Hc).
  set (s0 := set_fastest_cs (py_min (diff * 4)%Q (_fastest_cs s)) s).
  set (s3 := single_edge word (set_last_time (Some t) (fresh_burst s0))).
  pose proof (close_burst_lane_fields cfg s0 s3) as E.
  unfold lane_fields in E.
  injection E as Elast _ Ecc Emo Emi _ Eqs _ _ Efast _ _ _ _.
  eexists _, _. split; [ reflexivity | ]. split.
  - unfold lane, open_burst. cbn [_quad_start _clock_count _mosi_out _miso_in
      _mosi_data _miso_data set_mosi_data set_miso_data set_start_time].
    rewrite Eqs, Ecc, Emo, Emi. repeat split.
  - split; [ exact Hdt | ]. exists t.
    unfold open_burst. cbn [_last_time _fastest_cs set_mosi_data
      set_miso_data set_start_time].
    rewrite Elast, Efast.
    split; [ reflexivity | ].
    split; [ pose proof (Qred_correct (t + dt)); lra | exact Hthr ].
Qed.

(** C9. In a burst that opens on the first of the given samples (with the
    continuous flag clear) and whose clock period is within the threshold,
    let the samples carry on the host-out lane, most significant bit first
    and with chip select low, an opcode byte that is not in
    [CONTINUE_COMMANDS] followed by any bytes; the other lanes are
    arbitrary.  Then the run returns normally and leaves in the
    host-to-device buffer exactly the opcode followed by those bytes, in
    order. *)
Theorem single_lane_round_trip (cfg : Settings) (s : State) (t dt : Q)
    (diff : Q) (op : Z) (bytes words : list Z) :
  is_byte op = true ->
  contains op CONTINUE_COMMANDS = false ->
  Forall (fun b => is_byte b = true) bytes ->
  carries words (flat_map bits_of_byte (op :: bytes)) ->
  gap s (sample t (hd 0 words)) = Ok diff ->
  new_burst (set_fastest_cs (py_min (diff * 4)%Q (_fastest_cs s)) s) diff
    (Z.shiftr (hd 0 words) 15) = true ->
  _continuous s = false ->
  (0 < dt)%Q ->
  (dt * 1000000000 <= py_min (diff * 4) (_fastest_cs s))%Q ->
  exists s' outs,
    run cfg s (clocked t dt words) = Ok (s', outs)
    /\ _mosi_data s' = Some (op :: bytes).
Proof.
  intros Hop Hnot Hbytes Hcar Hgap Hnew Hc Hdt Hthr.
  cbn [flat_map] in Hcar.
  apply Forall2_app_inv_r in Hcar as (words1 & words2 & Hc1 & Hc2 & ->).
  apply carries_bits in Hc1 as (Hbits & Hcs & Hlen).
  change (List.length (bits_of_byte op)) with 8%nat in Hlen.
  destruct words1 as [ | w0 words1 ]; [ discriminate | ].
  cbn [hd app] in Hgap, Hnew.
  inversion Hcs as [ | ? ? Hw0 Hcs1 ]; subst.
  destruct (first_edge_lane cfg s t dt w0 diff Hgap Hnew Hc Hdt Hthr)
    as (s1 & out & Hdec & Hlane1 & Hclk1).
  assert (Hpack : pack (map mosi_bit words1) (shift_bit 0 (mosi_bit w0)) = op).
  { rewrite <- (pack_bits_of_byte op Hop), <- Hbits. reflexivity. }
  destruct (run_rest_of_byte cfg dt [] [] words1 s1 (Qred (t + dt)) 1
              (shift_bit 0 (mosi_bit w0)) (shift_bit 0 (miso_bit w0))
              Hlane1 Hclk1 Hcs1)
    as (s2 & Hrun2 & Hlane2 & Hclk2).
  - lia.
  - intros ->. discriminate.
  - cbn [List.length] in Hlen. change (1 mod 8) with 1. lia.
  - rewrite Hpack. exact Hop.
  - change (pack (map miso_bit words1) (shift_bit 0 (miso_bit w0)))
      with (pack (map miso_bit (w0 :: words1)) 0).
    apply pack_is_byte; [ intro w; apply land_1_bit | exact Hlen ].
  - intros _. rewrite Hpack. exact Hnot.
  - rewrite Hpack in Hlane2. cbn [app] in Hlane2.
    assert (Hlen1 : List.length words1 = 7%nat)
      by (cbn [List.length] in Hlen; lia).
    rewrite Hlen1 in Hlane2, Hclk2, Hrun2.
    destruct (run_bytes cfg dt bytes words2 s2 _ (1 + Z.of_nat 7) [op] _
                Hlane2 Hclk2)
      as (s3 & outs3 & Hrun3 & Hmosi3); trivial; try (cbn; lia).
    exists s3. eexists. split; [ | exact Hmosi3 ].
    change (clocked t dt ((w0 :: words1) ++ words2))
      with (sample t w0 :: clocked (Qred (t + dt)) dt (words1 ++ words2)).
    cbn [run]. rewrite Hdec. cbn [bind].
    rewrite clocked_app, Hlen1.
    rewrite (run_app _ _ _ _ _ _ _ _ Hrun2 Hrun3). reflexivity.
Qed.

Lemma single_lane_round_trip_witness :
  exists s' outs,
    run default_settings (init default_settings)
      (clocked 1 clock_period (flat_map bits_of_byte [0x9f; 0x12; 0x34]))
    = Ok (s', outs)
    /\ _mosi_data s' = Some [0x9f; 0x12; 0x34].
Proof.
  apply (single_lane_round_trip default_settings (init default_settings)
           1%Q clock_period (2000000 * 1000000000)%Q 0x9f [0x12; 0x34]).
  - reflexivity.
  - reflexivity.
  - repeat constructor.
  - unfold carries. cbn [flat_map bits_of_byte map app].
    repeat (constructor; [ split; reflexivity | ]). constructor.
  - reflexivity.
  - reflexivity.
  - reflexivity.
  - reflexivity.
  - vm_compute. intro H. discriminate H.
Defined.

(** ** An exception [decode] can raise

    [_quad_data] is not cleared when a burst starts.  A burst that ends on
    an odd number of nibbles leaves one behind, and the first byte the next
    quad phase flushes is then above 255: [bytearray.extend] raises
    [ValueError].  The properties above that speak of the states of a
    capture cover the calls that return. *)
Lemma stale_nibble_raises :
  run default_settings (init default_settings) stale_nibble_trace
  = Raise ValueError.
Proof. vm_compute. reflexivity. Qed.

(** ** The object after a raising call

    The definitions that keep the attributes of a raising call agree with
    the ones above on what the caller sees. *)

Lemma start_burst_obj_returned (s : State) (frame : Frame) :
  returned (start_burst_obj s frame) = start_burst s frame.
Proof.
  unfold start_burst_obj, start_burst. cbv zeta.
  destruct (negb _); [ reflexivity | ].
  destruct (read_command _); reflexivity.
Qed.

Lemma shift_quad_obj_returned (s : State) (word : Z) (frames : list Frame) :
  returned (shift_quad_obj s word frames) = shift_quad s word frames.
Proof.
  unfold shift_quad_obj, shift_quad. cbv zeta.
  destruct (_ =? 1); [ | reflexivity ].
  destruct (read_command _); reflexivity.
Qed.

Lemma detect_burst_obj_returned (s : State) (frame : Frame) (cs : Z) :
  returned (detect_burst_obj s frame cs) = detect_burst s frame cs.
Proof.
  unfold detect_burst_obj, detect_burst.
  destruct (gap s frame) as [ diff | e ]; [ | reflexivity ].
  cbn [bind]. cbv zeta.
  destruct (new_burst _ diff cs); [ | reflexivity ].
  rewrite <- start_burst_obj_returned.
  destruct (start_burst_obj _ frame) as [s1 [ frames | e ]]; reflexivity.
Qed.

Lemma assemble_obj_returned (s : State) (word : Z) (frames : list Frame) :
  returned (assemble_obj s word frames) = assemble s word frames.
Proof.
  unfold assemble_obj, assemble.
  destruct (single_lane s).
  - destruct (shift_single s word frames) as [s1 frames1]. reflexivity.
  - rewrite <- shift_quad_obj_returned.
    destruct (shift_quad_obj s word frames) as [s1 [ frames1 | e ]];
      reflexivity.
Qed.

Lemma process_frame_obj_returned (cfg : Settings) (fake_frame : Frame)
    (s : State) (output : option Frame) :
  returned (process_frame_obj cfg fake_frame s output)
  = process_frame cfg fake_frame (s, output).
Proof.
  unfold process_frame_obj, process_frame.
  destruct (String.eqb (type fake_frame) "enable"); [ reflexivity | ].
  destruct (String.eqb (type fake_frame) "result").
  - destruct (_miso_data s) as [ miso | ]; [ | reflexivity ].
    destruct (_mosi_data s) as [ mosi | ]; [ | reflexivity ].
    destruct (getitem "miso" (data fake_frame)) as [ v | e ];
      [ | reflexivity ].
    cbn [bind]. destruct (extend miso v) as [ miso' | e ]; [ | reflexivity ].
    cbn [bind].
    destruct (getitem "mosi" (data fake_frame)) as [ v' | e ];
      [ | reflexivity ].
    cbn [bind]. destruct (extend mosi v') as [ mosi' | e ]; reflexivity.
  - destruct (String.eqb (type fake_frame) "disable"); [ | reflexivity ].
    destruct (process_disable cfg s fake_frame output). reflexivity.
Qed.

Lemma process_frames_obj_returned (cfg : Settings) (frames : list Frame) :
  forall s output,
    returned (process_frames_obj cfg frames s output)
    = process_frames cfg frames (s, output).
Proof.
  induction frames as [ | f frames IH ]; intros s output;
    cbn [process_frames_obj process_frames]; [ reflexivity | ].
  rewrite <- process_frame_obj_returned.
  destruct (process_frame_obj cfg f s output) as [s1 [ o1 | e ]];
    cbn [returned bind]; [ apply IH | reflexivity ].
Qed.

Lemma decode_obj_returned (cfg : Settings) (s : State) (frame : Frame) :
  returned (decode_obj cfg s frame) = decode cfg s frame.
Proof.
  unfold decode_obj, decode.
  destruct (String.eqb (type frame) "data");
    [ | apply process_frames_obj_returned ].
  unfold decode_sample.
  destruct (getitem "data" (data frame)) as [ [ word | str | l ] | e ];
    try reflexivity.
  cbn [bind].
  rewrite <- detect_burst_obj_returned.
  destruct (detect_burst_obj s frame (Z.shiftr word 15))
    as [s1 [ frames | e ]]; cbn [returned bind]; [ | reflexivity ].
  destruct (Z.shiftr word 15 =? 1); [ reflexivity | ].
  rewrite <- assemble_obj_returned.
  destruct (assemble_obj s1 word frames) as [s2 [ frames2 | e ]];
    cbn [returned bind]; [ | reflexivity ].
  apply process_frames_obj_returned.
Qed.

Lemma run_obj_returned (cfg : Settings) (frames : list Frame) :
  forall s, returned (run_obj cfg s frames) = run cfg s frames.
Proof.
  induction frames as [ | f frames IH ]; intro s; cbn [run_obj run];
    [ reflexivity | ].
  rewrite <- decode_obj_returned.
  destruct (decode_obj cfg s f) as [s1 [ out | e ]]; cbn [returned bind];
    [ | reflexivity ].
  rewrite <- IH.
  destruct (run_obj cfg s1 frames) as [s2 [ outs | e ]]; reflexivity.
Qed.

(** C8 fails on the code after a call that raises.  A burst start resets
    the two bit accumulators but not [_quad_data], so a Quad-Output Fast
    Read (0x6b) cut after a single nibble 0xF leaves 15 behind.  In the
    next 0x6b burst the first quad byte is assembled as
    ((15 << 4 | 1) << 4) | 2 = 3858; the loop extends [_miso_data] with
    [0] and then [_mosi_data.extend([3858])] raises [ValueError].  The
    burst is still open and the object is left with one host-to-device
    byte and two device-to-host bytes. *)
Theorem unequal_buffers_after_raise :
  exists s mosi miso,
    run_obj default_settings (init default_settings) stale_nibble_trace
    = (s, Raise ValueError)
    /\ _mosi_data s = Some mosi
    /\ _miso_data s = Some miso
    /\ mosi = [0x6b]
    /\ miso = [0; 0]
    /\ List.length mosi <> List.length miso.
Proof.
  eexists _, [0x6b], [0; 0].
  split; [ vm_compute; reflexivity | ].
  repeat split. discriminate.
Qed.

(** * Further properties of [decode] *)

(** ** The cases of one call *)

Lemma detect_burst_cases (s s1 : State) (t : Q) (word cs : Z)
    (frames : list Frame) :
  detect_burst s (sample t word) cs = Ok (s1, frames) ->
  exists diff,
    gap s (sample t word) = Ok diff
    /\ ((new_burst (tightened s diff) diff cs = false
         /\ s1 = idle_update s (sample t word) diff
         /\ frames = [])
        \/ (new_burst (tightened s diff) diff cs = true
            /\ _continuous s = false
            /\ s1 = set_last_time (Some t) (fresh_burst (tightened s diff))
            /\ frames = boundary_frames (tightened s diff) (sample t word))
        \/ (new_burst (tightened s diff) diff cs = true
            /\ exists c,
                 _continuous s = true
                 /\ _command s = Some c
                 /\ s1 = set_last_time (Some t)
                           (continued_burst (tightened s diff))
                 /\ frames = boundary_frames (tightened s diff) (sample t word)
                             ++ [result_frame c 0])).
Proof.
  unfold detect_burst. intro H.
  apply bind_Ok in H as (diff & Hgap & H). exists diff.
  split; [ exact Hgap | ]. fold (tightened s diff) in H.
  apply bind_Ok in H as ([s2 frames2] & H2 & H). inv_ok H.
  destruct (new_burst (tightened s diff) diff cs).
  - apply start_burst_cases in H2
      as [(Hc & -> & ->) | (c & Hc & Hcmd & -> & ->)].
    + right. left. repeat split. exact Hc.
    + right. right. split; [ reflexivity | ]. exists c. repeat split; assumption.
  - inv_ok H2. left. repeat split.
Qed.

Lemma assemble_keeps (s s1 : State) (word : Z) (frames frames1 : list Frame) :
  assemble s word frames = Ok (s1, frames1) ->
  _last_time s1 = _last_time s
  /\ _fastest_cs s1 = _fastest_cs s
  /\ _clock_count s1 = _clock_count s + 1
  /\ (_clock_count s <> 15 -> _continuous s1 = _continuous s).
Proof.
  unfold assemble. intro H.
  apply bind_Ok in H as ([s2 frames2] & H2 & H). inv_ok H.
  cbn [_last_time _fastest_cs _clock_count _continuous set_clock_count].
  destruct (single_lane s).
  - injection H2 as H2. revert H2. unfold shift_single.
    cbn [_clock_count set_miso_in set_mosi_out].
    destruct (_clock_count s mod 8 =? 7);
      [ | intro H; inv_ok H; repeat split ].
    destruct (_clock_count s =? 7);
      [ | intro H; inv_ok H; repeat split ].
    cbn [_mosi_out set_mosi_out set_miso_in set_command].
    destruct (lookup _ CONTINUE_COMMANDS); intro H; inv_ok H; repeat split.
  - revert H2. unfold shift_quad. cbn [_clock_count set_quad_data].
    destruct (_clock_count s mod 2 =? 1);
      [ | intro H; inv_ok H; repeat split ].
    intro H. apply bind_Ok in H as (c & _ & H). inv_ok H.
    destruct (_clock_count s =? 15) eqn:E15.
    + apply Z.eqb_eq in E15.
      destruct (contains c CONTINUE_COMMANDS && true); repeat split;
        intro Hne; contradiction.
    + rewrite andb_false_r. repeat split.
Qed.

Lemma decode_cases (cfg : Settings) (s s' : State) (t : Q) (word : Z)
    (out : option Frame) :
  decode cfg s (sample t word) = Ok (s', out) ->
  exists s1 frames,
    detect_burst s (sample t word) (Z.shiftr word 15) = Ok (s1, frames)
    /\ ((Z.shiftr word 15 = 1 /\ s' = s1 /\ out = None)
        \/ (Z.shiftr word 15 <> 1
            /\ exists s2 frames2,
                 assemble s1 word frames = Ok (s2, frames2)
                 /\ process_frames cfg frames2 (s2, None) = Ok (s', out))).
Proof.
  rewrite decode_unfold, decode_sample_unfold. intro H.
  apply bind_Ok in H as (r & Hr & H).
  apply bind_Ok in Hr as ([s1 frames] & Hd & Hr).
  exists s1, frames. split; [ exact Hd | ].
  destruct (Z.shiftr word 15 =? 1) eqn:Ecs.
  - apply Z.eqb_eq in Ecs. injection Hr as <-. inv_ok H. left. auto.
  - apply Z.eqb_neq in Ecs.
    apply bind_Ok in Hr as ([s2 frames2] & Ha & Hr). injection Hr as <-.
    right. split; [ exact Ecs | ]. exists s2, frames2. auto.
Qed.

(** ** The adaptive threshold *)

Lemma py_min_le_r (a b : Q) : (py_min a b <= b)%Q.
Proof.
  unfold py_min. destruct (Qltb b a) eqn:E.
  - apply Qle_refl.
  - apply Qltb_ge. exact E.
Qed.

Lemma decode_threshold (cfg : Settings) (s s' : State) (t : Q) (word : Z)
    (out : option Frame) :
  decode cfg s (sample t word) = Ok (s', out) ->
  exists diff,
    gap s (sample t word) = Ok diff
    /\ _fastest_cs s' = py_min (diff * 4)%Q (_fastest_cs s)
    /\ _last_time s' = Some t.
Proof.
  intro H. apply decode_cases in H as (s1 & frames & Hd & H).
  apply detect_burst_cases in Hd as (diff & Hgap & Hd).
  exists diff. split; [ exact Hgap | ].
  assert (H1 : _fastest_cs s1 = py_min (diff * 4)%Q (_fastest_cs s)
               /\ _last_time s1 = Some t).
  { destruct Hd as [(_ & -> & _) | [(_ & _ & -> & _) | (_ & c & _ & _ & -> & _)]];
      split; reflexivity. }
  destruct H as [(_ & -> & _) | (_ & s2 & frames2 & Ha & Hp)]; [ exact H1 | ].
  apply assemble_keeps in Ha as (Hlast & Hfast & _).
  apply process_frames_lane_fields in Hp. unfold lane_fields in Hp.
  injection Hp as Elast _ _ _ _ _ _ _ _ Efast _ _ _ _.
  rewrite Elast, Efast, Hlast, Hfast. exact H1.
Qed.

(** X1. Over any capture the run returns on, the threshold at the end is at
    most the threshold at the start: [decode] only ever tightens it. *)
Theorem threshold_never_grows (cfg : Settings) (capture : list (Q * Z)) :
  forall s s' outs,
    run cfg s (samples capture) = Ok (s', outs) ->
    (_fastest_cs s' <= _fastest_cs s)%Q.
Proof.
  induction capture as [ | [t word] capture IH ]; intros s s' outs H;
    cbn [samples map run fst snd] in H.
  - injection H as <- _. apply Qle_refl.
  - apply bind_Ok in H as ([s1 out] & Hdec & H).
    apply bind_Ok in H as ([s2 outs2] & Hrun & H). injection H as <- _.
    apply decode_threshold in Hdec as (diff & _ & Hfast & _).
    apply (Qle_trans _ (_fastest_cs s1)).
    + exact (IH _ _ _ Hrun).
    + rewrite Hfast. apply py_min_le_r.
Qed.

Lemma threshold_never_grows_witness :
  (_fastest_cs (final_state default_settings
                  (samples [(1%Q, 0%Z); ((100000001 # 100000000)%Q, 0%Z)]))
   <= 2000000)%Q.
Proof.
  apply (threshold_never_grows default_settings
           [(1%Q, 0%Z); ((100000001 # 100000000)%Q, 0%Z)]
           (init default_settings) _ [None; None]).
  vm_compute. reflexivity.
Defined.

(** ** The record a call returns *)

Lemma classify_fields (cfg : Settings) (s s2 : State) (mosi : list Z) :
  loop_fields s2 = loop_fields s ->
  snd (fst (classify cfg s2 mosi)) = snd (fst (classify cfg s mosi))
  /\ snd (classify cfg s2 mosi) = snd (classify cfg s mosi).
Proof.
  unfold loop_fields. intro E.
  injection E as _ Eab Efmt _ _ _ Emin _ _.
  unfold classify. rewrite Eab, Efmt, Emin.
  destruct (contains (nth 0 mosi 0) DATA_COMMANDS).
  - destruct (Z.of_nat (List.length mosi) <? 1 + _address_bytes s);
      [ split; reflexivity | ].
    destruct (Qltb 0 (min_address cfg) && _); [ split; reflexivity | ].
    destruct (truthy (max_address cfg) && _); split; reflexivity.
  - split; reflexivity.
Qed.

Lemma classify_type (cfg : Settings) (s s1 : State) (mosi : list Z)
    (t : string) (d : dict) :
  classify cfg s mosi = (s1, Some t, d) ->
  t = "error" \/ t = "control_command" \/ t = "data_command".
Proof.
  unfold classify.
  destruct (contains (nth 0 mosi 0) DATA_COMMANDS).
  - destruct (Z.of_nat (List.length mosi) <? 1 + _address_bytes s);
      [ intro H; injection H as _ <- _; auto | ].
    destruct (Qltb 0 (min_address cfg) && _); [ discriminate | ].
    destruct (truthy (max_address cfg) && _); [ discriminate | ].
    intro H; injection H as _ <- _; auto.
  - intro H; injection H as _ <- _; auto.
Qed.

Lemma process_disable_record (cfg : Settings) (s s' : State) (f : Frame)
    (r : Frame) :
  process_disable cfg s f None = (s', Some r) ->
  exists mosi s1 ft d,
    _mosi_data s = Some mosi
    /\ mosi <> []
    /\ nonempty (_miso_data s) = true
    /\ classify cfg s mosi = (s1, Some ft, d)
    /\ suppressed (decode_level cfg) (Some ft) = false
    /\ r = AnalyzerFrame ft (_start_time s) (end_time f) d
    /\ s' = set_mosi_data None (set_miso_data None s1).
Proof.
  intro H.
  destruct (nonempty (_miso_data s)) eqn:Hmiso;
    [ | unfold process_disable in H; rewrite Hmiso in H; discriminate ].
  destruct (_mosi_data s) as [ [ | b mosi ] | ] eqn:Hmosi;
    try (unfold process_disable in H; rewrite Hmiso, Hmosi in H; discriminate).
  destruct (classify cfg s (b :: mosi)) as [[s1 ft] d] eqn:Hcl.
  rewrite (process_disable_classified cfg s s1 f None (b :: mosi) ft d
             Hmiso Hmosi ltac:(discriminate) Hcl) in H.
  destruct (suppressed (decode_level cfg) ft) eqn:Hsup; [ discriminate | ].
  destruct ft as [ t | ]; [ | discriminate ].
  injection H as <- <-.
  exists (b :: mosi), s1, t, d. repeat split; trivial. discriminate.
Qed.

(** X2. A call of [decode] on a sample returns a record only when that
    sample opens a new burst after at least one other; the record is then
    the classification of the bytes the closed burst left in the
    host-to-device buffer, it passes the output level, its type is one of
    "error", "control_command" and "data_command", and it carries the start
    time of the closed burst and the time of the sample before this one. *)
Theorem record_of_closed_burst (cfg : Settings) (s s' : State) (t : Q)
    (word : Z) (r : Frame) :
  decode cfg s (sample t word) = Ok (s', Some r) ->
  0 < _transaction s
  /\ _transaction s' = _transaction s + 1
  /\ exists mosi s1 ft d,
       _mosi_data s = Some mosi
       /\ mosi <> []
       /\ classify cfg s mosi = (s1, Some ft, d)
       /\ suppressed (decode_level cfg) (Some ft) = false
       /\ (ft = "error" \/ ft = "control_command" \/ ft = "data_command")
       /\ r = AnalyzerFrame ft (_start_time s) (_last_time s) d.
Proof.
  intro H. apply decode_cases in H as (s1 & frames & Hd & H).
  destruct H as [(_ & _ & H) | (_ & s2 & frames2 & Ha & Hp)]; [ discriminate | ].
  pose proof (assemble_transaction _ _ _ _ _ Ha) as Htr2.
  apply assemble_spec in Ha as (Hloop2 & (extra & -> & Hex) & _).
  apply results_no_disable in Hex.
  pose proof (process_frames_lane_fields _ _ _ _ _ _ Hp) as E.
  assert (Htr' : _transaction s' = _transaction s2)
    by (unfold lane_fields in E; congruence).
  pose proof (detect_burst_spec _ _ _ _ _ _ Hd) as (Hloop1 & _).
  apply detect_burst_cases in Hd as (diff & _ & Hd).
  assert (Hstart : exists tail,
             frames ++ extra
             = boundary_frames (tightened s diff) (sample t word) ++ tail
             /\ no_disable tail
             /\ _transaction s1 = _transaction s + 1).
  { destruct Hd as [(_ & _ & ->) | [(_ & _ & -> & ->) | (_ & c & _ & _ & -> & ->)]].
    - apply (process_frames_no_disable _ _ _ _ _ _ Hex) in Hp. discriminate.
    - exists extra. repeat split. exact Hex.
    - exists (result_frame c 0 :: extra). rewrite <- app_assoc.
      repeat split. constructor; [ apply internal_result | exact Hex ]. }
  destruct Hstart as (tail & Hframes & Htail & Htr1).
  rewrite Hframes, process_boundary_frames in Hp.
  apply (process_frames_no_disable _ _ _ _ _ _ Htail) in Hp.
  unfold close_burst in Hp.
  change (_transaction (tightened s diff)) with (_transaction s) in Hp.
  change (_last_time (tightened s diff)) with (_last_time s) in Hp.
  destruct (0 <? _transaction s) eqn:Hpos; [ | discriminate ].
  apply Z.ltb_lt in Hpos.
  split; [ exact Hpos | ]. split; [ congruence | ].
  destruct (process_disable cfg s2 (FakeFrame "disable" (_last_time s)) None)
    as [s3 o3] eqn:Hpd.
  cbn [snd] in Hp. subst o3.
  apply process_disable_record in Hpd
    as (mosi & s4 & ft & d & Hmosi & Hne & _ & Hcl & Hsup & -> & _).
  assert (Hloop : loop_fields s2 = loop_fields s) by congruence.
  destruct (classify_fields cfg s s2 mosi Hloop) as [Eft Ed].
  rewrite Hcl in Eft, Ed. cbn [fst snd] in Eft, Ed.
  destruct (classify cfg s mosi) as [[s5 ft'] d'] eqn:Hcl'.
  cbn [fst snd] in Eft, Ed. subst ft' d'.
  exists mosi, s5, ft, d.
  unfold loop_fields in Hloop. injection Hloop as Est _ _ _ Emosi _ _ _ _.
  rewrite <- Emosi, <- Est.
  repeat split; trivial. exact (classify_type _ _ _ _ _ _ Hcl).
Qed.

Lemma record_of_closed_burst_witness :
  0 < _transaction after_truncated_read.
Proof.
  assert (H : exists s' r,
             decode default_settings after_truncated_read
               (sample (1001 # 1000) 0) = Ok (s', Some r))
    by (eexists _, _; vm_compute; reflexivity).
  destruct H as (s' & r & H).
  exact (proj1 (record_of_closed_burst default_settings after_truncated_read
                  s' (1001 # 1000)%Q 0 r H)).
Defined.

(** ** The four outcomes of the classifier *)

(** X3. For every burst, the frame type [classify] assigns is decided by
    three tests: "control_command" exactly when the first byte is not a
    data opcode (known control opcode or not); "error" exactly when it is a
    data opcode and the burst is shorter than 1 + address width;
    "data_command" exactly when it is a data opcode, the burst is long
    enough and the address passes the filter; and no type at all exactly
    when the address is filtered out. *)
Theorem classification_cases (cfg : Settings) (s : State) (mosi : list Z) :
  let frame_type := snd (fst (classify cfg s mosi)) in
  let data_opcode := contains (nth 0 mosi 0) DATA_COMMANDS in
  let filtered :=
    address_filtered cfg s (read_address mosi (_address_bytes s)) in
  (frame_type = Some "control_command" <-> data_opcode = false)
  /\ (frame_type = Some "error"
      <-> data_opcode = true
          /\ Z.of_nat (List.length mosi) < 1 + _address_bytes s)
  /\ (frame_type = Some "data_command"
      <-> data_opcode = true
          /\ 1 + _address_bytes s <= Z.of_nat (List.length mosi)
          /\ filtered = false)
  /\ (frame_type = None
      <-> data_opcode = true
          /\ 1 + _address_bytes s <= Z.of_nat (List.length mosi)
          /\ filtered = true).
Proof.
  cbv zeta. unfold classify, address_filtered.
  destruct (contains (nth 0 mosi 0) DATA_COMMANDS).
  - destruct (Z.of_nat (List.length mosi) <? 1 + _address_bytes s) eqn:Hlen;
      [ apply Z.ltb_lt in Hlen | apply Z.ltb_ge in Hlen ].
    + cbn [fst snd]. repeat split; try discriminate; try tauto;
        intros; try lia; try (destruct H; lia); try (destruct H as (_ & ? & _); lia).
    + destruct (Qltb 0 (min_address cfg) && _); cbn [orb].
      * cbn [fst snd]. repeat split; try discriminate; try tauto;
          intros; try lia; try (destruct H as (_ & _ & ?); discriminate);
          try (destruct H; lia).
      * destruct (truthy (max_address cfg) && _); cbn [fst snd];
          repeat split; try discriminate; try tauto;
          intros; try lia; try (destruct H as (_ & _ & ?); discriminate);
          try (destruct H; lia).
  - cbn [fst snd]. repeat split; try discriminate; try tauto;
      intros; try (destruct H; discriminate).
Qed.

Lemma classification_cases_witness :
  snd (fst (classify default_settings (init default_settings) [0xFF]))
  = Some "control_command".
Proof.
  apply (proj1 (classification_cases default_settings
                  (init default_settings) [0xFF])).
  reflexivity.
Defined.

(** ** The address width *)

Lemma classify_width (cfg : Settings) (s : State) (mosi : list Z) :
  let s1 := fst (fst (classify cfg s mosi)) in
  (_address_bytes s1 = _address_bytes s
   /\ _address_format s1 = _address_format s)
  \/ (nth 0 mosi 0 = EN4B /\ _address_bytes s1 = 4 /\ _address_format s1 = 8)
  \/ (nth 0 mosi 0 = EX4B /\ _address_bytes s1 = 3 /\ _address_format s1 = 6).
Proof.
  cbv zeta. unfold classify.
  destruct (contains (nth 0 mosi 0) DATA_COMMANDS).
  - left.
    destruct (Z.of_nat (List.length mosi) <? 1 + _address_bytes s);
      [ split; reflexivity | ].
    destruct (Qltb 0 (min_address cfg) && _); [ split; reflexivity | ].
    destruct (truthy (max_address cfg) && _); split; reflexivity.
  - cbn [fst].
    destruct (nth 0 mosi 0 =? EN4B) eqn:E1.
    + right. left. apply Z.eqb_eq in E1. repeat split. exact E1.
    + destruct (nth 0 mosi 0 =? EX4B) eqn:E2.
      * right. right. apply Z.eqb_eq in E2. repeat split. exact E2.
      * left. split; reflexivity.
Qed.

Lemma process_disable_width (cfg : Settings) (s : State) (f : Frame)
    (o : option Frame) :
  let s' := fst (process_disable cfg s f o) in
  (_address_bytes s' = _address_bytes s
   /\ _address_format s' = _address_format s)
  \/ exists op rest,
       _mosi_data s = Some (op :: rest)
       /\ ((op = EN4B /\ _address_bytes s' = 4 /\ _address_format s' = 8)
           \/ (op = EX4B /\ _address_bytes s' = 3 /\ _address_format s' = 6)).
Proof.
  cbv zeta.
  destruct (nonempty (_miso_data s)) eqn:Hmiso;
    [ | left; unfold process_disable; rewrite Hmiso; split; reflexivity ].
  destruct (_mosi_data s) as [ [ | b mosi ] | ] eqn:Hmosi;
    try (left; unfold process_disable; rewrite Hmiso, Hmosi;
         split; reflexivity).
  pose proof (classify_width cfg s (b :: mosi)) as Hw. cbv zeta in Hw.
  destruct (classify cfg s (b :: mosi)) as [[s1 ft] d] eqn:Hcl.
  rewrite (process_disable_classified cfg s s1 f o (b :: mosi) ft d
             Hmiso Hmosi ltac:(discriminate) Hcl).
  cbn [fst snd nth _address_bytes _address_format set_mosi_data set_miso_data]
    in Hw |- *.
  destruct Hw as [Hw | [Hw | Hw]].
  - left. exact Hw.
  - right. exists b, mosi. split; [ reflexivity | left; exact Hw ].
  - right. exists b, mosi. split; [ reflexivity | right; exact Hw ].
Qed.

Lemma process_frame_width (cfg : Settings) (f : Frame) (s s' : State)
    (o o' : option Frame) :
  type f <> "disable" ->
  process_frame cfg f (s, o) = Ok (s', o') ->
  _address_bytes s' = _address_bytes s
  /\ _address_format s' = _address_format s.
Proof.
  intro Hty. unfold process_frame.
  destruct (String.eqb (type f) "enable");
    [ intro H; inv_ok H; split; reflexivity | ].
  destruct (String.eqb (type f) "result").
  - destruct (_miso_data s), (_mosi_data s);
      try (intro H; inv_ok H; split; reflexivity).
    intro H.
    apply bind_Ok in H as (v1 & _ & H).
    apply bind_Ok in H as (miso' & _ & H).
    apply bind_Ok in H as (v2 & _ & H).
    apply bind_Ok in H as (mosi' & _ & H).
    inv_ok H. split; reflexivity.
  - destruct (String.eqb (type f) "disable") eqn:E.
    + apply String.eqb_eq in E. contradiction.
    + intro H. inv_ok H. split; reflexivity.
Qed.

Lemma process_frames_width (cfg : Settings) (frames : list Frame) :
  forall s s' o o',
    no_disable frames ->
    process_frames cfg frames (s, o) = Ok (s', o') ->
    _address_bytes s' = _address_bytes s
    /\ _address_format s' = _address_format s.
Proof.
  induction frames as [ | f frames IH ]; intros s s' o o' Hf H;
    cbn [process_frames] in H.
  - inv_ok H. split; reflexivity.
  - apply bind_Ok in H as ([s1 o1] & H1 & H2).
    inversion Hf as [ | ? ? [_ Hty] Hrest ]; subst.
    destruct (IH _ _ _ _ Hrest H2) as [-> ->].
    exact (process_frame_width _ _ _ _ _ _ Hty H1).
Qed.

Lemma decode_width (cfg : Settings) (s s' : State) (t : Q) (word : Z)
    (out : option Frame) :
  decode cfg s (sample t word) = Ok (s', out) ->
  (_address_bytes s' = _address_bytes s
   /\ _address_format s' = _address_format s)
  \/ exists op rest,
       _mosi_data s = Some (op :: rest)
       /\ ((op = EN4B /\ _address_bytes s' = 4 /\ _address_format s' = 8)
           \/ (op = EX4B /\ _address_bytes s' = 3 /\ _address_format s' = 6)).
Proof.
  rewrite decode_unfold. intro H.
  apply bind_Ok in H as (r & Hr & H).
  apply decode_sample_spec in Hr. destruct r as [ s1 | [s1 frames] ].
  - inv_ok H. destruct Hr as [Hloop _]. left.
    unfold loop_fields in Hloop. split; congruence.
  - destruct Hr as (Hloop & Hfirst & _).
    unfold loop_fields in Hloop.
    injection Hloop as _ Eab Efmt _ Emosi _ _ _ _.
    destruct Hfirst as [Hno | (frames' & -> & Hno)].
    + destruct (process_frames_width _ _ _ _ _ _ Hno H) as [-> ->].
      left. split; assumption.
    + cbn [process_frames] in H.
      apply bind_Ok in H as ([s2 o2] & H1 & H2).
      destruct (process_frames_width _ _ _ _ _ _ Hno H2) as [-> ->].
      unfold process_frame in H1. cbn in H1. injection H1 as H1.
      pose proof (process_disable_width cfg s1
                    (FakeFrame "disable" (_last_time s)) None) as Hw.
      cbv zeta in Hw. rewrite H1 in Hw. cbn [fst] in Hw.
      rewrite Eab, Efmt, Emosi in Hw. exact Hw.
Qed.

Lemma reachable_width (cfg : Settings) (s : State) :
  reachable cfg s ->
  (_address_bytes s = 3 /\ _address_format s = 6)
  \/ (_address_bytes s = 4 /\ _address_format s = 8).
Proof.
  intro Hr. induction Hr as [ | s s' t word out _ IH Hdec ].
  - left. split; reflexivity.
  - destruct (decode_width _ _ _ _ _ _ Hdec)
      as [[-> ->] | (op & rest & _ & [(_ & -> & ->) | (_ & -> & ->)])];
      auto.
Qed.

(** X4. In every state of a capture the address width is 3 with format
    width 6, or 4 with format width 8; and a call of [decode] changes it
    only when the burst it closes begins with 0xB7 (to 4) or 0xE9 (to 3). *)
Theorem address_width_mode (cfg : Settings) (s : State) :
  reachable cfg s ->
  ((_address_bytes s = 3 /\ _address_format s = 6)
   \/ (_address_bytes s = 4 /\ _address_format s = 8))
  /\ (forall t word s' out,
        decode cfg s (sample t word) = Ok (s', out) ->
        _address_bytes s' <> _address_bytes s ->
        exists op rest,
          _mosi_data s = Some (op :: rest)
          /\ ((op = EN4B /\ _address_bytes s' = 4)
              \/ (op = EX4B /\ _address_bytes s' = 3))).
Proof.
  intro Hr. split.
  - exact (reachable_width cfg s Hr).
  - intros t word s' out Hdec Hne.
    destruct (decode_width _ _ _ _ _ _ Hdec)
      as [[E _] | (op & rest & Hmosi & [(Hop & E & _) | (Hop & E & _)])];
      [ contradiction | | ];
      exists op, rest; auto.
Qed.

Lemma address_width_mode_witness :
  (_address_bytes after_truncated_read = 3
   /\ _address_format after_truncated_read = 6)
  \/ (_address_bytes after_truncated_read = 4
      /\ _address_format after_truncated_read = 8).
Proof.
  exact (proj1 (address_width_mode default_settings after_truncated_read
                  after_truncated_read_reachable)).
Defined.

(** ** The address filter *)

Lemma address_filtered_iff (cfg : Settings) (s : State) (a : Z) :
  address_filtered cfg s a = true
  <-> ((0 < min_address cfg)%Q /\ a < _min_address s)
      \/ (~ (max_address cfg == 0)%Q /\ (max_address cfg < inject_Z a)%Q).
Proof.
  unfold address_filtered, truthy.
  rewrite orb_true_iff, !andb_true_iff, !Qltb_lt, Z.ltb_lt, negb_true_iff.
  assert (Hz : Qeq_bool (max_address cfg) 0 = false
               <-> ~ (max_address cfg == 0)%Q).
  { split.
    - intros H E. apply Qeq_bool_iff in E. congruence.
    - intro H. destruct (Qeq_bool (max_address cfg) 0) eqn:E;
        [ apply Qeq_bool_iff in E; contradiction | reflexivity ]. }
  rewrite Hz. tauto.
Qed.

Lemma classify_filtered (cfg : Settings) (s : State) (mosi : list Z) :
  contains (nth 0 mosi 0) DATA_COMMANDS = true ->
  1 + _address_bytes s <= Z.of_nat (List.length mosi) ->
  address_filtered cfg s (read_address mosi (_address_bytes s)) = true ->
  classify cfg s mosi
  = (s, None,
     [("command", VStr (table_at (nth 0 mosi 0) DATA_COMMANDS))]).
Proof.
  intros Hop Hlen Hf. unfold classify. rewrite Hop.
  apply Z.ltb_ge in Hlen. rewrite Hlen.
  unfold address_filtered in Hf.
  destruct (Qltb 0 (min_address cfg) && _); [ reflexivity | ].
  cbn [orb] in Hf. rewrite Hf. reflexivity.
Qed.

Lemma close_burst_filtered (cfg : Settings) (s0 s : State) (mosi : list Z) :
  _mosi_data s = Some mosi ->
  nonempty (_miso_data s) = true ->
  contains (nth 0 mosi 0) DATA_COMMANDS = true ->
  1 + _address_bytes s <= Z.of_nat (List.length mosi) ->
  address_filtered cfg s (read_address mosi (_address_bytes s)) = true ->
  close_burst cfg s0 s
  = (if 0 <? _transaction s0 then set_mosi_data None (set_miso_data None s)
     else s, None).
Proof.
  intros Hmosi Hmiso Hop Hlen Hf. unfold close_burst.
  destruct (0 <? _transaction s0); [ | reflexivity ].
  assert (Hne : mosi <> []).
  { intros ->. cbn [List.length] in Hlen.
    unfold contains in Hop. cbn in Hop. discriminate. }
  rewrite (process_disable_classified cfg s s _ None mosi None _
             Hmiso Hmosi Hne (classify_filtered cfg s mosi Hop Hlen Hf)).
  destruct (suppressed (decode_level cfg) None); reflexivity.
Qed.

(** X5. When a burst ends with a data opcode, enough bytes for the address,
    and an address below [int(min_address)] (with [min_address] positive)
    or above a non-zero [max_address], the call that closes it returns no
    record under any output level, does not raise, and still replaces the
    buffers by fresh ones. *)
Theorem filtered_burst_dropped (cfg : Settings) (s : State) (t : Q)
    (word : Z) (diff : Q) (mosi : list Z) :
  reachable cfg s ->
  gap s (sample t word) = Ok diff ->
  new_burst (tightened s diff) diff (Z.shiftr word 15) = true ->
  _mosi_data s = Some mosi ->
  contains (nth 0 mosi 0) DATA_COMMANDS = true ->
  1 + _address_bytes s <= Z.of_nat (List.length mosi) ->
  ((0 < min_address cfg)%Q
   /\ read_address mosi (_address_bytes s) < _min_address s)
  \/ (~ (max_address cfg == 0)%Q
      /\ (max_address cfg < inject_Z (read_address mosi (_address_bytes s)))%Q) ->
  exists s' fresh_mosi fresh_miso,
    decode cfg s (sample t word) = Ok (s', None)
    /\ _mosi_data s' = Some fresh_mosi
    /\ _miso_data s' = Some fresh_miso
    /\ (List.length fresh_mosi <= 1)%nat
    /\ _address_bytes s' = _address_bytes s.
Proof.
  intros Hr Hgap Hnew Hmosi Hop Hlen Hwin.
  apply address_filtered_iff in Hwin.
  pose proof (reachable_well_formed cfg s Hr) as [Ha [J1 J2]].
  assert (Hmiso : nonempty (_miso_data s) = true).
  { unfold buffers_aligned in Ha. rewrite Hmosi in Ha.
    destruct mosi as [ | b mosi ];
      [ unfold contains in Hop; cbn in Hop; discriminate | ].
    destruct (_miso_data s) as [ [ | b' miso ] | ];
      [ discriminate | reflexivity | contradiction ]. }
  unfold tightened in Hnew.
  set (s0 := set_fastest_cs (py_min (diff * 4)%Q (_fastest_cs s)) s) in *.
  destruct (_continuous s) eqn:Hc.
  - pose proof (J1 eq_refl) as Hq.
    destruct (J2 8 Hq) as (_ & _ & c & Hcmd & Hcont).
    rewrite (decode_continued_start cfg s t word diff c Hgap Hnew Hc Hcmd
               (contains_continue_byte c Hcont) Hq).
    fold s0.
    rewrite (close_burst_filtered cfg s0
               (quad_edge word (set_last_time (Some t) (continued_burst s0)))
               mosi Hmosi Hmiso Hop Hlen Hwin).
    eexists _, [c], [0]. split; [ reflexivity | ].
    split; [ reflexivity | ]. split; [ reflexivity | ].
    split; [ cbn; lia | ].
    destruct (0 <? _transaction s0); reflexivity.
  - rewrite (decode_fresh_start cfg s t word diff Hgap Hnew Hc).
    fold s0.
    rewrite (close_burst_filtered cfg s0
               (single_edge word (set_last_time (Some t) (fresh_burst s0)))
               mosi Hmosi Hmiso Hop Hlen Hwin).
    eexists _, [], []. split; [ reflexivity | ].
    split; [ reflexivity | ]. split; [ reflexivity | ].
    split; [ cbn; lia | ].
    destruct (0 <? _transaction s0); reflexivity.
Qed.

Lemma after_low_read_reachable : reachable min_settings after_low_read.
Proof.
  apply (reachable_run min_settings clock_period
           (flat_map bits_of_byte [0x03; 0x00; 0x05; 0x00]) 1%Q
           (init min_settings) after_low_read (repeat None 32)).
  - apply reachable_init.
  - vm_compute. reflexivity.
Qed.

Lemma filtered_burst_dropped_witness :
  exists s', decode min_settings after_low_read (sample (1001 # 1000) 0)
             = Ok (s', None).
Proof.
  destruct (filtered_burst_dropped min_settings after_low_read
              (1001 # 1000)%Q 0 _ [0x03; 0x00; 0x05; 0x00]
              after_low_read_reachable eq_refl)
    as (s' & _ & _ & Hdec & _); try (vm_compute; reflexivity).
  - vm_compute. intro H. discriminate H.
  - left. split; vm_compute; reflexivity.
  - exists s'. exact Hdec.
Defined.

(** ** The buffers hold bytes *)

Lemma extend_bytes (buf buf' : list Z) (v : value) :
  extend buf v = Ok buf' ->
  Forall (fun b => is_byte b = true) buf ->
  Forall (fun b => is_byte b = true) buf'.
Proof.
  unfold extend. destruct v as [ n | str | l ]; try discriminate.
  destruct (forallb is_byte l) eqn:E; [ | discriminate ].
  intros H Hbuf. injection H as <-.
  apply Forall_app. split; [ exact Hbuf | ].
  apply Forall_forall. apply forallb_forall. exact E.
Qed.

Lemma process_frame_bytes (cfg : Settings) (f : Frame) (s s' : State)
    (o o' : option Frame) :
  process_frame cfg f (s, o) = Ok (s', o') ->
  buffers_hold_bytes s -> buffers_hold_bytes s'.
Proof.
  unfold process_frame, buffers_hold_bytes. intros H Hs.
  destruct (String.eqb (type f) "enable").
  { inv_ok H. cbn. intros buf [E | E]; injection E as <-; constructor. }
  destruct (String.eqb (type f) "result").
  { destruct (_miso_data s) as [ miso | ] eqn:Hmiso;
      [ | inv_ok H; cbn; rewrite Hmiso; exact Hs ].
    destruct (_mosi_data s) as [ mosi | ] eqn:Hmosi;
      [ | inv_ok H; cbn; rewrite Hmiso, Hmosi; exact Hs ].
    apply bind_Ok in H as (v1 & _ & H).
    apply bind_Ok in H as (miso' & Hex1 & H).
    apply bind_Ok in H as (v2 & _ & H).
    apply bind_Ok in H as (mosi' & Hex2 & H).
    inv_ok H. cbn.
    intros buf [E | E]; injection E as <-.
    - apply (extend_bytes _ _ _ Hex2). apply Hs. left. reflexivity.
    - apply (extend_bytes _ _ _ Hex1). apply Hs. right. reflexivity. }
  destruct (String.eqb (type f) "disable"); [ | inv_ok H; exact Hs ].
  injection H as H. unfold process_disable in H.
  destruct (negb (nonempty (_miso_data s)) || negb (nonempty (_mosi_data s)));
    [ inv_ok H; exact Hs | ].
  destruct (classify cfg s _) as [[s1 ft] d].
  destruct (suppressed (decode_level cfg) ft); inv_ok H; cbn;
    intros buf [E | E]; discriminate.
Qed.

Lemma process_frames_bytes (cfg : Settings) (frames : list Frame) :
  forall s s' o o',
    process_frames cfg frames (s, o) = Ok (s', o') ->
    buffers_hold_bytes s -> buffers_hold_bytes s'.
Proof.
  induction frames as [ | f frames IH ]; intros s s' o o' H Hs;
    cbn [process_frames] in H.
  - inv_ok H. exact Hs.
  - apply bind_Ok in H as ([s1 o1] & H1 & H2).
    exact (IH _ _ _ _ H2 (process_frame_bytes _ _ _ _ _ _ H1 Hs)).
Qed.

Lemma reachable_hold_bytes (cfg : Settings) (s : State) :
  reachable cfg s -> buffers_hold_bytes s.
Proof.
  intro Hr. induction Hr as [ | s s' t word out _ IH Hdec ].
  - intros buf [E | E]; discriminate.
  - rewrite decode_unfold in Hdec.
    apply bind_Ok in Hdec as (r & Hr' & H).
    apply decode_sample_spec in Hr'. destruct r as [ s1 | [s1 frames] ].
    + inv_ok H. destruct Hr' as [Hloop _]. unfold loop_fields in Hloop.
      injection Hloop as _ _ _ Emiso Emosi _ _ _ _.
      unfold buffers_hold_bytes. rewrite Emiso, Emosi. exact IH.
    + destruct Hr' as (Hloop & _). unfold loop_fields in Hloop.
      injection Hloop as _ _ _ Emiso Emosi _ _ _ _.
      apply (process_frames_bytes _ _ _ _ _ _ H).
      unfold buffers_hold_bytes. rewrite Emiso, Emosi. exact IH.
Qed.

(** X6. In every state of a capture, every element of the host-to-device
    and device-to-host buffers is between 0 and 255. *)
Theorem buffers_are_bytes (cfg : Settings) (s : State) :
  reachable cfg s ->
  forall buf,
    _mosi_data s = Some buf \/ _miso_data s = Some buf ->
    Forall (fun b => 0 <= b < 256) buf.
Proof.
  intro Hr. pose proof (reachable_hold_bytes cfg s Hr) as H.
  intros buf Hbuf. specialize (H buf Hbuf).
  eapply Forall_impl; [ | exact H ].
  intros b Hb. unfold is_byte in Hb. apply andb_true_iff in Hb as [H0 H1].
  apply Z.leb_le in H0. apply Z.ltb_lt in H1. lia.
Qed.

Lemma buffers_are_bytes_witness :
  Forall (fun b => 0 <= b < 256) [0x03; 0x00].
Proof.
  apply (buffers_are_bytes default_settings after_truncated_read
           after_truncated_read_reachable).
  left. reflexivity.
Defined.

(** ** The clock count and the continuous flag *)

Lemma decode_lanes_after (cfg : Settings) (s s' : State) (t : Q) (word : Z)
    (out : option Frame) :
  decode cfg s (sample t word) = Ok (s', out) ->
  exists diff,
    gap s (sample t word) = Ok diff
    /\ (new_burst (tightened s diff) diff (Z.shiftr word 15) = true ->
        _clock_count s' = (if _continuous s then 9 else 1)
        /\ _continuous s' = _continuous s
        /\ _transaction s' = _transaction s + 1)
    /\ (new_burst (tightened s diff) diff (Z.shiftr word 15) = false ->
        _transaction s' = _transaction s
        /\ (Z.shiftr word 15 = 1 ->
            _clock_count s' = _clock_count s
            /\ _continuous s' = _continuous s)
        /\ (Z.shiftr word 15 <> 1 ->
            _clock_count s' = _clock_count s + 1
            /\ (_clock_count s <> 15 -> _continuous s' = _continuous s))).
Proof.
  intro H. apply decode_cases in H as (s1 & frames & Hd & H).
  apply detect_burst_cases in Hd as (diff & Hgap & Hd).
  exists diff. split; [ exact Hgap | ].
  destruct H as [(Hcs & -> & _) | (Hcs & s2 & frames2 & Ha & Hp)].
  - assert (Hnew : new_burst (tightened s diff) diff (Z.shiftr word 15) = false).
    { unfold new_burst. rewrite Hcs. apply andb_false_r. }
    rewrite Hnew in *.
    destruct Hd as [(_ & -> & _) | [(Hd & _) | (Hd & _)]]; try discriminate.
    split; [ discriminate | ]. intros _.
    split; [ reflexivity | ]. split; [ | contradiction ].
    intros _. split; reflexivity.
  - pose proof (assemble_transaction _ _ _ _ _ Ha) as Htr.
    apply assemble_keeps in Ha as (_ & _ & Hcc & Hflag).
    apply process_frames_lane_fields in Hp. unfold lane_fields in Hp.
    injection Hp as _ Etr Ecc _ _ _ _ Ec _ _ _ _ _ _.
    rewrite Etr, Ecc, Ec, Htr, Hcc.
    destruct Hd as [(Hnew & -> & _)
                   | [(Hnew & Hc & -> & _) | (Hnew & c & Hc & _ & -> & _)]];
      rewrite Hnew.
    + split; [ discriminate | ]. intros _.
      split; [ reflexivity | ]. split; [ contradiction | ].
      intros _. split; [ reflexivity | exact Hflag ].
    + split; [ | discriminate ]. intros _. rewrite Hc.
      split; [ reflexivity | ].
      split; [ rewrite Hflag; [ exact Hc | discriminate ] | reflexivity ].
    + split; [ | discriminate ]. intros _. rewrite Hc.
      split; [ reflexivity | ].
      split; [ rewrite Hflag; [ exact Hc | discriminate ] | reflexivity ].
Qed.

(** X7. For every call of [decode] on a sample that returns: if the sample
    opens a burst, the clock count is 1 afterwards, or 9 when the
    continuous flag was set, and the transaction counter grows by one; if
    not, the transaction counter is unchanged and the clock count grows by
    exactly one unless the data word shifted right by 15 is 1, in which
    case it is unchanged.  A word whose bits above bit 15 make that value
    neither 0 nor 1 is counted as an edge although it can never open a
    burst. *)
Theorem clock_count_step (cfg : Settings) (s s' : State) (t : Q) (word : Z)
    (out : option Frame) :
  decode cfg s (sample t word) = Ok (s', out) ->
  exists diff,
    gap s (sample t word) = Ok diff
    /\ (new_burst (tightened s diff) diff (Z.shiftr word 15) = true ->
        _clock_count s' = (if _continuous s then 9 else 1)
        /\ _transaction s' = _transaction s + 1)
    /\ (new_burst (tightened s diff) diff (Z.shiftr word 15) = false ->
        _transaction s' = _transaction s
        /\ (Z.shiftr word 15 = 1 -> _clock_count s' = _clock_count s)
        /\ (Z.shiftr word 15 <> 1 -> _clock_count s' = _clock_count s + 1))
    /\ (Z.shiftr word 15 <> 0 ->
        new_burst (tightened s diff) diff (Z.shiftr word 15) = false).
Proof.
  intro H. apply decode_lanes_after in H as (diff & Hgap & Hyes & Hno).
  exists diff. split; [ exact Hgap | ]. split; [ | split ].
  - intro Hnew. destruct (Hyes Hnew) as (Hcc & _ & Htr). auto.
  - intro Hnew. destruct (Hno Hnew) as (Htr & H1 & H2).
    split; [ exact Htr | ]. split.
    + intro Hcs. apply H1. exact Hcs.
    + intro Hcs. apply H2. exact Hcs.
  - intro Hcs. unfold new_burst. apply Z.eqb_neq in Hcs. rewrite Hcs.
    apply andb_false_r.
Qed.

Lemma clock_count_step_witness :
  exists diff,
    gap after_truncated_read (sample (1001 # 1000) 0) = Ok diff
    /\ new_burst (tightened after_truncated_read diff) diff (Z.shiftr 0 15)
       = true.
Proof.
  assert (H : exists s' out,
             decode default_settings after_truncated_read
               (sample (1001 # 1000) 0) = Ok (s', out))
    by (eexists _, _; vm_compute; reflexivity).
  destruct H as (s' & out & H).
  destruct (clock_count_step default_settings after_truncated_read s'
              (1001 # 1000)%Q 0 out H) as (diff & Hgap & _).
  exists diff. split; [ exact Hgap | ].
  injection Hgap as <-. vm_compute. reflexivity.
Defined.

(** X8. A call of [decode] on a sample changes the continuous flag only
    when that sample does not open a burst and is the one at clock edge
    15. *)
Theorem continuous_flag_frame (cfg : Settings) (s s' : State) (t : Q)
    (word : Z) (out : option Frame) :
  decode cfg s (sample t word) = Ok (s', out) ->
  _continuous s' <> _continuous s ->
  _clock_count s = 15
  /\ Z.shiftr word 15 <> 1
  /\ _transaction s' = _transaction s.
Proof.
  intros H Hne. apply decode_lanes_after in H as (diff & Hgap & Hyes & Hno).
  destruct (new_burst (tightened s diff) diff (Z.shiftr word 15)).
  - destruct (Hyes eq_refl) as (_ & Hc & _). contradiction.
  - destruct (Hno eq_refl) as (Htr & H1 & H2).
    destruct (Z.eq_dec (Z.shiftr word 15) 1) as [Hcs | Hcs].
    + destruct (H1 Hcs) as [_ Hc]. contradiction.
    + destruct (H2 Hcs) as [_ Hc].
      destruct (Z.eq_dec (_clock_count s) 15) as [H15 | H15].
      * auto.
      * specialize (Hc H15). contradiction.
Qed.

Lemma continuous_flag_frame_witness :
  _clock_count before_mode_byte = 15.
Proof.
  refine (proj1 (continuous_flag_frame default_settings before_mode_byte
                   after_mode_byte (20000003 # 20000000)%Q 0x5 None _ _)).
  - vm_compute. reflexivity.
  - vm_compute. discriminate.
Defined.

(** ** A threshold of zero *)

(** X9. (1) When a sample carries the same time stamp as the one before
    and the threshold is not negative, the call leaves the threshold at
    zero.  (2) When the threshold is zero and the time stamp of a sample is
    not before the previous one, the call leaves the threshold at zero,
    whatever the chip select.  (3) When the threshold is zero, a sample
    with chip select low that is strictly later than the one before opens
    a new burst: the capture is cut into bursts of one edge. *)
Theorem zero_threshold (cfg : Settings) (s s' : State) (t : Q) (word : Z)
    (out : option Frame) (last : Q) :
  decode cfg s (sample t word) = Ok (s', out) ->
  _last_time s = Some last ->
  ((t == last)%Q -> (0 <= _fastest_cs s)%Q -> (_fastest_cs s' == 0)%Q)
  /\ ((_fastest_cs s == 0)%Q -> (last <= t)%Q -> (_fastest_cs s' == 0)%Q)
  /\ ((_fastest_cs s == 0)%Q -> (last < t)%Q -> Z.shiftr word 15 = 0 ->
      _transaction s' = _transaction s + 1
      /\ _clock_count s' = (if _continuous s then 9 else 1)).
Proof.
  intros Hdec Hlast.
  pose proof (decode_threshold _ _ _ _ _ _ Hdec) as (diff & Hgap & Hfast & _).
  pose proof (decode_lanes_after _ _ _ _ _ _ Hdec) as (diff' & Hgap' & Hyes & _).
  rewrite Hgap in Hgap'. injection Hgap' as <-.
  unfold gap in Hgap. rewrite Hlast in Hgap. cbn in Hgap.
  injection Hgap as <-.
  split; [ | split ].
  - intros Heq Hpos. rewrite Hfast. unfold py_min.
    destruct (Qltb _ _) eqn:E.
    + apply Qltb_lt in E. lra.
    + lra.
  - intros Hzero Hle. rewrite Hfast. unfold py_min.
    destruct (Qltb _ _) eqn:E.
    + exact Hzero.
    + apply Qltb_ge in E. lra.
  - intros Hzero Hlt Hcs.
    assert (Hmin : py_min ((t - last) * 1000000000 * 4) (_fastest_cs s)
                   = _fastest_cs s).
    { unfold py_min.
      assert (E : Qltb (_fastest_cs s) ((t - last) * 1000000000 * 4) = true)
        by (apply Qltb_lt; lra).
      rewrite E. reflexivity. }
    assert (Hnew : new_burst (tightened s ((t - last) * 1000000000))
                     ((t - last) * 1000000000) (Z.shiftr word 15) = true).
    { unfold new_burst, tightened. cbn [_fastest_cs set_fastest_cs].
      rewrite Hmin, Hcs. apply andb_true_iff. split; [ | reflexivity ].
      apply Qltb_lt. lra. }
    destruct (Hyes Hnew) as (Hcc & _ & Htr). auto.
Qed.

Lemma zero_threshold_witness :
  (_fastest_cs same_time_state == 0)%Q
  /\ (_fastest_cs later_sample_state == 0)%Q
  /\ _transaction later_sample_state = _transaction same_time_state + 1
  /\ _clock_count later_sample_state = 1.
Proof.
  split.
  - refine (proj1 (zero_threshold default_settings first_edge_state
                     same_time_state 1%Q 0 None 1%Q _ eq_refl) _ _).
    + vm_compute. reflexivity.
    + reflexivity.
    + vm_compute. discriminate.
  - assert (Hdec : decode default_settings same_time_state (sample 2 0)
                   = Ok (later_sample_state, None))
      by (vm_compute; reflexivity).
    destruct (zero_threshold default_settings same_time_state
                later_sample_state 2%Q 0 None 1%Q Hdec eq_refl)
      as (_ & Hstay & Hopen).
    split.
    + apply Hstay; [ reflexivity | vm_compute; discriminate ].
    + apply Hopen; reflexivity.
Defined.

(** ** The exceptions of [decode] *)

Lemma accumulators_bounded_ext (s s' : State) :
  _quad_start s' = _quad_start s ->
  _clock_count s' = _clock_count s ->
  _mosi_out s' = _mosi_out s ->
  _miso_in s' = _miso_in s ->
  accumulators_bounded s -> accumulators_bounded s'.
Proof.
  unfold accumulators_bounded, single_lane. intros -> -> -> ->. trivial.
Qed.

Lemma shifted_bound (acc bit j : Z) :
  0 <= j ->
  0 <= acc < 2 ^ j ->
  bit = 0 \/ bit = 1 ->
  0 <= shift_bit acc bit < 2 ^ (j + 1).
Proof.
  intros Hj Hacc Hbit. rewrite shift_bit_add by (lia || assumption).
  rewrite Z.pow_add_r by lia. change (2 ^ 1) with 2.
  destruct Hbit as [-> | ->]; lia.
Qed.

Lemma assemble_bounded (s s1 : State) (word : Z) (frames frames1 : list Frame) :
  lanes_consistent s ->
  accumulators_bounded s ->
  assemble s word frames = Ok (s1, frames1) ->
  accumulators_bounded s1.
Proof.
  intros J B H. pose proof (assemble_spec _ _ _ _ _ H) as (_ & _ & J1).
  specialize (J1 J).
  destruct (single_lane s) eqn:Hsl.
  - destruct (single_lane_no_threshold s J Hsl) as [Hq _].
    destruct (B Hsl) as [Bo Bi].
    assert (Hmod : 0 <= _clock_count s mod 8 < 8)
      by (apply Z.mod_pos_bound; lia).
    destruct (_clock_count s mod 8 =? 7) eqn:E7.
    + apply Z.eqb_eq in E7.
      assert (Hnext : (_clock_count s + 1) mod 8 = 0)
        by (Z.div_mod_to_equations; lia).
      destruct (_clock_count s =? 7) eqn:E.
      * apply Z.eqb_eq in E. rewrite (assemble_opcode s word frames Hsl E) in H.
        destruct (lookup (mosi_shifted s word) CONTINUE_COMMANDS);
          injection H as <- _.
        -- intro Hsl1. unfold single_lane, single_flush in Hsl1.
           cbn [_quad_start _clock_count set_dummy set_quad_start set_command
                set_clock_count set_miso_in set_mosi_out] in Hsl1.
           rewrite E in Hsl1. discriminate.
        -- intros _. unfold single_flush. cbn. rewrite Hnext.
           change (2 ^ 0) with 1. lia.
      * rewrite (assemble_single_flush s word frames Hsl
                   ltac:(apply Z.eqb_eq; exact E7) E) in H.
        injection H as <- _.
        intros _. unfold single_flush. cbn. rewrite Hnext.
        change (2 ^ 0) with 1. lia.
    + rewrite (assemble_single_edge s word frames Hsl E7) in H.
      injection H as <- _. apply Z.eqb_neq in E7.
      assert (Hnext : (_clock_count s + 1) mod 8 = _clock_count s mod 8 + 1)
        by (Z.div_mod_to_equations; lia).
      intros _. unfold single_edge, mosi_shifted, miso_shifted. cbn.
      rewrite Hnext.
      fold (shift_bit (_mosi_out s) (Z.land word 1)).
      fold (shift_bit (_miso_in s) (Z.land (Z.shiftr word 1) 1)).
      split; apply shifted_bound; try lia; try assumption; apply land_1_bit.
  - intro Hsl1. exfalso.
    unfold assemble in H. rewrite Hsl in H.
    apply bind_Ok in H as ([s2 frames2] & H2 & H). inv_ok H.
    apply shift_quad_spec in H2 as (_ & _ & _ & Hq & _).
    destruct J1 as [_ J2'].
    unfold single_lane in Hsl, Hsl1.
    cbn [_quad_start _clock_count set_clock_count] in *.
    destruct (_quad_start s2) as [ q2 | ] eqn:Hq2.
    + destruct (J2' q2 eq_refl) as (-> & Hge & _).
      apply Z.ltb_lt in Hsl1. lia.
    + rewrite <- Hq in Hsl. discriminate.
Qed.

Lemma detect_burst_bounded (s s1 : State) (t : Q) (word cs : Z)
    (frames : list Frame) :
  lanes_consistent s ->
  accumulators_bounded s ->
  detect_burst s (sample t word) cs = Ok (s1, frames) ->
  accumulators_bounded s1.
Proof.
  intros [J1 _] B Hd.
  apply detect_burst_cases in Hd as (diff & _ & Hd).
  destruct Hd as [(_ & -> & _) | [(_ & _ & -> & _) | (_ & c & Hc & _ & -> & _)]].
  - revert B. apply accumulators_bounded_ext; reflexivity.
  - intros _. cbn. change (0 mod 8) with 0. change (2 ^ 0) with 1. lia.
  - intro Hsl. unfold single_lane in Hsl. cbn in Hsl.
    rewrite (J1 Hc) in Hsl. discriminate.
Qed.

Lemma decode_bounded (cfg : Settings) (s s' : State) (t : Q) (word : Z)
    (out : option Frame) :
  lanes_consistent s ->
  accumulators_bounded s ->
  decode cfg s (sample t word) = Ok (s', out) ->
  accumulators_bounded s'.
Proof.
  intros J B H. apply decode_cases in H as (s1 & frames & Hd & H).
  pose proof (detect_burst_bounded _ _ _ _ _ _ J B Hd) as B1.
  apply detect_burst_spec in Hd as (_ & _ & _ & J1). specialize (J1 J).
  destruct H as [(_ & -> & _) | (_ & s2 & frames2 & Ha & Hp)]; [ exact B1 | ].
  pose proof (assemble_bounded _ _ _ _ _ J1 B1 Ha) as B2.
  apply process_frames_lane_fields in Hp. unfold lane_fields in Hp.
  injection Hp as _ _ Ecc Emo Emi _ Eqs _ _ _ _ _ _ _.
  revert B2. apply accumulators_bounded_ext; assumption.
Qed.

Lemma reachable_bounded (cfg : Settings) (s : State) :
  reachable cfg s -> accumulators_bounded s.
Proof.
  induction 1 as [ | s s' t word out Hr IH Hdec ].
  - intros _. cbn. change (0 mod 8) with 0. change (2 ^ 0) with 1. lia.
  - apply reachable_well_formed in Hr as [_ J].
    exact (decode_bounded _ _ _ _ _ _ J IH Hdec).
Qed.

Lemma process_result_closed (cfg : Settings) (s : State) (x y : Z) :
  _mosi_data s = None ->
  _miso_data s = None ->
  process_frames cfg [result_frame x y] (s, None)
  = Ok (set_empty_result_count (_empty_result_count s + 1) s, None).
Proof.
  intros Hmosi Hmiso. cbn [process_frames].
  rewrite process_result_frame_unfold, Hmosi, Hmiso. reflexivity.
Qed.

Lemma process_result_out_of_range (cfg : Settings) (s : State)
    (mosi miso : list Z) (x y : Z) :
  _mosi_data s = Some mosi ->
  _miso_data s = Some miso ->
  is_byte x = false \/ is_byte y = false ->
  process_frames cfg [result_frame x y] (s, None) = Raise ValueError.
Proof.
  intros Hmosi Hmiso Hxy. cbn [process_frames].
  rewrite process_result_frame_unfold, Hmosi, Hmiso.
  unfold extend. cbn [forallb]. rewrite !andb_true_r.
  destruct (is_byte y); [ | reflexivity ].
  destruct Hxy as [Hx | Hy]; [ | discriminate ].
  cbn [bind]. rewrite Hx. reflexivity.
Qed.

(** The frame a completed byte produces is consumed without an exception
    when the burst is closed or when both values are bytes. *)
Lemma process_result_total (cfg : Settings) (s : State) (x y : Z) :
  buffers_aligned s ->
  _mosi_data s = None \/ (is_byte x = true /\ is_byte y = true) ->
  exists s', process_frames cfg [result_frame x y] (s, None) = Ok (s', None).
Proof.
  intros Ha Hok. unfold buffers_aligned in Ha.
  destruct (_mosi_data s) as [ mosi | ] eqn:Hmosi,
           (_miso_data s) as [ miso | ] eqn:Hmiso; try contradiction.
  - destruct Hok as [H | [Hx Hy]]; [ discriminate | ].
    rewrite (process_one_result cfg s mosi miso x y None Hmosi Hmiso Hx Hy).
    eauto.
  - rewrite (process_result_closed cfg s x y Hmosi Hmiso). eauto.
Qed.

Lemma single_lane_idle_eq (s : State) (frame : Frame) (diff : Q) :
  single_lane (idle_update s frame diff) = single_lane s.
Proof. reflexivity. Qed.

Lemma shifted_is_byte (acc bit : Z) :
  0 <= acc < 2 ^ 7 -> bit = 0 \/ bit = 1 -> is_byte (shift_bit acc bit) = true.
Proof.
  intros Hacc Hbit.
  pose proof (shifted_bound acc bit 7 ltac:(lia) Hacc Hbit) as H.
  change (2 ^ (7 + 1)) with 256 in H.
  unfold is_byte. apply andb_true_iff.
  split; [ apply Z.leb_le | apply Z.ltb_lt ]; lia.
Qed.

Lemma process_result_returns (cfg : Settings) (s : State) (x y : Z) :
  buffers_aligned s ->
  _mosi_data s = None \/ (is_byte x = true /\ is_byte y = true) ->
  exists s' out,
    process_frames cfg [result_frame x y] (s, None) = Ok (s', out).
Proof.
  intros Ha Hb.
  destruct (process_result_total cfg s x y Ha Hb) as [s' E]. eauto.
Qed.

Lemma decode_flush_out_of_range (cfg : Settings) (s : State) (t : Q)
    (word : Z) (diff : Q) (c : Z) (mosi miso : list Z) :
  gap s (sample t word) = Ok diff ->
  new_burst (tightened s diff) diff (Z.shiftr word 15) = false ->
  Z.shiftr word 15 <> 1 ->
  single_lane s = false ->
  (_clock_count s mod 2 =? 1) = true ->
  _command s = Some c ->
  _mosi_data s = Some mosi ->
  _miso_data s = Some miso ->
  is_byte (quad_shifted s word) = false ->
  decode cfg s (sample t word) = Raise ValueError.
Proof.
  intros Hgap Hnew Hcs Hsl E2 Hcmd Hmosi Hmiso Hq.
  unfold tightened in Hnew.
  rewrite (decode_in_burst cfg s t word diff Hgap Hnew Hcs).
  set (si := idle_update s (sample t word) diff).
  rewrite (assemble_quad_flush si word [] c Hsl E2 Hcmd).
  cbn [bind app].
  change (quad_shifted si word) with (quad_shifted s word).
  set (s2 := set_clock_count _ _).
  assert (Hloop : _mosi_data s2 = _mosi_data s /\ _miso_data s2 = _miso_data s).
  { subst s2. destruct (contains c CONTINUE_COMMANDS && _); split; reflexivity. }
  destruct Hloop as [Emosi Emiso]. rewrite Hmosi in Emosi. rewrite Hmiso in Emiso.
  destruct (outside_dummy_window _);
    apply (process_result_out_of_range cfg s2 mosi miso); auto.
Qed.

(** X10. From every state of a capture, a call of [decode] on a sample
    either returns, or raises [ValueError]; and it raises exactly when the
    sample does not open a burst, its chip select is not high, the decoder
    is in the quad phase at an odd clock count with the buffers open, and
    the value assembled in [_quad_data] is not a byte (a nibble was left
    over from an earlier burst).  No other exception can occur, and none
    in the single-lane phase, at a burst start or on a sample with chip
    select high. *)
Theorem decode_raises_only (cfg : Settings) (s : State) (t : Q) (word : Z) :
  reachable cfg s ->
  let stale_flush :=
    exists diff,
      gap s (sample t word) = Ok diff
      /\ new_burst (tightened s diff) diff (Z.shiftr word 15) = false
      /\ Z.shiftr word 15 <> 1
      /\ single_lane s = false
      /\ _clock_count s mod 2 = 1
      /\ is_byte (quad_shifted s word) = false
      /\ _mosi_data s <> None in
  ((exists s' out, decode cfg s (sample t word) = Ok (s', out))
   \/ (decode cfg s (sample t word) = Raise ValueError /\ stale_flush))
  /\ (stale_flush -> decode cfg s (sample t word) = Raise ValueError).
Proof.
  intros Hr stale_flush.
  pose proof (reachable_bounded cfg s Hr) as B.
  apply reachable_well_formed in Hr as [Ha [J1 J2]].
  assert (Hraise : stale_flush ->
                   decode cfg s (sample t word) = Raise ValueError).
  { intros (diff & Hgap & Hnew & Hcs & Hsl & Hodd & Hq & Hopen).
    assert (Hcmd : exists c, _command s = Some c).
    { unfold single_lane in Hsl.
      destruct (_quad_start s) as [ q | ] eqn:Hqs; [ | discriminate ].
      destruct (J2 q eq_refl) as (_ & _ & c & Hcmd & _). eauto. }
    destruct Hcmd as [c Hcmd].
    unfold buffers_aligned in Ha.
    destruct (_mosi_data s) as [ mosi | ] eqn:Hmosi; [ | contradiction ].
    destruct (_miso_data s) as [ miso | ] eqn:Hmiso; [ | contradiction ].
    apply (decode_flush_out_of_range cfg s t word diff c mosi miso); trivial.
    apply Z.eqb_eq. exact Hodd. }
  split; [ | exact Hraise ].
  destruct (gap_sample s t word) as [diff Hgap].
  destruct (new_burst (set_fastest_cs (py_min (diff * 4)%Q (_fastest_cs s)) s)
              diff (Z.shiftr word 15)) eqn:Hnew.
  { left. destruct (_continuous s) eqn:Hc.
    - pose proof (J1 eq_refl) as Hq.
      destruct (J2 8 Hq) as (_ & _ & c & Hcmd & Hcont).
      rewrite (decode_continued_start cfg s t word diff c Hgap Hnew Hc Hcmd
                 (contains_continue_byte c Hcont) Hq).
      eauto.
    - rewrite (decode_fresh_start cfg s t word diff Hgap Hnew Hc). eauto. }
  destruct (Z.eq_dec (Z.shiftr word 15) 1) as [Hcs | Hcs].
  { left. rewrite decode_unfold, decode_sample_unfold.
    rewrite (detect_burst_idle s (sample t word) _ diff Hgap Hnew).
    cbn [bind]. rewrite Hcs. cbn. eauto. }
  destruct (single_lane s) eqn:Hsl.
  - left. rewrite (decode_in_burst cfg s t word diff Hgap Hnew Hcs).
    set (si := idle_update s (sample t word) diff).
    assert (Hai : forall s2, loop_fields s2 = loop_fields s ->
                             buffers_aligned s2)
      by (intros s2 E; exact (buffers_aligned_fields _ _ E Ha)).
    destruct (B Hsl) as [Bo Bi].
    destruct (_clock_count s mod 8 =? 7) eqn:E7.
    + apply Z.eqb_eq in E7. rewrite E7 in Bo, Bi.
      assert (Hbo : is_byte (mosi_shifted si word) = true)
        by (apply shifted_is_byte; [ exact Bo | apply land_1_bit ]).
      assert (Hbi : is_byte (miso_shifted si word) = true)
        by (apply shifted_is_byte; [ exact Bi | apply land_1_bit ]).
      destruct (_clock_count s =? 7) eqn:E.
      * apply Z.eqb_eq in E.
        rewrite (assemble_opcode si word [] Hsl E). cbn [bind app].
        destruct (lookup (mosi_shifted si word) CONTINUE_COMMANDS);
          apply process_result_returns; auto.
      * rewrite (assemble_single_flush si word [] Hsl
                   ltac:(apply Z.eqb_eq; exact E7) E).
        cbn [bind app]. apply process_result_returns; auto.
    + rewrite (assemble_single_edge si word [] Hsl E7). cbn. eauto.
  - destruct (_clock_count s mod 2 =? 1) eqn:E2.
    + destruct (is_byte (quad_shifted s word)) eqn:Hq.
      * left. rewrite (decode_in_burst cfg s t word diff Hgap Hnew Hcs).
        set (si := idle_update s (sample t word) diff).
        assert (Hcmd : exists c, _command s = Some c).
        { unfold single_lane in Hsl.
          destruct (_quad_start s) as [ q | ] eqn:Hqs; [ | discriminate ].
          destruct (J2 q eq_refl) as (_ & _ & c & Hcmd & _). eauto. }
        destruct Hcmd as [c Hcmd].
        rewrite (assemble_quad_flush si word [] c Hsl E2 Hcmd).
        cbn [bind app].
        change (quad_shifted si word) with (quad_shifted s word).
        set (s2 := set_clock_count _ _).
        assert (Hloop : loop_fields s2 = loop_fields s).
        { subst s2. destruct (contains c CONTINUE_COMMANDS && _); reflexivity. }
        pose proof (buffers_aligned_fields _ _ Hloop Ha) as Ha2.
        destruct (outside_dummy_window _);
          apply process_result_returns; auto.
      * destruct (_mosi_data s) as [ mosi | ] eqn:Hmosi.
        -- right.
           assert (Hst : stale_flush).
           { exists diff. apply Z.eqb_eq in E2.
             repeat split; trivial. discriminate. }
           split; [ exact (Hraise Hst) | exact Hst ].
        -- left. rewrite (decode_in_burst cfg s t word diff Hgap Hnew Hcs).
           set (si := idle_update s (sample t word) diff).
           assert (Hcmd : exists c, _command s = Some c).
           { unfold single_lane in Hsl.
             destruct (_quad_start s) as [ q | ] eqn:Hqs; [ | discriminate ].
             destruct (J2 q eq_refl) as (_ & _ & c & Hcmd & _). eauto. }
           destruct Hcmd as [c Hcmd].
           rewrite (assemble_quad_flush si word [] c Hsl E2 Hcmd).
           cbn [bind app].
           set (s2 := set_clock_count _ _).
           assert (Hloop : loop_fields s2 = loop_fields s).
           { subst s2. destruct (contains c CONTINUE_COMMANDS && _);
               reflexivity. }
           pose proof (buffers_aligned_fields _ _ Hloop Ha) as Ha2.
           unfold loop_fields in Hloop.
           injection Hloop as _ _ _ _ Emosi _ _ _ _.
           rewrite Hmosi in Emosi.
           destruct (outside_dummy_window _);
             apply process_result_returns; auto.
    + left. rewrite (decode_in_burst cfg s t word diff Hgap Hnew Hcs).
      rewrite (assemble_quad_edge (idle_update s (sample t word) diff) word []
                 Hsl E2).
      cbn. eauto.
Qed.

Lemma before_stale_flush_reachable :
  reachable default_settings before_stale_flush.
Proof.
  eapply (reachable_run default_settings clock_period
            (bits_of_byte 0x6b ++ [0x1]) (1001 # 1000)%Q
            (final_state default_settings
               (clocked 1 clock_period (bits_of_byte 0x6b ++ [0xF])))).
  - apply (reachable_run default_settings clock_period
             (bits_of_byte 0x6b ++ [0xF]) 1%Q (init default_settings) _
             (repeat None 9)).
    + apply reachable_init.
    + vm_compute. reflexivity.
  - vm_compute. reflexivity.
Qed.

Lemma decode_raises_only_witness :
  decode default_settings before_stale_flush
    (sample (100100009 # 100000000) 0x2)
  = Raise ValueError.
Proof.
  destruct (proj1 (decode_raises_only default_settings before_stale_flush
                     (100100009 # 100000000)%Q 0x2
                     before_stale_flush_reachable))
    as [(s' & out & H) | (H & _)].
  - vm_compute in H. discriminate H.
  - exact H.
Defined.

(** ** The address of a data command *)

Lemma format_hex_width (k : nat) (n : Z) :
  (0 < k)%nat -> 0 <= n < 16 ^ Z.of_nat k ->
  String.length (format_hex (Z.of_nat k) n) = k.
Proof.
  intros Hk Hn. unfold format_hex.
  destruct (n <? 0) eqn:E; [ apply Z.ltb_lt in E; lia | ].
  unfold zfill. rewrite string_length_append, zeros_length.
  pose proof (hex_digits_length (S (Z.to_nat (Z.log2 n))) k n "" Hk Hn) as H.
  cbn [String.length] in H. unfold to_hex.
  rewrite Nat2Z.id. lia.
Qed.

Lemma read_address_bound (mosi : list Z) (n : Z) :
  n = 3 \/ n = 4 ->
  Forall (fun b => is_byte b = true) mosi ->
  1 + n <= Z.of_nat (List.length mosi) ->
  0 <= read_address mosi n < 256 ^ n.
Proof.
  intros Hn Hall Hlen.
  assert (Hb : forall b, is_byte b = true -> 0 <= b < 256).
  { intros b H. unfold is_byte in H. apply andb_true_iff in H as [H0 H1].
    apply Z.leb_le in H0. apply Z.ltb_lt in H1. lia. }
  destruct mosi as [ | op [ | a [ | b [ | c rest ] ] ] ];
    try (cbn [List.length] in Hlen; lia).
  inversion Hall as [ | ? ? _ Hall1 ]; subst.
  inversion Hall1 as [ | ? ? Ha Hall2 ]; subst.
  inversion Hall2 as [ | ? ? Hb' Hall3 ]; subst.
  inversion Hall3 as [ | ? ? Hc Hall4 ]; subst.
  apply Hb in Ha, Hb', Hc.
  destruct Hn as [-> | ->].
  - rewrite read_address_3. change (256 ^ 3) with 16777216. lia.
  - destruct rest as [ | d rest ]; [ cbn [List.length] in Hlen; lia | ].
    inversion Hall4 as [ | ? ? Hd _ ]; subst. apply Hb in Hd.
    rewrite read_address_4. change (256 ^ 4) with 4294967296. lia.
Qed.

(** X11. When the host-to-device bytes of a burst of a capture begin with a
    data opcode, are long enough for the address and pass the address
    filter, the burst is classified as a data command, the address read
    from the bytes is below 256 to the power of the address width, and the
    ["address"] field of the record is that address written with exactly
    twice the address width in hexadecimal digits (6, or 8 in 4-byte
    mode). *)
Theorem address_field_width (cfg : Settings) (s : State) (mosi : list Z) :
  reachable cfg s ->
  _mosi_data s = Some mosi ->
  contains (nth 0 mosi 0) DATA_COMMANDS = true ->
  1 + _address_bytes s <= Z.of_nat (List.length mosi) ->
  address_filtered cfg s (read_address mosi (_address_bytes s)) = false ->
  exists frame_data a,
    classify cfg s mosi = (s, Some "data_command", frame_data)
    /\ dict_get "address" frame_data = Some (VStr a)
    /\ a = format_hex (2 * _address_bytes s)
             (read_address mosi (_address_bytes s))
    /\ 0 <= read_address mosi (_address_bytes s) < 256 ^ _address_bytes s
    /\ Z.of_nat (String.length a) = 2 * _address_bytes s.
Proof.
  intros Hr Hmosi Hop Hlen Hfilter.
  pose proof (reachable_hold_bytes cfg s Hr mosi (or_introl Hmosi)) as Hall.
  pose proof (reachable_width cfg s Hr) as Hw.
  assert (Hb : 0 <= read_address mosi (_address_bytes s)
               < 256 ^ _address_bytes s).
  { apply read_address_bound; trivial. destruct Hw as [[-> _] | [-> _]]; auto. }
  pose proof (classify_data cfg s mosi Hop Hlen Hfilter) as Hcl.
  cbv zeta in Hcl.
  eexists _, _. split; [ exact Hcl | ].
  split; [ reflexivity | ].
  destruct Hw as [[E3 E6] | [E4 E8]].
  - rewrite E6, E3 in *. split; [ reflexivity | ]. split; [ exact Hb | ].
    change (2 * 3) with (Z.of_nat 6).
    rewrite (format_hex_width 6); [ reflexivity | lia | ].
    change (16 ^ Z.of_nat 6) with 16777216.
    change (256 ^ 3) with 16777216 in Hb. exact Hb.
  - rewrite E8, E4 in *. split; [ reflexivity | ]. split; [ exact Hb | ].
    change (2 * 4) with (Z.of_nat 8).
    rewrite (format_hex_width 8); [ reflexivity | lia | ].
    change (16 ^ Z.of_nat 8) with 4294967296.
    change (256 ^ 4) with 4294967296 in Hb. exact Hb.
Qed.

Lemma after_read_address_reachable :
  reachable default_settings after_read_address.
Proof.
  apply (reachable_run default_settings clock_period
           (flat_map bits_of_byte [0x03; 0x00; 0x05; 0x00; 0x00]) 1%Q
           (init default_settings) after_read_address (repeat None 40)).
  - apply reachable_init.
  - vm_compute. reflexivity.
Qed.

Lemma address_field_width_witness :
  exists frame_data,
    classify default_settings after_read_address
      [0x03; 0x00; 0x05; 0x00; 0x00]
    = (after_read_address, Some "data_command", frame_data)
    /\ dict_get "address" frame_data = Some (VStr "000500").
Proof.
  destruct (address_field_width default_settings after_read_address
              [0x03; 0x00; 0x05; 0x00; 0x00] after_read_address_reachable
              eq_refl eq_refl)
    as (frame_data & a & Hcl & Haddr & Ha & _).
  - vm_compute. discriminate.
  - reflexivity.
  - exists frame_data. split; [ exact Hcl | ].
    rewrite Haddr, Ha. reflexivity.
Defined.

(** ** Bytes on the four lanes *)

Lemma quad_lane_phase (s : State) (n acc c d : Z) (mosi miso : list Z) :
  quad_lane s n acc c d mosi miso -> single_lane s = false.
Proof.
  intros (Hq & H8 & Hn & _). unfold single_lane. rewrite Hq, Hn.
  apply Z.ltb_ge. exact H8.
Qed.

Lemma decode_quad_edge (cfg : Settings) (s : State) (t dt : Q) (word : Z)
    (n acc c d : Z) (mosi miso : list Z) :
  quad_lane s n acc c d mosi miso ->
  clock_running s t dt ->
  Z.shiftr word 15 = 0 ->
  n mod 2 = 0 ->
  exists s',
    decode cfg s (sample t word) = Ok (s', None)
    /\ quad_lane s' (n + 1) (Z.lor (Z.shiftl acc 4) (Z.land word 0xf)) c d
         mosi miso
    /\ clock_running s' (Qred (t + dt)) dt.
Proof.
  intros Hlane Hclk Hcs Hmod.
  pose proof (quad_lane_phase _ _ _ _ _ _ _ Hlane) as Hsl.
  destruct Hlane as (Hq & H8 & Hn & Hacc & Hcmd & Hd & Hmosi & Hmiso).
  destruct (clock_running_step s t dt word Hclk) as (diff & Hgap & Hnew & Hclk').
  rewrite (decode_in_burst cfg s t word diff Hgap (Hnew _))
    by (rewrite Hcs; discriminate).
  rewrite (assemble_quad_edge (idle_update s (sample t word) diff) word [] Hsl)
    by (cbn; rewrite Hn; apply Z.eqb_neq; lia).
  eexists. split; [ reflexivity | ]. split.
  - unfold quad_lane, quad_edge, quad_shifted. cbn.
    rewrite Hq, Hn, Hacc, Hcmd, Hd, Hmosi, Hmiso. repeat split. lia.
  - revert Hclk'. apply clock_running_fields; reflexivity.
Qed.

Lemma decode_quad_flush (cfg : Settings) (s : State) (t dt : Q) (word : Z)
    (n acc c d : Z) (mosi miso : list Z) :
  let q := Z.lor (Z.shiftl acc 4) (Z.land word 0xf) in
  quad_lane s n acc c d mosi miso ->
  clock_running s t dt ->
  Z.shiftr word 15 = 0 ->
  n mod 2 = 1 ->
  is_byte q = true ->
  exists s',
    decode cfg s (sample t word) = Ok (s', None)
    /\ quad_lane s' (n + 1) 0 c d
         (mosi ++ [if in_dummy_window d n then 0 else q])
         (miso ++ [if in_dummy_window d n then q else 0])
    /\ clock_running s' (Qred (t + dt)) dt.
Proof.
  intros q Hlane Hclk Hcs Hmod Hbyte.
  pose proof (quad_lane_phase _ _ _ _ _ _ _ Hlane) as Hsl.
  destruct Hlane as (Hq & H8 & Hn & Hacc & Hcmd & Hd & Hmosi & Hmiso).
  destruct (clock_running_step s t dt word Hclk) as (diff & Hgap & Hnew & Hclk').
  rewrite (decode_in_burst cfg s t word diff Hgap (Hnew _))
    by (rewrite Hcs; discriminate).
  rewrite (assemble_quad_flush (idle_update s (sample t word) diff) word [] c
             Hsl)
    by first [ cbn; rewrite Hn, Hmod; reflexivity | exact Hcmd ].
  cbn [bind app]. rewrite !quad_shifted_idle.
  unfold quad_shifted. rewrite Hacc. fold q.
  unfold outside_dummy_window. cbn [idle_update _clock_count _dummy
    set_last_time set_fastest_cs].
  rewrite Hn, Hd. fold (in_dummy_window d n).
  set (s2 := set_clock_count _ _).
  assert (Hf : _quad_start s2 = Some 8 /\ _clock_count s2 = n + 1
               /\ _quad_data s2 = 0 /\ _command s2 = Some c /\ _dummy s2 = d
               /\ _mosi_data s2 = Some mosi /\ _miso_data s2 = Some miso
               /\ _last_time s2 = Some t
               /\ _fastest_cs s2 = py_min (diff * 4)%Q (_fastest_cs s)).
  { subst s2. destruct (contains c CONTINUE_COMMANDS && _); cbn;
      repeat split; assumption. }
  destruct Hf as (Hq2 & Hn2 & Hacc2 & Hcmd2 & Hd2 & Hmosi2 & Hmiso2 & Hl2 & Hf2).
  clearbody s2.
  assert (Hclk2 : forall s3,
             _last_time s3 = _last_time s2 -> _fastest_cs s3 = _fastest_cs s2 ->
             clock_running s3 (Qred (t + dt)) dt).
  { intros s3 E1 E2. revert Hclk'. apply clock_running_fields.
    - rewrite E1, Hl2. reflexivity.
    - rewrite E2, Hf2. reflexivity. }
  destruct (in_dummy_window d n); cbn [negb].
  - rewrite (process_one_result cfg s2 mosi miso 0 q None Hmosi2 Hmiso2
               eq_refl Hbyte).
    eexists. split; [ reflexivity | ]. split.
    + unfold quad_lane. cbn. rewrite Hq2, Hn2, Hacc2, Hcmd2, Hd2.
      repeat split. lia.
    + apply Hclk2; reflexivity.
  - rewrite (process_one_result cfg s2 mosi miso q 0 None Hmosi2 Hmiso2
               Hbyte eq_refl).
    eexists. split; [ reflexivity | ]. split.
    + unfold quad_lane. cbn. rewrite Hq2, Hn2, Hacc2, Hcmd2, Hd2.
      repeat split. lia.
    + apply Hclk2; reflexivity.
Qed.

Lemma nibbles_of_byte_pack (b : Z) :
  is_byte b = true ->
  Z.lor (Z.shiftl (Z.lor (Z.shiftl 0 4) (Z.shiftr b 4)) 4) (Z.land b 0xf)
  = b.
Proof.
  intro Hb. unfold is_byte in Hb. apply andb_true_iff in Hb as [H0 H1].
  apply Z.leb_le in H0. apply Z.ltb_lt in H1.
  assert (Hall : forallb
                   (fun n =>
                      let b := Z.of_nat n in
                      Z.lor (Z.shiftl (Z.lor (Z.shiftl 0 4) (Z.shiftr b 4)) 4)
                        (Z.land b 0xf) =? b)
                   (seq 0 256) = true) by (vm_compute; reflexivity).
  rewrite forallb_forall in Hall.
  specialize (Hall (Z.to_nat b)). cbv zeta in Hall.
  rewrite Z2Nat.id in Hall by exact H0.
  apply Z.eqb_eq, Hall, in_seq. lia.
Qed.

(** X12. In the quad phase of an open burst, at an even clock-edge index
    and with the nibble accumulator clear, let the samples carry on the
    four lanes, with chip select low and one clock period apart, the high
    and then the low nibble of each of the given bytes.  Then the run
    returns with no record, every byte is appended in order to one buffer
    and 0 to the other (to the device-to-host buffer when the edge that
    completes the byte lies in the dummy window, to the host-to-device
    buffer otherwise), and the decoder is again at a byte boundary with
    the accumulator clear. *)
Theorem quad_round_trip (cfg : Settings) (dt : Q) (bytes words : list Z)
    (s : State) (t : Q) (n c d : Z) (mosi miso : list Z) :
  quad_lane s n 0 c d mosi miso ->
  n mod 2 = 0 ->
  clock_running s t dt ->
  carries_nibbles words (flat_map nibbles_of_byte bytes) ->
  Forall (fun b => is_byte b = true) bytes ->
  exists s',
    run cfg s (clocked t dt words) = Ok (s', repeat None (List.length words))
    /\ quad_lane s' (n + Z.of_nat (List.length words)) 0 c d
         (mosi ++ quad_mosi d n bytes) (miso ++ quad_miso d n bytes)
    /\ clock_running s' (advance t dt (List.length words)) dt.
Proof.
  revert words s t n mosi miso.
  induction bytes as [ | b bytes IH ];
    intros words s t n mosi miso Hlane Hmod Hclk Hcar Hbytes.
  - inversion Hcar; subst. exists s.
    cbn [clocked run List.length repeat advance quad_mosi quad_miso].
    split; [ reflexivity | ].
    rewrite !app_nil_r. change (Z.of_nat 0) with 0. rewrite Z.add_0_r.
    split; assumption.
  - cbn [flat_map] in Hcar. unfold nibbles_of_byte at 1 in Hcar.
    cbn [app] in Hcar.
    inversion Hcar as [ | w1 nb1 ws1 nbs1 [Hcs1 Hn1] Hcar1 ]; subst.
    inversion Hcar1 as [ | w2 nb2 ws2 nbs2 [Hcs2 Hn2] Hcar2 ]; subst.
    inversion Hbytes as [ | ? ? Hb Hrest ]; subst.
    destruct (decode_quad_edge cfg s t dt w1 n 0 c d mosi miso Hlane Hclk
                Hcs1 Hmod) as (s1 & Hdec1 & Hlane1 & Hclk1).
    rewrite Hn1 in Hlane1.
    assert (Hq : Z.lor (Z.shiftl (Z.lor (Z.shiftl 0 4) (Z.shiftr b 4)) 4)
                   (Z.land w2 0xf) = b)
      by (rewrite Hn2; apply nibbles_of_byte_pack; exact Hb).
    destruct (decode_quad_flush cfg s1 (Qred (t + dt)) dt w2 (n + 1) _ c d
                mosi miso Hlane1 Hclk1 Hcs2)
      as (s2 & Hdec2 & Hlane2 & Hclk2).
    + Z.div_mod_to_equations. lia.
    + rewrite Hq. exact Hb.
    + rewrite Hq in Hlane2.
      destruct (IH ws2 s2 (Qred (Qred (t + dt) + dt)) (n + 1 + 1) _ _
                  Hlane2 ltac:(Z.div_mod_to_equations; lia) Hclk2 Hcar2 Hrest)
        as (s' & Hrun & Hlane' & Hclk').
      exists s'.
      change (clocked t dt (w1 :: w2 :: ws2))
        with (sample t w1
              :: sample (Qred (t + dt)) w2
              :: clocked (Qred (Qred (t + dt) + dt)) dt ws2).
      cbn [run]. rewrite Hdec1. cbn [bind]. rewrite Hdec2. cbn [bind].
      rewrite Hrun. cbn [bind].
      split; [ reflexivity | ]. split; [ | exact Hclk' ].
      cbn [quad_mosi quad_miso].
      replace (n + Z.of_nat (List.length (w1 :: w2 :: ws2)))
        with (n + 1 + 1 + Z.of_nat (List.length ws2))
        by (cbn [List.length]; lia).
      replace (n + 2) with (n + 1 + 1) by lia.
      rewrite <- !app_assoc in Hlane'. exact Hlane'.
Qed.

Lemma quad_round_trip_witness :
  exists s',
    run default_settings after_quad_opcode
      (clocked (100000008 # 100000000) clock_period
         (flat_map nibbles_of_byte [0x00; 0x10; 0x00; 0xF0; 0x55; 0x66; 0x77]))
    = Ok (s', repeat None 14)
    /\ _mosi_data s' = Some [0xeb; 0x00; 0x10; 0x00; 0xF0; 0; 0; 0x77]
    /\ _miso_data s' = Some [0; 0; 0; 0; 0; 0x55; 0x66; 0].
Proof.
  destruct (quad_round_trip default_settings clock_period
              [0x00; 0x10; 0x00; 0xF0; 0x55; 0x66; 0x77]
              (flat_map nibbles_of_byte
                 [0x00; 0x10; 0x00; 0xF0; 0x55; 0x66; 0x77])
              after_quad_opcode (100000008 # 100000000)%Q 8 0xeb 4
              [0xeb] [0])
    as (s' & Hrun & Hlane & _).
  - unfold quad_lane. repeat split; first [ reflexivity | lia ].
  - reflexivity.
  - split; [ reflexivity | ].
    exists (100000007 # 100000000)%Q.
    split; [ reflexivity | ].
    split; [ reflexivity | vm_compute; intro H; discriminate H ].
  - unfold carries_nibbles. cbn [flat_map nibbles_of_byte app].
    repeat (constructor; [ split; reflexivity | ]). constructor.
  - repeat constructor.
  - exists s'. split; [ exact Hrun | ].
    destruct Hlane as (_ & _ & _ & _ & _ & _ & Hmosi & Hmiso).
    split; [ exact Hmosi | exact Hmiso ].
Defined.
